(** * Boon employee portal: nudge dispatch, Slack interactions and survey
      progression

    A shallow embedding of the decision logic of the portal's edge functions
    (nudge-scheduler, slack-interactions, slack-oauth, the shared Slack
    helpers), of the survey resolver (the [pending_surveys] view,
    [get_pending_survey] and [fetchPendingSurvey]) and of the portal's own
    writes (survey submissions, action item status, the program lookup),
    followed by the properties established about them.

    Both deployments of each edge function are embedded: the one built on
    [_shared/slack.ts] and the self-contained one meant for the Supabase
    dashboard.  The type [variant] selects between them. *)

From Stdlib Require Import ZArith Ascii String List Bool Lia Sorted.
From stdpp Require Import base option list strings gmap.

Local Open Scope Z_scope.

Inductive variant : Type :=
| Shared          (* functions/<name>/index.ts on top of functions/_shared *)
| SelfContained.  (* the single-file copies for the Supabase dashboard *)

(** ** JavaScript string primitives used by the handlers *)

Module JS.

Definition code (c : ascii) : Z := Z.of_N (N_of_ascii c).

Definition between (lo hi : Z) (c : ascii) : bool :=
  (lo <=? code c) && (code c <=? hi).

(** [\w] of a JavaScript regular expression: [A-Za-z0-9_]. *)
Definition is_word (c : ascii) : bool :=
  between 48 57 c || between 65 90 c || between 97 122 c || (code c =? 95).

(** White space skipped by [parseInt] (the ASCII part of it). *)
Definition is_ws (c : ascii) : bool :=
  (code c =? 32) || between 9 13 c.

(** Value of a character as a digit, for radices up to 16. *)
Definition digit (c : ascii) : option Z :=
  if between 48 57 c then Some (code c - 48)
  else if between 97 102 c then Some (code c - 87)
  else if between 65 70 c then Some (code c - 55)
  else None.

Definition digit_in (radix : Z) (c : ascii) : option Z :=
  match digit c with
  | Some d => if d <? radix then Some d else None
  | None => None
  end.

Fixpoint skip_ws (s : string) : string :=
  match s with
  | String c s' => if is_ws c then skip_ws s' else s
  | EmptyString => EmptyString
  end.

(** Longest prefix of digits, accumulated most significant first. *)
Fixpoint digits (radix acc : Z) (s : string) : Z :=
  match s with
  | String c s' =>
      match digit_in radix c with
      | Some d => digits radix (radix * acc + d) s'
      | None => acc
      end
  | EmptyString => acc
  end.

Definition starts_with_digit (radix : Z) (s : string) : bool :=
  match s with
  | String c _ => match digit_in radix c with Some _ => true | None => false end
  | EmptyString => false
  end.

Definition strip_sign (s : string) : Z * string :=
  match s with
  | String "-"%char r => (-1, r)
  | String "+"%char r => (1, r)
  | _ => (1, s)
  end.

Definition strip_hex_prefix (s : string) : option string :=
  match s with
  | String "0"%char (String "x"%char r) => Some r
  | String "0"%char (String "X"%char r) => Some r
  | _ => None
  end.

(** [parseInt(s, 10)]; [None] stands for [NaN]. *)
Definition parseInt10 (s : string) : option Z :=
  let '(sign, body) := strip_sign (skip_ws s) in
  if starts_with_digit 10 body then Some (sign * digits 10 0 body) else None.

(** [parseInt(s)] with no radix: a [0x] prefix switches to base 16. *)
Definition parseInt (s : string) : option Z :=
  let '(sign, body) := strip_sign (skip_ws s) in
  match strip_hex_prefix body with
  | Some hex =>
      if starts_with_digit 16 hex then Some (sign * digits 16 0 hex) else None
  | None =>
      if starts_with_digit 10 body then Some (sign * digits 10 0 body) else None
  end.

(** [s.split(sep)] for a one-character separator: never empty. *)
Fixpoint split (sep : ascii) (s : string) : list string :=
  match s with
  | EmptyString => [EmptyString]
  | String c s' =>
      if Ascii.eqb c sep then EmptyString :: split sep s'
      else match split sep s' with
           | piece :: rest => String c piece :: rest
           | [] => [String c EmptyString]
           end
  end.

Definition lower_char (c : ascii) : ascii :=
  if between 65 90 c then ascii_of_N (N_of_ascii c + 32) else c.

Definition upper_char (c : ascii) : ascii :=
  if between 97 122 c then ascii_of_N (N_of_ascii c - 32) else c.

Fixpoint map_string (f : ascii -> ascii) (s : string) : string :=
  match s with
  | EmptyString => EmptyString
  | String c s' => String (f c) (map_string f s')
  end.

Definition toLowerCase : string -> string := map_string lower_char.
Definition toUpperCase : string -> string := map_string upper_char.

(** Truthiness of a string: only the empty string is falsy. *)
Definition truthy (s : string) : bool :=
  match s with EmptyString => false | _ => true end.

(** [a || b] on possibly-undefined strings. *)
Definition or_else (a : option string) (b : string) : string :=
  match a with
  | Some s => if truthy s then s else b
  | None => b
  end.

(** [Math.abs(a - b) <= bound], where a [NaN] operand makes it false. *)
Definition abs_diff_le (a b : option Z) (bound : Z) : bool :=
  match a, b with
  | Some x, Some y => Z.abs (x - y) <=? bound
  | _, _ => false
  end.

(** [Math.abs(a - b) > bound], where a [NaN] operand makes it false. *)
Definition abs_diff_gt (a b : option Z) (bound : Z) : bool :=
  match a, b with
  | Some x, Some y => bound <? Z.abs (x - y)
  | _, _ => false
  end.

(** Vocabulary for stating properties of [split]: the characters of [s] up
    to its first [sep], and whether [sep] occurs in [s]. *)
Fixpoint before_first (sep : ascii) (s : string) : string :=
  match s with
  | EmptyString => EmptyString
  | String c s' =>
      if Ascii.eqb c sep then EmptyString else String c (before_first sep s')
  end.

Fixpoint contains (sep : ascii) (s : string) : bool :=
  match s with
  | EmptyString => false
  | String c s' => Ascii.eqb c sep || contains sep s'
  end.

End JS.

(** ** The timing gate of the nudge scheduler *)

Module Timing.

(** [parseInt(preferredTime.split(':')[0], 10)]; the self-contained copy
    reads [parseInt(preferredTime?.split(':')[0] || '9', 10)]. *)
Definition preferredHour (v : variant) (preferredTime : string) : option Z :=
  match v with
  | Shared => JS.parseInt10 (hd EmptyString (JS.split ":" preferredTime))
  | SelfContained =>
      JS.parseInt10 (JS.or_else (head (JS.split ":" preferredTime)) "9")
  end.

(** [isAppropriateTime(preferredTime, timezone)].

    [userTime] is what [Intl.DateTimeFormat('en-US', { timeZone, hour:
    'numeric', hour12: false }).format(now)] produced, [None] when it threw
    (an unknown zone name raises a [RangeError]).  [preferredTime] is [None]
    for a [null] column value. *)
Definition isAppropriateTime (v : variant)
    (preferredTime : option string) (userTime : option string) : bool :=
  match userTime with
  | None => true                       (* formatter threw: catch branch *)
  | Some ut =>
      let currentHour := JS.parseInt10 ut in
      match v, preferredTime with
      | Shared, None => true           (* null.split throws: catch branch *)
      | SelfContained, None =>
          JS.abs_diff_le currentHour (JS.parseInt10 "9") 1
      | _, Some pt => JS.abs_diff_le currentHour (preferredHour v pt) 1
      end
  end.

(** The hour cycle the formatter resolves for [hour12: false]: h23 counts
    the hours of a day from 0 to 23, h24 from 1 to 24.  Which of the two
    [en-US] gets depends on the runtime's edition of ECMA-402. *)
Inductive hour_cycle : Type := H23 | H24.

(** The number the formatter prints for the local hour [h] of 0 to 23; a
    leading zero is of no consequence to [parseInt]. *)
Definition printed_hour (cycle : hour_cycle) (h : Z) : Z :=
  match cycle with
  | H23 => h
  | H24 => if h =? 0 then 24 else h
  end.

End Timing.

(** ** Template rendering *)

Module Template.

(** A [Record<string, string | number | null | undefined>] as its own
    entries in insertion order; numbers appear as their decimal text, [None]
    is [null] or [undefined]. *)
Definition vars : Type := list (string * option string).

Fixpoint lookup (key : string) (vs : vars) : option (option string) :=
  match vs with
  | [] => None
  | (k, v) :: rest => if String.eqb k key then Some v else lookup key rest
  end.

(** [String(f)] for a built-in function [f] of the given name. *)
Definition native (name : string) : string :=
  "function " +:+ name +:+ "() { [native code] }".

(** What [variables[key]] finds, as [String(..)] prints it, when [key] is no
    own entry: an object literal inherits the members of
    [Object.prototype]. *)
Definition inherited (key : string) : option string :=
  if String.eqb key "constructor" then Some (native "Object")
  else if String.eqb key "__proto__" then Some "[object Object]"
  else if existsb (String.eqb key)
            [ "toString"; "toLocaleString"; "valueOf"; "hasOwnProperty";
              "isPrototypeOf"; "propertyIsEnumerable"; "__defineGetter__";
              "__defineSetter__"; "__lookupGetter__"; "__lookupSetter__" ]
  then Some (native key)
  else None.

(** [value !== null && value !== undefined ? String(value) : ''] on
    [variables[key]]: an own entry first, then the prototype. *)
Definition value_of (vs : vars) (key : string) : string :=
  match lookup key vs with
  | Some (Some s) => s
  | Some None => EmptyString
  | None =>
      match inherited key with
      | Some text => text
      | None => EmptyString
      end
  end.

(** Longest prefix of word characters: its text, its length, what follows. *)
Fixpoint span_word (s : string) : string * nat * string :=
  match s with
  | String c s' =>
      if JS.is_word c
      then let '(w, n, r) := span_word s' in (String c w, S n, r)
      else (EmptyString, O, s)
  | EmptyString => (EmptyString, O, EmptyString)
  end.

(** One attempt of [/\{\{(\w+)\}\}/] at the start of [s]: the captured
    key and the width of the whole match. *)
Definition match_placeholder (s : string) : option (string * nat) :=
  match s with
  | String "{"%char (String "{"%char r) =>
      match span_word r with
      | (w, S n, String "}"%char (String "}"%char _)) => Some (w, (S n + 4)%nat)
      | _ => None
      end
  | _ => None
  end.

(** The global replace, left to right over non-overlapping matches; [skip]
    counts the characters of the current match still to be consumed. *)
Fixpoint render_from (vs : vars) (skip : nat) (s : string) : string :=
  match s with
  | EmptyString => EmptyString
  | String c s' =>
      match skip with
      | S k => render_from vs k s'
      | O =>
          match match_placeholder s with
          | Some (key, width) =>
              value_of vs key +:+ render_from vs (Nat.pred width) s'
          | None => String c (render_from vs O s')
          end
      end
  end.

(** [renderTemplate(template, variables)] of [_shared/slack.ts]. *)
Definition renderTemplate (template : string) (variables : vars) : string :=
  render_from variables O template.

Fixpoint is_prefix (p s : string) : bool :=
  match p, s with
  | EmptyString, _ => true
  | String a p', String b s' => Ascii.eqb a b && is_prefix p' s'
  | String _ _, EmptyString => false
  end.

Fixpoint drop (n : nat) (s : string) : string :=
  match n, s with
  | S k, String _ s' => drop k s'
  | _, _ => s
  end.

(** Expansion of a replacement string ([GetSubstitution]) for a pattern
    without capture groups: [$$], [$&], [$`] and [$']. *)
Fixpoint expand (repl matched before after : string) : string :=
  match repl with
  | EmptyString => EmptyString
  | String c t =>
      if Ascii.eqb c "$" then
        match t with
        | String d r =>
            if Ascii.eqb d "$" then String "$" (expand r matched before after)
            else if Ascii.eqb d "&" then matched +:+ expand r matched before after
            else if Ascii.eqb d "`" then before +:+ expand r matched before after
            else if Ascii.eqb d "'" then after +:+ expand r matched before after
            else String c (expand t matched before after)
        | EmptyString => String c EmptyString
        end
      else String c (expand t matched before after)
  end.

(** [s.replace(new RegExp(needle, 'g'), repl)] for a pattern that matches the
    literal text [needle] (non-empty). *)
Fixpoint replace_from (needle repl before : string) (skip : nat) (s : string)
    : string :=
  match s with
  | EmptyString => EmptyString
  | String c s' =>
      let before' := before +:+ String c EmptyString in
      match skip with
      | S k => replace_from needle repl before' k s'
      | O =>
          if is_prefix needle s
          then expand repl needle before (drop (String.length needle) s)
               +:+ replace_from needle repl before'
                     (Nat.pred (String.length needle)) s'
          else String c (replace_from needle repl before' O s')
      end
  end.

Definition replaceAll (needle repl s : string) : string :=
  replace_from needle repl EmptyString O s.

(** The pattern [`\\{\\{${key}\\}\\}`] matches the text [{{key}}] when
    [key] is an identifier, which it is at every call site. *)
Definition placeholder (key : string) : string := "{{" +:+ key +:+ "}}".

(** [String(value ?? '')]. *)
Definition string_or_empty (v : option string) : string :=
  match v with Some s => s | None => EmptyString end.

(** The loop of the self-contained [renderBlocks], on the serialised
    blocks: one global replace per entry of [vars], in entry order. *)
Definition renderEntries (json : string) (vs : vars) : string :=
  fold_left
    (fun acc '(key, value) =>
       replaceAll (placeholder key) (string_or_empty value) acc)
    vs json.

(** [renderBlocks] between [JSON.stringify] and [JSON.parse]. *)
Definition renderBlocks (v : variant) (json : string) (vs : vars) : string :=
  match v with
  | Shared => renderTemplate json vs
  | SelfContained => renderEntries json vs
  end.

(** Vocabulary for stating properties: every character of [s] is a word
    character. *)
Fixpoint all_word (s : string) : bool :=
  match s with
  | EmptyString => true
  | String c s' => JS.is_word c && all_word s'
  end.

(** Vocabulary for stating properties: [needle] occurs somewhere in [s]. *)
Fixpoint occurs (needle s : string) : bool :=
  is_prefix needle s
  || match s with
     | String _ s' => occurs needle s'
     | EmptyString => false
     end.

End Template.

(** ** The tables the edge functions read and write *)

Module Store.

(** A row of [action_items], with the first name of its employee as
    [get_due_action_items] reports it. *)
Record ActionItemRow : Type := {
  ai_email : string;
  ai_action_text : string;
  ai_due_date : string;
  ai_coach_name : option string;
  ai_first_name : string;
  ai_status : string;
  ai_completed_at : option Z;   (* instant of [new Date()], epoch ms *)
}.

(** A row of [slack_nudges]. *)
Record NudgeRow : Type := {
  n_employee_email : string;
  n_nudge_type : string;
  n_reference_id : string;
  n_reference_type : string;
  n_message_ts : string;
  n_channel_id : string;
  n_status : string;
  n_response : option string;
  n_responded_at : option Z;
}.

Record Db : Type := {
  action_items : gmap string ActionItemRow;      (* keyed by id *)
  slack_nudges : list NudgeRow;
  slack_installations : gmap string string;      (* team_id to bot_token *)
}.

Definition with_action_items (f : gmap string ActionItemRow -> gmap string ActionItemRow)
    (db : Db) : Db :=
  {| action_items := f (action_items db);
     slack_nudges := slack_nudges db;
     slack_installations := slack_installations db |}.

Definition with_slack_nudges (f : list NudgeRow -> list NudgeRow) (db : Db) : Db :=
  {| action_items := action_items db;
     slack_nudges := f (slack_nudges db);
     slack_installations := slack_installations db |}.

(** [from('action_items').update({ status: 'completed', completed_at:
    new Date().toISOString() }).eq('id', id)]: rows other than [id] are
    untouched, and nothing is inserted when [id] names no row. *)
Definition complete_row (now : Z) (row : ActionItemRow) : ActionItemRow :=
  {| ai_email := ai_email row;
     ai_action_text := ai_action_text row;
     ai_due_date := ai_due_date row;
     ai_coach_name := ai_coach_name row;
     ai_first_name := ai_first_name row;
     ai_status := "completed";
     ai_completed_at := Some now |}.

Definition mark_completed (now : Z) (id : string) (db : Db) : Db :=
  with_action_items (alter (complete_row now) id) db.

(** Modelled from the spec: the [record_nudge] procedure, whose definition
    is not part of the sources.  "On a successful send, persist a new
    NudgeRecord with status=sent and the handle." *)
Definition record_nudge (email nudge_type reference_id reference_type
                         message_ts channel_id : string) (db : Db) : Db :=
  with_slack_nudges
    (fun rows =>
       rows ++ [ {| n_employee_email := email;
                    n_nudge_type := nudge_type;
                    n_reference_id := reference_id;
                    n_reference_type := reference_type;
                    n_message_ts := message_ts;
                    n_channel_id := channel_id;
                    n_status := "sent";
                    n_response := None;
                    n_responded_at := None |} ])
    db.

Definition respond (now : Z) (message_ts channel_id response : string)
    (row : NudgeRow) : NudgeRow :=
  if String.eqb (n_message_ts row) message_ts
     && String.eqb (n_channel_id row) channel_id
  then {| n_employee_email := n_employee_email row;
          n_nudge_type := n_nudge_type row;
          n_reference_id := n_reference_id row;
          n_reference_type := n_reference_type row;
          n_message_ts := n_message_ts row;
          n_channel_id := n_channel_id row;
          n_status := "responded";
          n_response := Some response;
          n_responded_at := Some now |}
  else row.

(** Modelled from the spec: the [record_nudge_response] procedure, whose
    definition is not part of the sources.  "Look up the NudgeRecord by
    (message handle, channel id); if found, set status=responded,
    response=button id, response timestamp=now." *)
Definition record_nudge_response (now : Z) (message_ts channel_id response : string)
    (db : Db) : Db :=
  with_slack_nudges (map (respond now message_ts channel_id response)) db.

(** The dedupe key of a row. *)
Definition dedupe_key (row : NudgeRow) : string * string * string :=
  (n_employee_email row, n_nudge_type row, n_reference_id row).

End Store.

(** ** The slack-interactions edge function *)

Module Interactions.
Import Store.

(** What [JSON.parse(params.get('payload'))] yields, as far as the handler
    destructures it. *)
Record Action : Type := {
  action_id : string;
  block_id : option string;
}.

Record Payload : Type := {
  p_type : string;
  p_actions : list Action;
  p_message_ts : option string;    (* message.ts, [None] without a message *)
  p_channel_id : option string;    (* channel.id, [None] without a channel *)
  p_team_id : option string;       (* payload.team?.id *)
  p_challenge : string;
}.

Inductive Decoded : Type :=
| NoPayload                 (* the form has no [payload] field *)
| Malformed                 (* [JSON.parse] throws *)
| Parsed (p : Payload).

Record Request : Type := {
  r_method : string;
  r_signature : option string;     (* x-slack-signature *)
  r_timestamp : option string;     (* x-slack-request-timestamp *)
  r_body : string;                 (* the raw text the signature covers *)
  r_decoded : Decoded;             (* what the raw text decodes to *)
}.

Record Env : Type := {
  e_signing_secret : option string;   (* Deno.env.get('SLACK_SIGNING_SECRET') *)
  e_now : Z;                          (* Date.now(), epoch ms *)
}.

(** One call of [chat.update]. *)
Record Update : Type := {
  u_token : string;
  u_channel : string;
  u_ts : string;
  u_button : string;
}.

Record Outcome : Type := {
  o_status : Z;                 (* HTTP status of the reply *)
  o_db : Db;
  o_updates : list Update;
}.

Definition reply (status : Z) (db : Db) : Outcome :=
  {| o_status := status; o_db := db; o_updates := [] |}.

(** [blockId.split('_')[1]], [None] for [undefined]. *)
Definition referenceId (blockId : string) : option string :=
  JS.split "_" blockId !! 1%nat.

Definition header (h : option string) : string :=
  match h with Some s => s | None => EmptyString end.

Section Crypto.

(** [crypto.subtle.sign('HMAC', key, message)] with SHA-256, rendered as
    lower-case hexadecimal: the platform primitive, not repository code. *)
Variable hmac_sha256_hex : string -> string -> string.

Definition computedSignature (signingSecret timestamp body : string) : string :=
  "v0=" +:+ hmac_sha256_hex signingSecret ("v0:" +:+ timestamp +:+ ":" +:+ body).

(** [verifySlackSignature(signingSecret, signature, timestamp, body)];
    only the self-contained copy looks at the clock. *)
Definition verifySlackSignature (v : variant) (now : Z)
    (signingSecret signature timestamp body : string) : bool :=
  match v with
  | Shared =>
      String.eqb (computedSignature signingSecret timestamp body) signature
  | SelfContained =>
      if JS.abs_diff_gt (Some (now / 1000)) (JS.parseInt timestamp) 300
      then false
      else String.eqb (computedSignature signingSecret timestamp body) signature
  end.

(** The signature step of the handler: [true] lets the request through. *)
Definition authentic (v : variant) (env : Env) (req : Request) : option bool :=
  let signature := header (r_signature req) in
  let timestamp := header (r_timestamp req) in
  match v with
  | Shared =>
      (* getEnvVar throws on a missing or empty value *)
      match e_signing_secret env with
      | Some secret =>
          if JS.truthy secret
          then Some (verifySlackSignature Shared (e_now env) secret
                       signature timestamp (r_body req))
          else None
      | None => None
      end
  | SelfContained =>
      let secret := header (e_signing_secret env) in
      (* signingSecret && !(await verifySlackSignature(..)) *)
      if JS.truthy secret
      then Some (verifySlackSignature SelfContained (e_now env) secret
                   signature timestamp (r_body req))
      else Some true
  end.

Definition known_button (actionId : string) : bool :=
  existsb (String.eqb actionId)
    ["action_done"; "action_in_progress"; "action_reschedule"; "need_help";
     "progress_great"; "progress_slow"; "progress_stuck"].

(** [updateSlackMessage(installation.bot_token, channel.id, message.ts, ..)]:
    dereferencing a missing [message] or [channel] throws, and the handler's
    [catch] then answers 200 with what was written so far. *)
Definition update_message (token button : string) (p : Payload) (db : Db)
    : Outcome :=
  match p_channel_id p, p_message_ts p with
  | Some channel, Some ts =>
      {| o_status := 200; o_db := db;
         o_updates := [ {| u_token := token; u_channel := channel;
                           u_ts := ts; u_button := button |} ] |}
  | _, _ => reply 200 db
  end.

(** The [switch (actionId)] of the shared handler. *)
Definition dispatch_shared (now : Z) (token actionId : string)
    (ref : option string) (p : Payload) (db : Db) : Outcome :=
  if negb (known_button actionId) then reply 200 db
  else
    let db1 :=
      if String.eqb actionId "action_done"
      then match ref with
           | Some id => mark_completed now id db
           | None => db                 (* .eq('id', undefined) matches no row *)
           end
      else db in
    match p_message_ts p, p_channel_id p with
    | Some ts, Some channel =>
        update_message token actionId p
          (record_nudge_response now ts channel actionId db1)
    | _, _ => reply 200 db1             (* TypeError, caught *)
    end.

(** The response recording and [switch (actionId)] of the self-contained
    handler. *)
Definition dispatch_self_contained (now : Z) (token actionId : string)
    (ref : option string) (p : Payload) (db : Db) : Outcome :=
  let db1 :=
    match p_message_ts p, p_channel_id p with
    | Some ts, Some channel =>
        if JS.truthy ts && JS.truthy channel
        then record_nudge_response now ts channel actionId db
        else db
    | _, _ => db
    end in
  if negb (known_button actionId) then reply 200 db1
  else
    let db2 :=
      if String.eqb actionId "action_done"
      then match ref with
           | Some id => if JS.truthy id then mark_completed now id db1 else db1
           | None => db1
           end
      else db1 in
    update_message token actionId p db2.

Definition lookup_installation (p : Payload) (db : Db) : option string :=
  match p_team_id p with
  | Some team =>
      match slack_installations db !! team with
      | Some token => if JS.truthy token then Some token else None
      | None => None
      end
  | None => None
  end.

(** The body of [Deno.serve]. *)
Definition handle (v : variant) (env : Env) (req : Request) (db : Db) : Outcome :=
  if negb (String.eqb (r_method req) "POST") then reply 405 db
  else
    match authentic v env req with
    | None => reply 200 db                     (* getEnvVar threw, caught *)
    | Some false => reply 401 db               (* 'Invalid signature' *)
    | Some true =>
        match r_decoded req with
        | NoPayload => reply 400 db            (* 'Missing payload' *)
        | Malformed => reply 200 db            (* JSON.parse threw, caught *)
        | Parsed p =>
            if String.eqb (p_type p) "url_verification" then reply 200 db
            else if String.eqb (p_type p) "block_actions" then
              match p_actions p with
              | action :: _ =>
                  let actionId := action_id action in
                  let blockId := JS.or_else (block_id action) EmptyString in
                  let ref := referenceId blockId in
                  match lookup_installation p db with
                  | None => reply 200 db
                  | Some token =>
                      match v with
                      | Shared => dispatch_shared (e_now env) token actionId ref p db
                      | SelfContained =>
                          dispatch_self_contained (e_now env) token actionId ref p db
                      end
                  end
              | [] => reply 200 db
              end
            else reply 200 db
        end
    end.

(** Vocabulary for stating properties of [handle]: the action item an
    [action_done] click names, whether [req] is such a click for [id], and
    whether the workspace of [req] has an installation. *)
Definition click_target (req : Request) : option string :=
  match r_decoded req with
  | Parsed p =>
      match p_actions p with
      | action :: _ =>
          if String.eqb (action_id action) "action_done"
          then referenceId (JS.or_else (block_id action) EmptyString)
          else None
      | [] => None
      end
  | _ => None
  end.

Definition is_done_click (req : Request) (id : string) : bool :=
  String.eqb (r_method req) "POST"
  && match r_decoded req with
     | Parsed p => String.eqb (p_type p) "block_actions"
     | _ => false
     end
  && match click_target req with
     | Some target => String.eqb target id
     | None => false
     end
  && JS.truthy id.

Definition installed (req : Request) (db : Db) : bool :=
  match r_decoded req with
  | Parsed p =>
      match lookup_installation p db with Some _ => true | None => false end
  | _ => false
  end.

End Crypto.

End Interactions.

(** ** The nudge-scheduler edge function *)

Module Scheduler.
Import Store.

(** A row returned by [get_due_action_items]. *)
Record ActionItem : Type := {
  action_id : string;
  email : string;
  action_text : string;
  due_date : string;
  coach_name : option string;
  first_name : string;
}.

(** A row returned by [get_employee_slack_connection]. *)
Record SlackConnection : Type := {
  slack_user_id : string;
  slack_dm_channel_id : string;
  nudge_enabled : bool;
  nudge_frequency : string;
  preferred_time : option string;
  timezone : string;
  bot_token : string;
}.

(** A [session_tracking] row joined with its [employee_manager] row. *)
Record Session : Type := {
  s_id : string;
  s_goals : option string;
  s_coach_name : option string;
  s_company_email : option string;
  s_first_name : string;
}.

(** A call of [chat.postMessage]. *)
Record Message : Type := {
  m_token : string;
  m_channel : string;
  m_blocks : string;
  m_text : string;
}.

Inductive SendResult : Type :=
| Threw                                        (* fetch rejected *)
| Answered (ok : bool) (ts : option string).   (* the JSON Slack returned *)

(** Everything a cycle reads and does not write: query results, the clock,
    the Slack API, the platform's JSON parser. *)
Record World : Type := {
  w_templates : gmap string (option string);
    (* nudge_type to serialised message_blocks.blocks, [None] without blocks *)
  w_recent_sessions : list Session;            (* completed 3 to 4 days ago *)
  w_upcoming_sessions : list Session;          (* upcoming, dated tomorrow *)
  w_connections : string -> list SlackConnection;
    (* the rows [get_employee_slack_connection] returns for an email; the
       procedure itself is not part of the sources *)
  w_hour_in : string -> option string;         (* the Intl hour, per zone *)
  w_send : Message -> SendResult;
  w_json_parses : string -> bool;
  w_portal_url : option string;                (* Deno.env.get('PORTAL_URL') *)
  w_today : Z;                                 (* local day number of now *)
  w_day_of : string -> Z;                      (* local day number of a date *)
  w_short_date : string -> string;             (* month and day *)
  w_long_date : string -> string;              (* weekday, month and day *)
}.

(** Modelled from the spec: the [get_due_action_items] procedure, whose
    definition is not part of the sources.  "Action items whose due date
    falls within a forward-looking window (2 days) and whose status is not yet
    terminal (completed/dismissed)." *)
Definition get_due_action_items (w : World) (db : Db) (days_ahead : Z)
    : list ActionItem :=
  omap
    (fun '(id, row) =>
       let day := w_day_of w (ai_due_date row) in
       if (w_today w <=? day) && (day <=? w_today w + days_ahead)
          && negb (String.eqb (ai_status row) "completed")
          && negb (String.eqb (ai_status row) "dismissed")
       then Some {| action_id := id;
                    email := ai_email row;
                    action_text := ai_action_text row;
                    due_date := ai_due_date row;
                    coach_name := ai_coach_name row;
                    first_name := ai_first_name row |}
       else None)
    (map_to_list (action_items db)).

(** [formatDueDate(dateStr)]. *)
Definition formatDueDate (v : variant) (w : World) (dateStr : string) : string :=
  let day := w_day_of w dateStr in
  if day <? w_today w then
    match v with
    | Shared => "*Overdue* (" +:+ w_short_date w dateStr +:+ ")"
    | SelfContained => "*Overdue*"
    end
  else if day =? w_today w then "*Today*"
  else if day =? w_today w + 1 then "*Tomorrow*"
  else w_long_date w dateStr.

(** An entry of the send log: the call, tagged with the candidate it was
    made for. *)
Record Sent : Type := {
  sent_email : string;
  sent_kind : string;
  sent_reference : string;
  sent_message : Message;
}.

Record Results : Type := {
  action_reminders_sent : Z;
  goal_checkins_sent : Z;
  session_preps_sent : Z;
  errors : Z;
}.

Record Cycle : Type := {
  c_db : Db;
  c_outbox : list Sent;
  c_results : Results;
}.

Definition count_error (c : Cycle) : Cycle :=
  let r := c_results c in
  {| c_db := c_db c; c_outbox := c_outbox c;
     c_results := {| action_reminders_sent := action_reminders_sent r;
                     goal_checkins_sent := goal_checkins_sent r;
                     session_preps_sent := session_preps_sent r;
                     errors := errors r + 1 |} |}.

Definition count_sent (kind : string) (r : Results) : Results :=
  {| action_reminders_sent :=
       action_reminders_sent r + (if String.eqb kind "action_reminder" then 1 else 0);
     goal_checkins_sent :=
       goal_checkins_sent r + (if String.eqb kind "goal_checkin" then 1 else 0);
     session_preps_sent :=
       session_preps_sent r + (if String.eqb kind "session_prep" then 1 else 0);
     errors := errors r |}.

(** [coach_name || 'your coach']. *)
Definition coach_or_default (c : option string) : option string :=
  Some (JS.or_else c "your coach").

(** [.from('slack_nudges').select('id').eq('employee_email',
    email.toLowerCase()).eq('nudge_type', kind).eq('reference_id',
    ref).single()]: data only when exactly one row matches. *)
Definition matching_rows (db : Db) (stored_email kind ref : string) : list NudgeRow :=
  List.filter
    (fun row =>
       String.eqb (n_employee_email row) stored_email
       && String.eqb (n_nudge_type row) kind
       && String.eqb (n_reference_id row) ref)
    (slack_nudges db).

Definition existing_nudge (db : Db) (email kind ref : string) : option NudgeRow :=
  match matching_rows db (JS.toLowerCase email) kind ref with
  | [row] => Some row
  | _ => None
  end.

(** Render, send and record: the tail shared by the three loops, from the
    template lookup on. *)
Definition deliver (v : variant) (w : World) (kind email ref ref_type : string)
    (conn : SlackConnection) (vs : Template.vars) (text : string) (c : Cycle)
    : Cycle :=
  match w_templates w !! kind with
  | None => c                                          (* no template: continue *)
  | Some blocks =>
      match v, blocks with
      | SelfContained, None => c                       (* !template?.blocks *)
      | Shared, None => count_error c                  (* undefined.replace throws *)
      | _, Some json =>
          let rendered := Template.renderBlocks v json vs in
          if negb (w_json_parses w rendered) then count_error c
          else
            let msg := {| m_token := bot_token conn;
                          m_channel := slack_dm_channel_id conn;
                          m_blocks := rendered;
                          m_text := text |} in
            let log := c_outbox c ++
                       [ {| sent_email := email; sent_kind := kind;
                            sent_reference := ref; sent_message := msg |} ] in
            match w_send w msg with
            | Threw =>
                count_error {| c_db := c_db c; c_outbox := log;
                               c_results := c_results c |}
            | Answered true (Some ts) =>
                if JS.truthy ts then
                  {| c_db := record_nudge email kind ref ref_type ts
                               (slack_dm_channel_id conn) (c_db c);
                     c_outbox := log;
                     c_results := count_sent kind (c_results c) |}
                else
                  let c' := {| c_db := c_db c; c_outbox := log;
                               c_results := c_results c |} in
                  match v with Shared => count_error c' | SelfContained => c' end
            | Answered _ _ =>
                let c' := {| c_db := c_db c; c_outbox := log;
                             c_results := c_results c |} in
                match v with Shared => count_error c' | SelfContained => c' end
            end
      end
  end.

(** The connection and timing guards: [connections?.[0]], then
    [!connection.nudge_enabled], then [!isAppropriateTime(..)]. *)
Definition gate (v : variant) (w : World) (lookup_email : string)
    : option SlackConnection :=
  match w_connections w lookup_email with
  | conn :: _ =>
      if negb (nudge_enabled conn) then None
      else if negb (Timing.isAppropriateTime v (preferred_time conn)
                      (w_hour_in w (timezone conn)))
      then None
      else Some conn
  | [] => None
  end.

(** One iteration of the action-reminder loop. *)
Definition remind_action (v : variant) (w : World) (c : Cycle) (a : ActionItem)
    : Cycle :=
  match gate v w (email a) with
  | None => c
  | Some conn =>
      deliver v w "action_reminder" (email a) (action_id a) "action_item" conn
        [ ("first_name", Some (first_name a));
          ("coach_name", coach_or_default (coach_name a));
          ("action_text", Some (action_text a));
          ("due_date", Some (formatDueDate v w (due_date a)));
          ("action_id", Some (action_id a)) ]
        ("Reminder: " +:+ action_text a)
        c
  end.

(** One iteration of the goal check-in loop. *)
Definition checkin_goal (v : variant) (w : World) (c : Cycle) (s : Session)
    : Cycle :=
  match s_company_email s with
  | None => c
  | Some mail =>
      if negb (JS.truthy mail) then c
      else
        match existing_nudge (c_db c) mail "goal_checkin" (s_id s) with
        | Some _ => c                                  (* already nudged *)
        | None =>
            match gate v w mail with
            | None => c
            | Some conn =>
                deliver v w "goal_checkin" mail (s_id s) "session" conn
                  [ ("first_name", Some (s_first_name s));
                    ("coach_name", coach_or_default (s_coach_name s));
                    ("goals", s_goals s);
                    ("session_id", Some (s_id s)) ]
                  (match v with
                   | Shared => "How's progress on your coaching goals?"
                   | SelfContained => "How's progress on your goals?"
                   end)
                  c
            end
        end
  end.

Definition portalUrl (v : variant) (w : World) : string :=
  JS.or_else (w_portal_url w)
    (match v with
     | Shared => "http://localhost:5173"
     | SelfContained => "https://my.boon-health.com"
     end).

(** One iteration of the session-prep loop. *)
Definition prepare_session (v : variant) (w : World) (c : Cycle) (s : Session)
    : Cycle :=
  match s_company_email s with
  | None => c
  | Some mail =>
      if negb (JS.truthy mail) then c
      else
        match existing_nudge (c_db c) mail "session_prep" (s_id s) with
        | Some _ => c                                  (* already nudged *)
        | None =>
            match gate v w mail with
            | None => c
            | Some conn =>
                deliver v w "session_prep" mail (s_id s) "session" conn
                  [ ("first_name", Some (s_first_name s));
                    ("coach_name", coach_or_default (s_coach_name s));
                    ("session_id", Some (s_id s));
                    ("portal_url", Some (portalUrl v w)) ]
                  (match v with
                   | Shared => "You have a coaching session tomorrow!"
                   | SelfContained => "Session tomorrow!"
                   end)
                  c
            end
        end
  end.

Definition no_results : Results :=
  {| action_reminders_sent := 0; goal_checkins_sent := 0;
     session_preps_sent := 0; errors := 0 |}.

(** One invocation of the function: the three loops, in order. *)
Definition run_cycle (v : variant) (w : World) (db : Db) : Cycle :=
  let c0 := {| c_db := db; c_outbox := []; c_results := no_results |} in
  let c1 := fold_left (remind_action v w) (get_due_action_items w db 2) c0 in
  let c2 := fold_left (checkin_goal v w) (w_recent_sessions w) c1 in
  fold_left (prepare_session v w) (w_upcoming_sessions w) c2.

(** A log entry is for an employee whose first connection row has the
    enabled flag set. *)
Definition enabled_recipient (w : World) (s : Sent) : Prop :=
  exists conn, head (w_connections w (sent_email s)) = Some conn /\
               nudge_enabled conn = true.

Definition set_preferred_time (t : option string) (conn : SlackConnection)
    : SlackConnection :=
  {| slack_user_id := slack_user_id conn;
     slack_dm_channel_id := slack_dm_channel_id conn;
     nudge_enabled := nudge_enabled conn;
     nudge_frequency := nudge_frequency conn;
     preferred_time := t;
     timezone := timezone conn;
     bot_token := bot_token conn |}.

(** The same world, with the frequency mode of every connection row replaced
    by what [mode] says. *)
Definition set_frequency (mode : SlackConnection -> string) (conn : SlackConnection)
    : SlackConnection :=
  {| slack_user_id := slack_user_id conn;
     slack_dm_channel_id := slack_dm_channel_id conn;
     nudge_enabled := nudge_enabled conn;
     nudge_frequency := mode conn;
     preferred_time := preferred_time conn;
     timezone := timezone conn;
     bot_token := bot_token conn |}.

Definition reset_frequency (mode : SlackConnection -> string) (w : World) : World :=
  {| w_templates := w_templates w;
     w_recent_sessions := w_recent_sessions w;
     w_upcoming_sessions := w_upcoming_sessions w;
     w_connections := fun e => map (set_frequency mode) (w_connections w e);
     w_hour_in := w_hour_in w;
     w_send := w_send w;
     w_json_parses := w_json_parses w;
     w_portal_url := w_portal_url w;
     w_today := w_today w;
     w_day_of := w_day_of w;
     w_short_date := w_short_date w;
     w_long_date := w_long_date w |}.

(** The two kinds whose loops look the nudge table up before sending. *)
Definition session_kind (kind : string) : Prop :=
  kind = "goal_checkin" \/ kind = "session_prep".

(** At most one row under each lower-case key of those kinds. *)
Definition unique_session_rows (db : Db) : Prop :=
  forall e kind ref,
    JS.toLowerCase e = e -> session_kind kind ->
    (length (matching_rows db e kind ref) <= 1)%nat.

(** What holds of a cycle that started after the table was [db0]: rows were
    only added, keys of the session kinds stayed unique, and nothing of those
    kinds was sent under a key that had a row in [db0]. *)
Definition rerun_invariant (db0 : Db) (c : Cycle) : Prop :=
  unique_session_rows (c_db c) /\
  (forall e kind ref,
      (length (matching_rows db0 e kind ref)
       <= length (matching_rows (c_db c) e kind ref))%nat) /\
  Forall (fun s =>
            session_kind (sent_kind s) ->
            matching_rows db0 (JS.toLowerCase (sent_email s)) (sent_kind s)
              (sent_reference s) = [])
         (c_outbox c).

(** The candidate a send was made for. *)
Definition sent_key (s : Sent) : string * string * string :=
  (sent_email s, sent_kind s, sent_reference s).

End Scheduler.

(** ** The survey progression resolver *)

Module Survey.

(** A row of [session_tracking]. *)
Record SessionRow : Type := {
  st_id : string;
  st_employee_email : string;
  st_employee_id : string;
  st_session_date : Z;                 (* instants compared as numbers *)
  st_appointment_number : Z;
  st_coach_name : option string;
  st_status : string;
  st_program_name : option string;
}.

(** A row of [employee_manager]. *)
Record EmployeeRow : Type := {
  em_id : string;
  em_program : option string;
}.

(** A row of [survey_submissions]. *)
Record SubmissionRow : Type := {
  ss_id : string;
  ss_email : string;
  ss_session_id : option string;
  ss_survey_type : option string;
}.

Record Db : Type := {
  session_tracking : list SessionRow;
  employee_manager : list EmployeeRow;
  survey_submissions : list SubmissionRow;
  rpc_deployed : bool;   (* [get_pending_survey] answers without an error *)
}.

(** What the resolver hands to the portal. *)
Record PendingSurvey : Type := {
  session_id : string;
  session_number : Z;
  session_date : Z;
  coach_name : option string;
  survey_type : option string;
}.

Definition milestones : list Z := [1; 3; 6; 12; 18; 24; 30; 36].

Definition is_milestone (n : Z) : bool := existsb (Z.eqb n) milestones.

Definition opt_eqb (a : option string) (b : string) : bool :=
  match a with Some s => String.eqb s b | None => false end.

(** *** Sorting, as [ORDER BY] and [.order()] do; ties keep table order *)

Section Sort.
Context {A : Type} (before : A -> A -> bool).

Fixpoint insert_sorted (x : A) (l : list A) : list A :=
  match l with
  | [] => [x]
  | y :: rest => if before x y then x :: l else y :: insert_sorted x rest
  end.

Definition sort_by (l : list A) : list A :=
  fold_right insert_sorted [] l.
End Sort.

(** *** The SQL side: [pending_surveys] and [get_pending_survey] *)

(** A row of the [pending_surveys] view. *)
Record PendingRow : Type := {
  ps_session_id : string;
  ps_email : string;
  ps_session_date : Z;
  ps_session_number : Z;
  ps_coach_name : option string;
  ps_program_type : option string;
  ps_suggested_survey_type : option string;
}.

(** The [LEFT JOIN survey_submissions .. WHERE ss.id IS NULL] anti-join. *)
Definition has_submission_sql (db : Db) (st : SessionRow) : bool :=
  existsb
    (fun ss =>
       String.eqb (JS.toLowerCase (ss_email ss))
                  (JS.toLowerCase (st_employee_email st))
       && opt_eqb (ss_session_id ss) (st_id st))
    (survey_submissions db).

Definition pending_surveys (db : Db) : list PendingRow :=
  sort_by (fun a b => ps_session_date b <=? ps_session_date a)   (* DESC *)
    (flat_map
       (fun st =>
          if String.eqb (st_status st) "Completed"
             && is_milestone (st_appointment_number st)
             && negb (has_submission_sql db st)
          then
            map (fun em =>
                   {| ps_session_id := st_id st;
                      ps_email := st_employee_email st;
                      ps_session_date := st_session_date st;
                      ps_session_number := st_appointment_number st;
                      ps_coach_name := st_coach_name st;
                      ps_program_type := em_program em;
                      ps_suggested_survey_type :=
                        if is_milestone (st_appointment_number st)
                        then Some "scale_feedback" else None |})
                (List.filter (fun em => String.eqb (st_employee_id st) (em_id em))
                             (employee_manager db))
          else [])
       (session_tracking db)).

(** [get_pending_survey(user_email)]: [ORDER BY ps.session_date DESC
    LIMIT 1]. *)
Definition get_pending_survey (db : Db) (user_email : string) : list PendingSurvey :=
  take 1
    (map (fun ps =>
            {| session_id := ps_session_id ps;
               session_number := ps_session_number ps;
               session_date := ps_session_date ps;
               coach_name := ps_coach_name ps;
               survey_type := ps_suggested_survey_type ps |})
         (sort_by (fun a b => ps_session_date b <=? ps_session_date a)
            (List.filter
               (fun ps => String.eqb (JS.toLowerCase (ps_email ps))
                                     (JS.toLowerCase user_email))
               (pending_surveys db)))).

(** *** The client side: [fetchPendingSurvey] *)

(** [.ilike(column, pattern)]: [%] and [_] are wild cards ([*] too, which
    PostgREST reads as [%]), a backslash escapes, letter case is ignored. *)
Fixpoint ilike (pattern : string) : string -> bool :=
  match pattern with
  | EmptyString => fun s => negb (JS.truthy s)
  | String p rest =>
      if Ascii.eqb p "%" || Ascii.eqb p "*" then
        fix any (s : string) : bool :=
          ilike rest s
          || match s with String _ s' => any s' | EmptyString => false end
      else if Ascii.eqb p "_" then
        fun s => match s with String _ s' => ilike rest s' | EmptyString => false end
      else if Ascii.eqb p "\" then
        match rest with
        | String q rest' =>
            fun s => match s with
                     | String c s' =>
                         Ascii.eqb (JS.lower_char q) (JS.lower_char c)
                         && ilike rest' s'
                     | EmptyString => false
                     end
        | EmptyString => fun _ => false
        end
      else
        fun s => match s with
                 | String c s' =>
                     Ascii.eqb (JS.lower_char p) (JS.lower_char c) && ilike rest s'
                 | EmptyString => false
                 end
  end.

(** [hasCompletedBaselineSurvey(email)]. *)
Definition hasCompletedBaselineSurvey (db : Db) (email : string) : bool :=
  existsb
    (fun ss => ilike email (ss_email ss)
               && opt_eqb (ss_survey_type ss) "grow_baseline")
    (survey_submissions db).

(** The [existingSurvey] query of the loop. *)
Definition has_submission (db : Db) (email : string) (st : SessionRow) : bool :=
  existsb
    (fun ss => ilike email (ss_email ss) && opt_eqb (ss_session_id ss) (st_id st))
    (survey_submissions db).

(** The filters of the fallback query. *)
Definition candidate (email : string) (st : SessionRow) : bool :=
  ilike email (st_employee_email st)
  && String.eqb (st_status st) "Completed"
  && is_milestone (st_appointment_number st).

(** The fallback query: milestone sessions, oldest first. *)
Definition milestone_sessions (db : Db) (email : string) : list SessionRow :=
  sort_by (fun a b => st_session_date a <=? st_session_date b)   (* ascending *)
    (List.filter (candidate email) (session_tracking db)).

(** [sessionProgram?.toUpperCase() === 'GROW'] on
    [session.program_name || programType]. *)
Definition isGrow (st : SessionRow) (programType : option string) : bool :=
  let sessionProgram :=
    match st_program_name st with
    | Some p => if JS.truthy p then Some p else programType
    | None => programType
    end in
  match sessionProgram with
  | Some p => String.eqb (JS.toUpperCase p) "GROW"
  | None => false
  end.

Definition surveyType (db : Db) (email : string) (st : SessionRow)
    (programType : option string) : string :=
  if isGrow st programType
  then if hasCompletedBaselineSurvey db email then "scale_feedback"
       else "grow_baseline"
  else "scale_feedback".

Definition obligation (db : Db) (email : string) (programType : option string)
    (st : SessionRow) : PendingSurvey :=
  {| session_id := st_id st;
     session_number := st_appointment_number st;
     session_date := st_session_date st;
     coach_name := Some (JS.or_else (st_coach_name st) "Your Coach");
     survey_type := Some (surveyType db email st programType) |}.

(** The loop over the ordered sessions: the first one without a survey. *)
Definition fallback (db : Db) (email : string) (programType : option string)
    : option PendingSurvey :=
  obligation db email programType
    <$> List.find (fun st => negb (has_submission db email st))
                  (milestone_sessions db email).

(** [fetchPendingSurvey(email, programType)]. *)
Definition fetchPendingSurvey (db : Db) (email : string)
    (programType : option string) : option PendingSurvey :=
  match (if rpc_deployed db then get_pending_survey db email else []) with
  | first :: _ => Some first
  | [] => fallback db email programType
  end.

End Survey.

(** ** Concrete data used in examples *)

Module Sample.

(** *** A button click on the reminder for action item [a1] *)

Definition secret : string := "8f742231b10e8888abcd99yyyzzz85a5".

Definition click : Interactions.Payload :=
  {| Interactions.p_type := "block_actions";
     Interactions.p_actions :=
       [ {| Interactions.action_id := "action_done";
            Interactions.block_id := Some "action_a1" |} ];
     Interactions.p_message_ts := Some "1700000000.000100";
     Interactions.p_channel_id := Some "D024BE91L";
     Interactions.p_team_id := Some "T0001";
     Interactions.p_challenge := EmptyString |}.

Definition body : string := "payload=%7Btype%3Ablock_actions%7D".

(** The click, signed with [secret] for the request timestamp [ts]. *)
Definition signed_click (hmac : string -> string -> string) (ts : string)
    : Interactions.Request :=
  {| Interactions.r_method := "POST";
     Interactions.r_signature :=
       Some (Interactions.computedSignature hmac secret ts body);
     Interactions.r_timestamp := Some ts;
     Interactions.r_body := body;
     Interactions.r_decoded := Interactions.Parsed click |}.

Definition ann : string := "ann@example.com".

Definition reminder_row : Store.NudgeRow :=
  {| Store.n_employee_email := ann;
     Store.n_nudge_type := "action_reminder";
     Store.n_reference_id := "a1";
     Store.n_reference_type := "action_item";
     Store.n_message_ts := "1700000000.000100";
     Store.n_channel_id := "D024BE91L";
     Store.n_status := "sent";
     Store.n_response := None;
     Store.n_responded_at := None |}.

(** Action item [a1] is due on 2026-01-20. *)
Definition pending_item : Store.ActionItemRow :=
  {| Store.ai_email := ann;
     Store.ai_action_text := "Share the plan with the team";
     Store.ai_due_date := "2026-01-20";
     Store.ai_coach_name := Some "Kim";
     Store.ai_first_name := "Ann";
     Store.ai_status := "pending";
     Store.ai_completed_at := None |}.

Definition store : Store.Db :=
  {| Store.action_items := {[ "a1" := pending_item ]};
     Store.slack_nudges := [reminder_row];
     Store.slack_installations := {[ "T0001" := "xoxb-1" ]} |}.

(** The same tables before any nudge was sent. *)
Definition fresh_store : Store.Db :=
  {| Store.action_items := {[ "a1" := pending_item ]};
     Store.slack_nudges := [];
     Store.slack_installations := {[ "T0001" := "xoxb-1" ]} |}.

(** The request carries the timestamp 1700000000; the clock of [on_time]
    reads one minute later, the clock of [an_hour_later] one hour later. *)
Definition on_time : Interactions.Env :=
  {| Interactions.e_signing_secret := Some secret;
     Interactions.e_now := 1700000060000 |}.

Definition an_hour_later : Interactions.Env :=
  {| Interactions.e_signing_secret := Some secret;
     Interactions.e_now := 1700003600000 |}.

(** A stand-in digest for examples that need a concrete function. *)
Definition toy_hmac (key message : string) : string := "00ff".

(** *** The scheduler's view: that action item, due tomorrow, and a recent
    session *)

Definition connection (enabled : bool) (frequency : string)
    : Scheduler.SlackConnection :=
  {| Scheduler.slack_user_id := "U2147483697";
     Scheduler.slack_dm_channel_id := "D024BE91L";
     Scheduler.nudge_enabled := enabled;
     Scheduler.nudge_frequency := frequency;
     Scheduler.preferred_time := Some "09:00";
     Scheduler.timezone := "America/New_York";
     Scheduler.bot_token := "xoxb-1" |}.

(** A session completed three days ago, with goals. *)
Definition recent_session : Scheduler.Session :=
  {| Scheduler.s_id := "4711";
     Scheduler.s_goals := Some "delegate more";
     Scheduler.s_coach_name := Some "Kim";
     Scheduler.s_company_email := Some ann;
     Scheduler.s_first_name := "Ann" |}.

(** The same connection with a preferred time of 23:00. *)
Definition late_connection : Scheduler.SlackConnection :=
  Scheduler.set_preferred_time (Some "23:00") (connection true "smart").

(** The scheduler runs on 2026-01-19, when the formatter prints [hour] for
    every zone; Slack accepts every message. *)
Definition world_at (hour : string) (conn : Scheduler.SlackConnection)
    : Scheduler.World :=
  {| Scheduler.w_templates :=
       {[ "action_reminder" :=
            Some "Hi {{first_name}}, {{action_text}} is due {{due_date}}";
          "goal_checkin" :=
            Some "Hi {{first_name}}, how are your goals going: {{goals}}?" ]};
     Scheduler.w_recent_sessions := [recent_session];
     Scheduler.w_upcoming_sessions := [];
     Scheduler.w_connections := fun e => if String.eqb e ann then [conn] else [];
     Scheduler.w_hour_in := fun _ => Some hour;
     Scheduler.w_send :=
       fun _ => Scheduler.Answered true (Some "1700000000.000100");
     Scheduler.w_json_parses := fun _ => true;
     Scheduler.w_portal_url := None;
     Scheduler.w_today := 20472;
     Scheduler.w_day_of := fun _ => 20473;
     Scheduler.w_short_date := fun _ => "Jan 20";
     Scheduler.w_long_date := fun _ => "Tue, Jan 20" |}.

(** The scheduler runs at local hour 9. *)
Definition world : Scheduler.SlackConnection -> Scheduler.World := world_at "9".

(** *** An employee of a GROW program with three milestone sessions *)

Definition session (id : string) (ordinal date : Z) : Survey.SessionRow :=
  {| Survey.st_id := id;
     Survey.st_employee_email := ann;
     Survey.st_employee_id := "17872";
     Survey.st_session_date := date;
     Survey.st_appointment_number := ordinal;
     Survey.st_coach_name := Some "Kim";
     Survey.st_status := "Completed";
     Survey.st_program_name := Some "GROW" |}.

(** Sessions 1, 3 and 6 were held on days 20400, 20430 and 20460; only
    session 1 has a submission, and it is not a baseline. *)
Definition surveys (rpc : bool) : Survey.Db :=
  {| Survey.session_tracking :=
       [ session "s1" 1 20400; session "s3" 3 20430; session "s6" 6 20460 ];
     Survey.employee_manager :=
       [ {| Survey.em_id := "17872"; Survey.em_program := Some "GROW" |} ];
     Survey.survey_submissions :=
       [ {| Survey.ss_id := "sub1";
            Survey.ss_email := ann;
            Survey.ss_session_id := Some "s1";
            Survey.ss_survey_type := Some "scale_feedback" |} ];
     Survey.rpc_deployed := rpc |}.

End Sample.

(** ** The portal's writes and its program lookup *)

Module Portal.
Import Survey.

Definition with_survey_submissions
    (f : list SubmissionRow -> list SubmissionRow) (db : Db) : Db :=
  {| session_tracking := session_tracking db;
     employee_manager := employee_manager db;
     survey_submissions := f (survey_submissions db);
     rpc_deployed := rpc_deployed db |}.

(** [from('survey_submissions').insert({ email: email.toLowerCase(),
    survey_type, session_id, .. })]: of the new row, the columns the resolver
    reads; it comes last in table order. *)
Definition insert_submission (id email : string) (sessionId : option string)
    (surveyType : string) (db : Db) : Db :=
  with_survey_submissions
    (fun rows => rows ++ [ {| ss_id := id;
                              ss_email := JS.toLowerCase email;
                              ss_session_id := sessionId;
                              ss_survey_type := Some surveyType |} ])
    db.

(** [submitScaleFeedbackSurvey(email, sessionId, .., surveyType)] and its
    [success] flag.  [stored] is the id the database gave to the row, [None]
    when the insert came back with an error. *)
Definition submitScaleFeedbackSurvey (stored : option string)
    (email sessionId surveyType : string) (db : Db) : Db * bool :=
  match stored with
  | Some id => (insert_submission id email (Some sessionId) surveyType db, true)
  | None => (db, false)
  end.

(** A row of [survey_competency_scores]. *)
Record ScoreRow : Type := {
  cs_survey_submission_id : string;
  cs_email : string;
  cs_competency_name : string;
  cs_score : Z;
  cs_score_type : string;
}.

(** The survey tables together with the competency scores. *)
Record Tables : Type := {
  t_surveys : Db;
  t_scores : list ScoreRow;
}.

(** [Object.entries(competencyScores).map(..)]. *)
Definition competencyRecords (id email score_type : string)
    (competencyScores : list (string * Z)) : list ScoreRow :=
  map (fun '(name, score) =>
         {| cs_survey_submission_id := id;
            cs_email := JS.toLowerCase email;
            cs_competency_name := name;
            cs_score := score;
            cs_score_type := score_type |})
      competencyScores.

(** Whether the one [insert] of the score rows goes through: the table's
    [CHECK (score >= 1 AND score <= 5)] holds of every row, and the database
    reports no other error ([refused]). *)
Definition scores_accepted (refused : bool) (competencyScores : list (string * Z))
    : bool :=
  negb refused
  && forallb (fun '(_, score) => (1 <=? score) && (score <=? 5)) competencyScores.

(** The body shared by [submitGrowBaselineSurvey] and [submitGrowEndSurvey]:
    the submission row first, without a session id, then the score rows in a
    second statement. *)
Definition submit_grow (survey_type score_type : string) (stored : option string)
    (refused : bool) (email : string) (competencyScores : list (string * Z))
    (t : Tables) : Tables * bool :=
  match stored with
  | None => (t, false)
  | Some id =>
      let surveys := insert_submission id email None survey_type (t_surveys t) in
      if scores_accepted refused competencyScores
      then ({| t_surveys := surveys;
               t_scores := t_scores t
                           ++ competencyRecords id email score_type competencyScores |},
            true)
      else ({| t_surveys := surveys; t_scores := t_scores t |}, false)
  end.

Definition submitGrowBaselineSurvey := submit_grow "grow_baseline" "pre".

Definition submitGrowEndSurvey := submit_grow "grow_end" "post".

(** Whether a resolver answer asks for the survey of session [sid]. *)
Definition asks_for (sid : string) (answer : option PendingSurvey) : bool :=
  match answer with
  | Some p => String.eqb (session_id p) sid
  | None => false
  end.

(** *** [fetchProgramType] *)

(** [upperProgram === kind || upperProgram.startsWith(kind + ' ') ||
    upperProgram.startsWith(kind + '-')]. *)
Definition names_program (kind upperProgram : string) : bool :=
  String.eqb upperProgram kind
  || Template.is_prefix (kind +:+ " ") upperProgram
  || Template.is_prefix (kind +:+ "-") upperProgram.

Definition is_hex (c : ascii) : bool :=
  match JS.digit c with Some _ => true | None => false end.

(** What is left of [s] after [n] hexadecimal digits. *)
Fixpoint hex_group (n : nat) (s : string) : option string :=
  match n, s with
  | O, _ => Some s
  | S k, String c rest => if is_hex c then hex_group k rest else None
  | S _, EmptyString => None
  end.

(** The groups of hexadecimal digits of the given lengths, with a hyphen
    between two groups and nothing after the last. *)
Fixpoint hex_groups (lengths : list nat) (s : string) : bool :=
  match lengths with
  | [] => false
  | [n] => match hex_group n s with Some EmptyString => true | _ => false end
  | n :: more =>
      match hex_group n s with
      | Some (String "-"%char rest) => hex_groups more rest
      | _ => false
      end
  end.

(** [/^[0-9a-f]{8}-[0-9a-f]{4}-[0-9a-f]{4}-[0-9a-f]{4}-[0-9a-f]{12}$/i]. *)
Definition isUuid (s : string) : bool :=
  hex_groups [8; 4; 4; 4; 12]%nat s.

(** A row of [programs] with a name. *)
Record ProgramRow : Type := {
  pr_name : string;
  pr_program_type : option string;
}.

(** The [programs] table as the two queries see it: the rows [.eq('id', x)]
    selects, and the named rows in the order the name query returns them. *)
Record Programs : Type := {
  p_with_id : string -> list ProgramRow;
  p_rows : list ProgramRow;
}.

(** [.single()]: data only when exactly one row came back. *)
Definition single {A : Type} (rows : list A) : option A :=
  match rows with
  | [row] => Some row
  | _ => None
  end.

(** [!error && data?.program_type]. *)
Definition program_type_of (row : option ProgramRow) : option string :=
  match row with
  | Some r =>
      match pr_program_type r with
      | Some t => if JS.truthy t then Some t else None
      | None => None
      end
  | None => None
  end.

Definition fetchProgramType (programs : Programs) (programId : option string)
    : option string :=
  match programId with
  | None => None
  | Some id =>
      if negb (JS.truthy id) then None
      else
        let upperProgram := JS.toUpperCase id in
        if names_program "SCALE" upperProgram then Some "SCALE"
        else if names_program "GROW" upperProgram then Some "GROW"
        else if names_program "EXEC" upperProgram then Some "EXEC"
        else
          match (if isUuid id
                 then program_type_of (single (p_with_id programs id))
                 else None) with
          | Some t => Some t
          | None =>
              program_type_of
                (single
                   (take 1
                      (List.filter
                         (fun row => ilike ("%" +:+ id +:+ "%") (pr_name row))
                         (p_rows programs))))
          end
  end.

(** *** [updateActionItemStatus] *)

(** Who is signed in: the address of the JWT, and the [company_email] of the
    [employee_manager] row linked to the account, if there is one. *)
Record Caller : Type := {
  jwt_email : string;
  linked_email : option string;
}.

(** The policy [employees_manage_own_actions] on [action_items]. *)
Definition employees_manage_own_actions (who : Caller) (row : Store.ActionItemRow)
    : bool :=
  match linked_email who with
  | Some e => String.eqb (JS.toLowerCase (Store.ai_email row)) (JS.toLowerCase e)
  | None => false
  end
  || String.eqb (JS.toLowerCase (Store.ai_email row))
                (JS.toLowerCase (jwt_email who)).

(** The column's [CHECK (status IN ('pending', 'completed', 'dismissed'))]. *)
Definition status_allowed (status : string) : bool :=
  existsb (String.eqb status) ["pending"; "completed"; "dismissed"].

(** [{ status, completed_at: status === 'completed' ? now : null }]. *)
Definition set_status (now : Z) (status : string) (row : Store.ActionItemRow)
    : Store.ActionItemRow :=
  {| Store.ai_email := Store.ai_email row;
     Store.ai_action_text := Store.ai_action_text row;
     Store.ai_due_date := Store.ai_due_date row;
     Store.ai_coach_name := Store.ai_coach_name row;
     Store.ai_first_name := Store.ai_first_name row;
     Store.ai_status := status;
     Store.ai_completed_at :=
       if String.eqb status "completed" then Some now else None |}.

(** [updateActionItemStatus(itemId, status)] as the signed-in [who]: the
    tables after the call and the boolean it returns.  The update reaches
    the row only when the policy lets [who] see it; a row it does not reach
    is no error. *)
Definition updateActionItemStatus (now : Z) (who : Caller) (itemId status : string)
    (db : Store.Db) : Store.Db * bool :=
  match Store.action_items db !! itemId with
  | Some row =>
      if employees_manage_own_actions who row then
        if status_allowed status
        then (Store.with_action_items (<[itemId := set_status now status row]>) db,
              true)
        else (db, false)
      else (db, true)
  | None => (db, true)
  end.

End Portal.

(** ** The slack-oauth function *)

Module OAuth.

(** The JSON [oauth.v2.access] answered with. *)
Record TokenResponse : Type := {
  tr_ok : bool;
  tr_access_token : option string;
  tr_team : option (string * string);          (* id and name *)
  tr_bot_user_id : option string;
}.

(** A row of [slack_installations], keyed by [team_id]. *)
Record InstallationRow : Type := {
  in_team_name : string;
  in_bot_token : string;
  in_bot_user_id : option string;
  in_installed_by : option string;
}.

(** A row of [employee_slack_connections]. *)
Record ConnectionRow : Type := {
  cn_employee_email : option string;
  cn_slack_team_id : string;
  cn_slack_user_id : string;
  cn_slack_dm_channel_id : option string;
  cn_nudge_enabled : bool;
  cn_nudge_frequency : string;
  cn_preferred_time : option string;
  cn_timezone : option string;
}.

Record Tables : Type := {
  slack_installations : gmap string InstallationRow;
  employee_slack_connections : list ConnectionRow;
}.

(** The body of a settings request; [None] is a member the body does not
    have, which [JSON.stringify] leaves out of the update. *)
Record Settings : Type := {
  b_nudge_enabled : option bool;
  b_nudge_frequency : option string;
  b_preferred_time : option string;
  b_timezone : option string;
}.

Record Request : Type := {
  r_method : string;
  r_origin : string;                           (* url.origin *)
  r_action : option string;                    (* searchParams.get(..) *)
  r_email : option string;
  r_code : option string;
  r_state : option string;
  r_error : option string;
  r_authorization : option string;             (* the Authorization header *)
  r_json : option Settings;                    (* req.json(), [None] when it throws *)
}.

(** What the function reads and does not write.  A call that can throw has
    an [option] result, [None] for the exception. *)
Record World : Type := {
  w_client_id : option string;                 (* SLACK_CLIENT_ID *)
  w_client_secret : option string;             (* SLACK_CLIENT_SECRET *)
  w_portal_url : option string;                (* PORTAL_URL *)
  w_supabase_configured : bool;                (* createClient does not throw *)
  w_encode_state : string -> option string;    (* btoa(JSON.stringify({ email })) *)
  w_authorize_url : string -> string -> string -> string;
    (* the authorize URL for a client id, a redirect URI and a state *)
  w_decode_state : string -> option (option string);
    (* JSON.parse(atob(state)).email, [Some None] for [undefined] *)
  w_exchange : string -> string -> string -> string -> option TokenResponse;
  w_lookup_user : string -> option string -> option (option string);
    (* lookupSlackUserByEmail: the id of the user found, if any *)
  w_open_dm : string -> string -> option (option string);
  w_get_user : string -> option string;
    (* auth.getUser for a bearer header: the user's address, [None] with an
       error or without a user *)
  w_install_error : bool;                      (* the statement came back with an error *)
  w_connection_error : bool;
  w_delete_error : bool;
  w_update_error : bool;
  w_default_preferred_time : option string;    (* column defaults of a new row *)
  w_default_timezone : option string;
}.

Inductive Reply : Type :=
| Preflight                                    (* 200, 'ok' *)
| Failure (status : Z) (error : string)        (* { error } *)
| Success                                      (* 200, { success: true } *)
| StatusReport (connection : option ConnectionRow)
    (* 200, { connected: !!connection, settings: connection || null }, of
       the row its five selected columns *)
| Redirect (location : string).                (* 302 *)

(** A value that is neither missing nor empty. *)
Definition present (o : option string) : option string :=
  match o with
  | Some s => if JS.truthy s then Some s else None
  | None => None
  end.

Definition portalUrl (v : variant) (w : World) : string :=
  JS.or_else (w_portal_url w)
    (match v with
     | Shared => "http://localhost:5173"
     | SelfContained => "https://my.boon-health.com"
     end).

Definition redirectToPortal (v : variant) (w : World) (params : string) : Reply :=
  Redirect (portalUrl v w +:+ "/settings?" +:+ params).

Definition internal_error : Reply := Failure 500 "Internal server error".

Definition redirectUri (req : Request) : string :=
  r_origin req +:+ "/functions/v1/slack-oauth?action=callback".

Definition with_installations
    (f : gmap string InstallationRow -> gmap string InstallationRow) (t : Tables)
    : Tables :=
  {| slack_installations := f (slack_installations t);
     employee_slack_connections := employee_slack_connections t |}.

Definition with_connections (f : list ConnectionRow -> list ConnectionRow)
    (t : Tables) : Tables :=
  {| slack_installations := slack_installations t;
     employee_slack_connections := f (employee_slack_connections t) |}.

(** [upsert({ team_id, team_name, bot_token, bot_user_id, installed_by },
    { onConflict: 'team_id' })]: a member that is [undefined] is not part of
    the statement, so an existing row keeps its value there. *)
Definition upsert_installation (team : string * string) (botToken : string)
    (botUserId installedBy : option string)
    (rows : gmap string InstallationRow) : gmap string InstallationRow :=
  let kept (column : InstallationRow -> option string) :=
    match rows !! team.1 with Some old => column old | None => None end in
  <[ team.1 :=
       {| in_team_name := team.2;
          in_bot_token := botToken;
          in_bot_user_id :=
            match botUserId with Some b => Some b | None => kept in_bot_user_id end;
          in_installed_by :=
            match installedBy with Some e => Some e | None => kept in_installed_by end |} ]>
    rows.

(** The conflict target [employee_email, slack_team_id]. *)
Definition same_connection (email team : string) (row : ConnectionRow) : bool :=
  match cn_employee_email row with
  | Some e => String.eqb e email
  | None => false
  end
  && String.eqb (cn_slack_team_id row) team.

(** What the upsert sets on a row that is there already. *)
Definition reconnect (user : string) (dm : option string) (row : ConnectionRow)
    : ConnectionRow :=
  {| cn_employee_email := cn_employee_email row;
     cn_slack_team_id := cn_slack_team_id row;
     cn_slack_user_id := user;
     cn_slack_dm_channel_id := dm;
     cn_nudge_enabled := true;
     cn_nudge_frequency := "smart";
     cn_preferred_time := cn_preferred_time row;
     cn_timezone := cn_timezone row |}.

(** [upsert({ employee_email, slack_team_id, slack_user_id,
    slack_dm_channel_id, nudge_enabled: true, nudge_frequency: 'smart' },
    { onConflict: 'employee_email,slack_team_id' })]; a row without an
    address conflicts with none. *)
Definition upsert_connection (w : World) (email : option string)
    (team user : string) (dm : option string) (rows : list ConnectionRow)
    : list ConnectionRow :=
  let fresh :=
    {| cn_employee_email := email;
       cn_slack_team_id := team;
       cn_slack_user_id := user;
       cn_slack_dm_channel_id := dm;
       cn_nudge_enabled := true;
       cn_nudge_frequency := "smart";
       cn_preferred_time := w_default_preferred_time w;
       cn_timezone := w_default_timezone w |} in
  match email with
  | Some e =>
      if existsb (same_connection e team) rows
      then map (fun row => if same_connection e team row
                           then reconnect user dm row else row) rows
      else rows ++ [fresh]
  | None => rows ++ [fresh]
  end.

(** [action=start]. *)
Definition start (v : variant) (w : World) (req : Request) (t : Tables)
    : Reply * Tables :=
  match present (r_email req) with
  | None =>
      (Failure 400 (match v with
                    | Shared => "Missing email parameter"
                    | SelfContained => "Missing email"
                    end), t)
  | Some employeeEmail =>
      match present (w_client_id w) with
      | None => (internal_error, t)                    (* getEnvVar throws *)
      | Some clientId =>
          match w_encode_state w employeeEmail with
          | None => (internal_error, t)
          | Some state =>
              (Redirect (w_authorize_url w clientId (redirectUri req) state), t)
          end
      end
  end.

(** The callback from the user lookup on, with the installation saved. *)
Definition connect (v : variant) (w : World) (employeeEmail : option string)
    (botToken : string) (team : string * string) (t : Tables) : Reply * Tables :=
  match w_lookup_user w botToken employeeEmail with
  | None => (internal_error, t)
  | Some None => (redirectToPortal v w "error=user_not_found", t)
  | Some (Some slackUser) =>
      match w_open_dm w botToken slackUser with
      | None => (internal_error, t)
      | Some dmChannelId =>
          if w_connection_error w then
            (match v with
             | Shared => redirectToPortal v w "error=connection_failed"
             | SelfContained => redirectToPortal v w "slack_connected=true"
             end, t)
          else
            (redirectToPortal v w "slack_connected=true",
             with_connections
               (upsert_connection w employeeEmail team.1 slackUser dmChannelId) t)
      end
  end.

(** [action=callback]. *)
Definition callback (v : variant) (w : World) (req : Request) (t : Tables)
    : Reply * Tables :=
  match present (r_error req) with
  | Some _ => (redirectToPortal v w "error=oauth_denied", t)
  | None =>
      match present (r_code req), present (r_state req) with
      | Some code, Some state =>
          match w_decode_state w state with
          | None => (redirectToPortal v w "error=invalid_state", t)
          | Some employeeEmail =>
              match present (w_client_id w), present (w_client_secret w) with
              | Some clientId, Some clientSecret =>
                  match w_exchange w clientId clientSecret code (redirectUri req) with
                  | None => (internal_error, t)
                  | Some tokenResponse =>
                      match (if tr_ok tokenResponse
                             then present (tr_access_token tokenResponse)
                             else None) with
                      | None =>
                          (redirectToPortal v w
                             (match v with
                              | Shared => "error=token_exchange_failed"
                              | SelfContained => "error=token_failed"
                              end), t)
                      | Some botToken =>
                          match tr_team tokenResponse with
                          | None => (redirectToPortal v w "error=missing_team", t)
                          | Some team =>
                              if negb (w_supabase_configured w)
                              then (internal_error, t)
                              else if w_install_error w then
                                match v with
                                | Shared =>
                                    (redirectToPortal v w "error=save_failed", t)
                                | SelfContained =>
                                    connect v w employeeEmail botToken team t
                                end
                              else
                                connect v w employeeEmail botToken team
                                  (with_installations
                                     (upsert_installation team botToken
                                        (tr_bot_user_id tokenResponse)
                                        employeeEmail) t)
                          end
                      end
                  end
              | _, _ => (internal_error, t)            (* getEnvVar throws *)
              end
          end
      | _, _ => (redirectToPortal v w "error=missing_params", t)
      end
  end.

(** The steps the three signed-in actions begin with; [next] gets
    [user.email.toLowerCase()]. *)
Definition authenticated (w : World) (req : Request)
    (next : string -> Reply * Tables) (t : Tables) : Reply * Tables :=
  match present (r_authorization req) with
  | None => (Failure 401 "Unauthorized", t)
  | Some authHeader =>
      if negb (w_supabase_configured w) then (internal_error, t)
      else
        match present (w_get_user w authHeader) with
        | None => (Failure 401 "Invalid token", t)
        | Some mail => next (JS.toLowerCase mail)
        end
  end.

(** [.eq('employee_email', key)]. *)
Definition stored_under (key : string) (row : ConnectionRow) : bool :=
  match cn_employee_email row with
  | Some e => String.eqb e key
  | None => false
  end.

(** [action=disconnect]. *)
Definition disconnect (v : variant) (w : World) (req : Request) (t : Tables)
    : Reply * Tables :=
  authenticated w req
    (fun key =>
       if w_delete_error w then
         (match v with
          | Shared => Failure 500 "Failed to disconnect"
          | SelfContained => Success
          end, t)
       else
         (Success,
          with_connections (List.filter (fun row => negb (stored_under key row))) t))
    t.

(** [action=status]: [.single()] has data only for exactly one row. *)
Definition status (w : World) (req : Request) (t : Tables) : Reply * Tables :=
  authenticated w req
    (fun key =>
       (StatusReport
          (match List.filter (stored_under key) (employee_slack_connections t) with
           | [row] => Some row
           | _ => None
           end), t))
    t.

Definition apply_settings (body : Settings) (row : ConnectionRow) : ConnectionRow :=
  {| cn_employee_email := cn_employee_email row;
     cn_slack_team_id := cn_slack_team_id row;
     cn_slack_user_id := cn_slack_user_id row;
     cn_slack_dm_channel_id := cn_slack_dm_channel_id row;
     cn_nudge_enabled := default (cn_nudge_enabled row) (b_nudge_enabled body);
     cn_nudge_frequency := default (cn_nudge_frequency row) (b_nudge_frequency body);
     cn_preferred_time :=
       match b_preferred_time body with
       | Some p => Some p
       | None => cn_preferred_time row
       end;
     cn_timezone :=
       match b_timezone body with
       | Some z => Some z
       | None => cn_timezone row
       end |}.

(** [action=settings] with POST. *)
Definition settings (v : variant) (w : World) (req : Request) (t : Tables)
    : Reply * Tables :=
  authenticated w req
    (fun key =>
       match r_json req with
       | None => (internal_error, t)
       | Some body =>
           if w_update_error w then
             (match v with
              | Shared => Failure 500 "Failed to update settings"
              | SelfContained => Success
              end, t)
           else
             (Success,
              with_connections
                (map (fun row => if stored_under key row
                                 then apply_settings body row else row)) t)
       end)
    t.

(** The function: the reply and the tables afterwards. *)
Definition handle (v : variant) (w : World) (req : Request) (t : Tables)
    : Reply * Tables :=
  if String.eqb (r_method req) "OPTIONS" then (Preflight, t)
  else
    match r_action req with
    | Some action =>
        if String.eqb action "start" then start v w req t
        else if String.eqb action "callback" then callback v w req t
        else if String.eqb action "disconnect" then disconnect v w req t
        else if String.eqb action "status" then status w req t
        else if String.eqb action "settings" && String.eqb (r_method req) "POST"
        then settings v w req t
        else (Failure 400 "Invalid action", t)
    | None => (Failure 400 "Invalid action", t)
    end.

(** A row stored under an address that is not in lower case, or under none. *)
Definition mixed_case (row : ConnectionRow) : bool :=
  match cn_employee_email row with
  | Some e => negb (String.eqb (JS.toLowerCase e) e)
  | None => true
  end.

End OAuth.

(** ** Vocabulary for the scheduler's report *)

Module Report.
Import Scheduler.

(** Slack answered the call with [ok] and a message timestamp. *)
Definition acknowledged (w : World) (s : Sent) : bool :=
  match w_send w (sent_message s) with
  | Answered true (Some ts) => JS.truthy ts
  | _ => false
  end.

(** How many calls of the log were made for [kind] and acknowledged. *)
Definition acknowledged_calls (w : World) (kind : string) (outbox : list Sent) : Z :=
  Z.of_nat
    (length (List.filter
               (fun s => acknowledged w s && String.eqb (sent_kind s) kind)
               outbox)).

(** The three counters of the response agree with the log. *)
Definition tallied (w : World) (c : Cycle) : Prop :=
  action_reminders_sent (c_results c)
    = acknowledged_calls w "action_reminder" (c_outbox c) /\
  goal_checkins_sent (c_results c)
    = acknowledged_calls w "goal_checkin" (c_outbox c) /\
  session_preps_sent (c_results c)
    = acknowledged_calls w "session_prep" (c_outbox c).

End Report.

(** ** Further concrete data *)

Module Fixture.

(** The tables of [Sample.store] after action item [a1] was completed. *)
Definition completed_store : Store.Db := Store.mark_completed 1700000000000 "a1" Sample.store.

(** The click of [Sample.click] under a signature that is not the computed
    one. *)
Definition forged_click : Interactions.Request :=
  {| Interactions.r_method := "POST";
     Interactions.r_signature := Some "v0=0000";
     Interactions.r_timestamp := Some "1700000000";
     Interactions.r_body := Sample.body;
     Interactions.r_decoded := Interactions.Parsed Sample.click |}.

(** A deployment without [SLACK_SIGNING_SECRET]. *)
Definition no_secret : Interactions.Env :=
  {| Interactions.e_signing_secret := None;
     Interactions.e_now := 1700000060000 |}.

(** A nudge table that holds the goal check-in row of session 4711 twice. *)
Definition checkin_row : Store.NudgeRow :=
  {| Store.n_employee_email := Sample.ann;
     Store.n_nudge_type := "goal_checkin";
     Store.n_reference_id := "4711";
     Store.n_reference_type := "session";
     Store.n_message_ts := "1700000000.000200";
     Store.n_channel_id := "D024BE91L";
     Store.n_status := "sent";
     Store.n_response := None;
     Store.n_responded_at := None |}.

Definition doubled_cycle : Scheduler.Cycle :=
  {| Scheduler.c_db :=
       Store.with_slack_nudges (fun _ => [checkin_row; checkin_row]) Sample.fresh_store;
     Scheduler.c_outbox := [];
     Scheduler.c_results := Scheduler.no_results |}.

(** [Sample.world] without its goal check-in template. *)
Definition world_without_checkin_template : Scheduler.World :=
  let w := Sample.world (Sample.connection true "smart") in
  {| Scheduler.w_templates := delete "goal_checkin" (Scheduler.w_templates w);
     Scheduler.w_recent_sessions := Scheduler.w_recent_sessions w;
     Scheduler.w_upcoming_sessions := Scheduler.w_upcoming_sessions w;
     Scheduler.w_connections := Scheduler.w_connections w;
     Scheduler.w_hour_in := Scheduler.w_hour_in w;
     Scheduler.w_send := Scheduler.w_send w;
     Scheduler.w_json_parses := Scheduler.w_json_parses w;
     Scheduler.w_portal_url := Scheduler.w_portal_url w;
     Scheduler.w_today := Scheduler.w_today w;
     Scheduler.w_day_of := Scheduler.w_day_of w;
     Scheduler.w_short_date := Scheduler.w_short_date w;
     Scheduler.w_long_date := Scheduler.w_long_date w |}.

(** A session whose program name carries the cohort after the type. *)
Definition cohort_session : Survey.SessionRow :=
  {| Survey.st_id := "s1";
     Survey.st_employee_email := Sample.ann;
     Survey.st_employee_id := "17872";
     Survey.st_session_date := 20400;
     Survey.st_appointment_number := 1;
     Survey.st_coach_name := Some "Kim";
     Survey.st_status := "Completed";
     Survey.st_program_name := Some "Grow - Cohort 1" |}.

(** An empty [programs] table. *)
Definition no_programs : Portal.Programs :=
  {| Portal.p_with_id := fun _ => []; Portal.p_rows := [] |}.

(** The survey tables of [Sample.surveys] next to an empty score table. *)
Definition survey_tables (rpc : bool) : Portal.Tables :=
  {| Portal.t_surveys := Sample.surveys rpc; Portal.t_scores := [] |}.

(** Ann signed in, her account not linked to an employee row. *)
Definition ann_signed_in : Portal.Caller :=
  {| Portal.jwt_email := "Ann@Example.com"; Portal.linked_email := None |}.

(** Somebody else signed in. *)
Definition bob_signed_in : Portal.Caller :=
  {| Portal.jwt_email := "bob@example.com";
     Portal.linked_email := Some "bob@example.com" |}.

(** *** The slack-oauth function in a workspace [T0001] *)

Definition token_granted : OAuth.TokenResponse :=
  {| OAuth.tr_ok := true;
     OAuth.tr_access_token := Some "xoxb-1";
     OAuth.tr_team := Some ("T0001", "Acme");
     OAuth.tr_bot_user_id := Some "B01" |}.

Definition token_denied : OAuth.TokenResponse :=
  {| OAuth.tr_ok := false;
     OAuth.tr_access_token := None;
     OAuth.tr_team := None;
     OAuth.tr_bot_user_id := None |}.

(** Slack answers the exchange with [answer] and finds the user [found];
    the state is the address itself, as a stand-in for its encoding. *)
Definition oauth_world (answer : OAuth.TokenResponse) (found : option string)
    : OAuth.World :=
  {| OAuth.w_client_id := Some "client-1";
     OAuth.w_client_secret := Some "shh";
     OAuth.w_portal_url := None;
     OAuth.w_supabase_configured := true;
     OAuth.w_encode_state := Some;
     OAuth.w_authorize_url := fun _ _ state => "https://slack.com/oauth/v2/authorize?state=" +:+ state;
     OAuth.w_decode_state := fun state => Some (Some state);
     OAuth.w_exchange := fun _ _ _ _ => Some answer;
     OAuth.w_lookup_user := fun _ _ => Some found;
     OAuth.w_open_dm := fun _ _ => Some (Some "D024BE91L");
     OAuth.w_get_user := fun _ => Some "Ann@Example.com";
     OAuth.w_install_error := false;
     OAuth.w_connection_error := false;
     OAuth.w_delete_error := false;
     OAuth.w_update_error := false;
     OAuth.w_default_preferred_time := Some "09:00";
     OAuth.w_default_timezone := Some "America/New_York" |}.

Definition oauth_request (method action : string) : OAuth.Request :=
  {| OAuth.r_method := method;
     OAuth.r_origin := "https://project.supabase.co";
     OAuth.r_action := Some action;
     OAuth.r_email := Some "Ann@Example.com";
     OAuth.r_code := Some "code-1";
     OAuth.r_state := Some "Ann@Example.com";
     OAuth.r_error := None;
     OAuth.r_authorization := Some "Bearer jwt-1";
     OAuth.r_json := None |}.

(** Ann's connection, stored as the address was typed, with nudges off. *)
Definition ann_connection : OAuth.ConnectionRow :=
  {| OAuth.cn_employee_email := Some "Ann@Example.com";
     OAuth.cn_slack_team_id := "T0001";
     OAuth.cn_slack_user_id := "U2147483697";
     OAuth.cn_slack_dm_channel_id := Some "D024BE91L";
     OAuth.cn_nudge_enabled := false;
     OAuth.cn_nudge_frequency := "none";
     OAuth.cn_preferred_time := Some "23:00";
     OAuth.cn_timezone := Some "Europe/Paris" |}.

Definition no_connections : OAuth.Tables :=
  {| OAuth.slack_installations := ∅; OAuth.employee_slack_connections := [] |}.

Definition ann_connected : OAuth.Tables :=
  {| OAuth.slack_installations := ∅;
     OAuth.employee_slack_connections := [ann_connection] |}.

(** *** A serialised reminder block, around the placeholder of the due date *)

Definition quote : string := String "034"%char EmptyString.

Definition quoted (s : string) : string := quote +:+ s +:+ quote.

(** The text [JSON.stringify] gives for one section block, cut where the
    text of the block says [Due {{due_date}}, {{first_name}}]. *)
Definition blocks_before : string :=
  "[{" +:+ quoted "type" +:+ ":" +:+ quoted "section" +:+ ","
  +:+ quoted "text" +:+ ":{" +:+ quoted "type" +:+ ":" +:+ quoted "mrkdwn" +:+ ","
  +:+ quoted "text" +:+ ":" +:+ quote +:+ "Due ".

Definition blocks_after : string := ", {{first_name}}" +:+ quote +:+ "}}]".

Definition blocks_end : string := quote +:+ "}}]".

End Fixture.

(** * Properties *)

(** ** String primitives *)

Lemma split_cons_nonempty (sep : ascii) (s : string) : JS.split sep s <> [].
Proof.
  destruct s as [|c s]; simpl; [discriminate|].
  destruct (Ascii.eqb c sep); [discriminate|].
  destruct (JS.split sep s); discriminate.
Qed.

Lemma split_head (sep : ascii) (s : string) :
  head (JS.split sep s) = Some (JS.before_first sep s).
Proof.
  induction s as [|c s IH]; simpl; [reflexivity|].
  destruct (Ascii.eqb c sep); [reflexivity|].
  destruct (JS.split sep s) as [|piece rest]; simpl in *; congruence.
Qed.

Lemma before_first_app (sep : ascii) (a b : string) :
  JS.before_first sep (a +:+ String sep b) = JS.before_first sep a.
Proof.
  induction a as [|c a IH]; simpl.
  - now rewrite Ascii.eqb_refl.
  - destruct (Ascii.eqb c sep); [reflexivity|]. now rewrite IH.
Qed.

(** Splitting after a separator-free first piece. *)
Lemma split_app (sep : ascii) (a b : string) :
  JS.contains sep a = false ->
  JS.split sep (a +:+ String sep b) = a :: JS.split sep b.
Proof.
  induction a as [|c a IH]; simpl.
  - intros _. now rewrite Ascii.eqb_refl.
  - destruct (Ascii.eqb c sep); simpl; [discriminate|].
    intros H. now rewrite (IH H).
Qed.

Lemma split_hd (sep : ascii) (d s : string) :
  hd d (JS.split sep s) = JS.before_first sep s.
Proof.
  pose proof (split_head sep s) as H.
  destruct (JS.split sep s); simpl in *; congruence.
Qed.

(** ** The timing gate *)

Lemma preferredHour_first_piece (v : variant) (pref : string) :
  Timing.preferredHour v pref =
  match v with
  | Shared => JS.parseInt10 (JS.before_first ":" pref)
  | SelfContained =>
      JS.parseInt10 (JS.or_else (Some (JS.before_first ":" pref)) "9")
  end.
Proof.
  destruct v; unfold Timing.preferredHour.
  - now rewrite split_hd.
  - now rewrite split_head.
Qed.

Lemma abs_diff_le_spec (a b : option Z) (bound : Z) :
  JS.abs_diff_le a b bound = true <->
  exists x y, a = Some x /\ b = Some y /\ Z.abs (x - y) <= bound.
Proof.
  unfold JS.abs_diff_le. split.
  - destruct a as [x|], b as [y|]; try discriminate.
    intros H. exists x, y. repeat split. now apply Z.leb_le.
  - intros (x & y & -> & -> & H). now apply Z.leb_le.
Qed.

Lemma gate_passes_timing (v : variant) (w : Scheduler.World) (e : string)
    (conn : Scheduler.SlackConnection) :
  Scheduler.gate v w e = Some conn ->
  Scheduler.nudge_enabled conn = true /\
  Timing.isAppropriateTime v (Scheduler.preferred_time conn)
    (Scheduler.w_hour_in w (Scheduler.timezone conn)) = true /\
  head (Scheduler.w_connections w e) = Some conn.
Proof.
  unfold Scheduler.gate.
  destruct (Scheduler.w_connections w e) as [|c rest]; [discriminate|].
  destruct (Scheduler.nudge_enabled c) eqn:En; simpl; [|discriminate].
  destruct (Timing.isAppropriateTime v _ _) eqn:Et; simpl; [|discriminate].
  intros [= <-]. auto.
Qed.

(** C5.  The timing gate lets a candidate through exactly when the hour read
    in the recipient's zone and the hour of the preferred time differ by at
    most 1; what follows the first colon of the preferred time plays no part;
    14:00 against hour 16 is refused and against hour 15 is allowed; a
    formatter that throws opens the gate; and the scheduler only goes on to
    deliver for a connection whose gate is open. *)
Theorem timing_gate_hour_window :
  (forall v pref ut,
      Timing.isAppropriateTime v (Some pref) (Some ut) = true <->
      exists h p, JS.parseInt10 ut = Some h /\
                  Timing.preferredHour v pref = Some p /\
                  Z.abs (h - p) <= 1) /\
  (forall v hh mm,
      Timing.preferredHour v (hh +:+ ":" +:+ mm) = Timing.preferredHour v hh) /\
  (forall v,
      Timing.isAppropriateTime v (Some "14:00") (Some "16") = false /\
      Timing.isAppropriateTime v (Some "14:00") (Some "15") = true) /\
  (forall v pref, Timing.isAppropriateTime v pref None = true) /\
  (forall v w e conn,
      Scheduler.gate v w e = Some conn ->
      Timing.isAppropriateTime v (Scheduler.preferred_time conn)
        (Scheduler.w_hour_in w (Scheduler.timezone conn)) = true).
Proof.
  split; [|split; [|split; [|split]]].
  - intros v pref ut. destruct v; simpl; apply abs_diff_le_spec.
  - intros v hh mm. rewrite !preferredHour_first_piece.
    change (hh +:+ ":" +:+ mm) with (hh +:+ String ":" mm).
    now rewrite before_first_app.
  - intros v. destruct v; split; reflexivity.
  - intros v pref. destruct v; reflexivity.
  - intros v w e conn H. now apply gate_passes_timing in H.
Qed.

(** C9.  Hours are compared by plain absolute difference on the number the
    formatter prints, with no wrap-around, so the window is cut at whatever
    number stands for midnight.  Where midnight is printed as 0, a preferred
    time of 23:00 read at midnight gives 23 and the gate is closed; where it
    is printed as 24, the same reading gives 1 and the gate is open, while a
    preferred time of 00:00 is then refused at midnight itself.  At hour 23 a
    preferred time of 00:00 is refused under both. *)
Theorem timing_gate_cut_at_printed_midnight (v : variant) :
  (forall cycle h pref p ut,
      JS.parseInt10 ut = Some (Timing.printed_hour cycle h) ->
      Timing.preferredHour v pref = Some p ->
      (Timing.isAppropriateTime v (Some pref) (Some ut) = true <->
       Z.abs (Timing.printed_hour cycle h - p) <= 1)) /\
  Timing.preferredHour v "23:00" = Some 23 /\
  Timing.preferredHour v "00:00" = Some 0 /\
  (forall ut,
      JS.parseInt10 ut = Some (Timing.printed_hour Timing.H23 0) ->
      Timing.isAppropriateTime v (Some "23:00") (Some ut) = false /\
      Timing.isAppropriateTime v (Some "00:00") (Some ut) = true) /\
  (forall ut,
      JS.parseInt10 ut = Some (Timing.printed_hour Timing.H24 0) ->
      Timing.isAppropriateTime v (Some "23:00") (Some ut) = true /\
      Timing.isAppropriateTime v (Some "00:00") (Some ut) = false) /\
  (forall cycle ut,
      JS.parseInt10 ut = Some (Timing.printed_hour cycle 23) ->
      Timing.isAppropriateTime v (Some "00:00") (Some ut) = false) /\
  (forall w e conn rest cycle ut,
      Scheduler.w_connections w e = conn :: rest ->
      Scheduler.nudge_enabled conn = true ->
      Scheduler.preferred_time conn = Some "23:00" ->
      Scheduler.w_hour_in w (Scheduler.timezone conn) = Some ut ->
      JS.parseInt10 ut = Some (Timing.printed_hour cycle 0) ->
      Scheduler.gate v w e = match cycle with
                             | Timing.H23 => None
                             | Timing.H24 => Some conn
                             end).
Proof.
  assert (H23 : Timing.preferredHour v "23:00" = Some 23) by (destruct v; reflexivity).
  assert (H00 : Timing.preferredHour v "00:00" = Some 0) by (destruct v; reflexivity).
  assert (Hgate : forall pref ut h p,
             JS.parseInt10 ut = Some h -> Timing.preferredHour v pref = Some p ->
             Timing.isAppropriateTime v (Some pref) (Some ut) = (Z.abs (h - p) <=? 1)).
  { intros pref ut h p Hh Hp. destruct v; simpl in *; now rewrite Hh, Hp. }
  split; [|split; [exact H23|split; [exact H00|split; [|split; [|split]]]]].
  - intros cycle h pref p ut Hh Hp. rewrite (Hgate _ _ _ _ Hh Hp). apply Z.leb_le.
  - intros ut Hh. now rewrite (Hgate _ _ _ _ Hh H23), (Hgate _ _ _ _ Hh H00).
  - intros ut Hh. now rewrite (Hgate _ _ _ _ Hh H23), (Hgate _ _ _ _ Hh H00).
  - intros cycle ut Hh. rewrite (Hgate _ _ _ _ Hh H00). now destruct cycle.
  - intros w e conn rest cycle ut Hc Hen Hp Hu Hh. unfold Scheduler.gate.
    rewrite Hc, Hen, Hp, Hu, (Hgate _ _ _ _ Hh H23). now destruct cycle.
Qed.

Lemma timing_gate_hour_window_witness :
  Timing.isAppropriateTime SelfContained (Some "09:00") (Some "9") = true.
Proof.
  apply (proj2 (proj2 (proj2 (proj2 timing_gate_hour_window)))
           SelfContained (Sample.world (Sample.connection true "smart"))
           Sample.ann (Sample.connection true "smart")).
  reflexivity.
Defined.

Lemma timing_gate_cut_at_printed_midnight_witness :
  Scheduler.gate SelfContained (Sample.world_at "00" Sample.late_connection) Sample.ann
  = None.
Proof.
  apply (proj2 (proj2 (proj2 (proj2 (proj2 (proj2
           (timing_gate_cut_at_printed_midnight SelfContained))))))
           (Sample.world_at "00" Sample.late_connection) Sample.ann
           Sample.late_connection [] Timing.H23 "00"); reflexivity.
Defined.

(** Where the formatter prints local midnight as 24, a recipient whose
    preferred time is 23:00 is not skipped at midnight: the gate is open and
    the cycle sends to them. *)
Lemma midnight_nudge_sent_where_printed_24 :
  JS.parseInt10 "24" = Some (Timing.printed_hour Timing.H24 0) /\
  (forall v,
      Timing.isAppropriateTime v (Some "23:00") (Some "24") = true /\
      Scheduler.gate v (Sample.world_at "24" Sample.late_connection) Sample.ann
      = Some Sample.late_connection /\
      map Scheduler.sent_key
        (Scheduler.c_outbox
           (Scheduler.run_cycle v (Sample.world_at "24" Sample.late_connection)
              Sample.fresh_store))
      = [ (Sample.ann, "action_reminder", "a1");
          (Sample.ann, "goal_checkin", "4711") ]).
Proof.
  split; [reflexivity|]. intros v. destruct v; repeat split; vm_compute; reflexivity.
Defined.

(** X22.  A null preferred time: the shared copy fails open on the
    [TypeError], the self-contained copy falls back on hour 9. *)
Lemma null_preferred_time (ut : string) :
  Timing.isAppropriateTime Shared None (Some ut) = true /\
  Timing.isAppropriateTime SelfContained None (Some ut)
    = Timing.isAppropriateTime SelfContained (Some "9") (Some ut).
Proof. split; reflexivity. Qed.

(** The comparison is on what the formatter prints: a runtime that prints
    midnight as 24 under [hour12: false] puts it next to 23 and far from 0. *)
Lemma midnight_printed_as_24 (v : variant) :
  Timing.isAppropriateTime v (Some "23:00") (Some "24") = true /\
  Timing.isAppropriateTime v (Some "00:30") (Some "24") = false.
Proof. destruct v; split; reflexivity. Qed.

(** An hour that does not parse closes the gate: [NaN <= 1] is false. *)
Lemma unparsable_hour_closes_gate (v : variant) (pref : string) :
  Timing.isAppropriateTime v (Some pref) (Some "noon") = false.
Proof. destruct v; reflexivity. Qed.

(** ** The slack-interactions handler *)

Section InteractionProperties.
Import Store Interactions.

Variable hmac : string -> string -> string.

(** The handler writes [action_items] in one way only: the "set to
    completed" update at the row the click names. *)
Lemma handle_action_items (v : variant) (env : Env) (req : Request) (db : Db) :
  action_items (o_db (handle hmac v env req db)) = action_items db \/
  exists id, click_target req = Some id /\
             action_items (o_db (handle hmac v env req db)) =
             alter (complete_row (e_now env)) id (action_items db).
Proof.
  unfold handle, click_target, dispatch_shared, dispatch_self_contained,
    update_message, reply.
  repeat case_match; simpl; auto; right; eexists; split; reflexivity.
Qed.

(** Whatever the request, a row is neither added nor removed. *)
Lemma handle_keeps_rows (v : variant) (env : Env) (req : Request) (db : Db) :
  dom (action_items (o_db (handle hmac v env req db))) = dom (action_items db).
Proof.
  destruct (handle_action_items v env req db) as [->|(id & _ & ->)]; [done|].
  apply leibniz_equiv. apply dom_alter.
Qed.

(** Whatever the request, a completed item stays completed. *)
Lemma handle_keeps_completed (v : variant) (env : Env) (req : Request) (db : Db)
    (id : string) :
  ai_status <$> (action_items db !! id) = Some "completed" ->
  ai_status <$> (action_items (o_db (handle hmac v env req db)) !! id)
    = Some "completed".
Proof.
  intros H.
  destruct (handle_action_items v env req db) as [->|(k & _ & ->)]; [done|].
  rewrite lookup_alter. case_decide; [subst k|done].
  destruct (action_items db !! id); [reflexivity|discriminate].
Qed.

(** Whatever the request, no nudge row is added or removed. *)
Lemma handle_keeps_nudge_count (v : variant) (env : Env) (req : Request) (db : Db) :
  length (slack_nudges (o_db (handle hmac v env req db))) = length (slack_nudges db).
Proof.
  unfold handle, dispatch_shared, dispatch_self_contained, update_message, reply.
  repeat case_match; simpl; rewrite ?length_map; reflexivity.
Qed.

(** An accepted [action_done] click for [id] performs the update at [id]. *)
Lemma handle_done_click (v : variant) (env : Env) (req : Request) (db : Db)
    (id : string) :
  is_done_click req id = true ->
  authentic hmac v env req = Some true ->
  installed req db = true ->
  action_items (o_db (handle hmac v env req db)) =
  alter (complete_row (e_now env)) id (action_items db).
Proof.
  unfold is_done_click, click_target, installed, handle.
  intros Hc Ha Hi. rewrite Ha.
  destruct (String.eqb (r_method req) "POST"); [simpl in *|discriminate].
  destruct (r_decoded req) as [| |p]; try discriminate.
  destruct (String.eqb (p_type p) "block_actions") eqn:Ht; [simpl in Hc|discriminate].
  apply String.eqb_eq in Ht. rewrite Ht. simpl.
  destruct (p_actions p) as [|action rest]; [discriminate|].
  destruct (String.eqb (action_id action) "action_done") eqn:Hd; [|discriminate].
  apply String.eqb_eq in Hd.
  destruct (referenceId _) as [target|]; [|discriminate].
  apply andb_prop in Hc as [Hk Hid]. apply String.eqb_eq in Hk. subst target.
  destruct (lookup_installation p db) as [token|]; [|discriminate].
  unfold dispatch_shared, dispatch_self_contained, update_message, reply.
  rewrite Hd, Hid. simpl.
  destruct v; repeat case_match; reflexivity.
Qed.

Lemma completed_after_update (now : Z) (id : string)
    (items : gmap string ActionItemRow) :
  is_Some (items !! id) ->
  ai_status <$> (alter (complete_row now) id items !! id) = Some "completed".
Proof.
  intros [row Hrow]. rewrite lookup_alter, decide_True by done.
  now rewrite Hrow.
Qed.

Lemma update_of_completed (now : Z) (id : string)
    (items : gmap string ActionItemRow) :
  ai_status <$> (items !! id) = Some "completed" ->
  ai_status <$> alter (complete_row now) id items = ai_status <$> items.
Proof.
  intros H. apply map_eq. intros k. rewrite !lookup_fmap, lookup_alter.
  case_decide; [subst k|done].
  destruct (items !! id); [simpl in *; congruence|discriminate].
Qed.

(** C8.  An accepted [action_done] click for an existing action item
    leaves it with status [completed]; delivering the same click again, at
    any later moment, leaves it [completed], leaves every status of the table
    as the first delivery left it, and adds no action item. *)
Theorem done_click_delivered_twice (v : variant) (env1 env2 : Env)
    (req : Request) (db : Db) (id : string) :
  is_done_click req id = true ->
  authentic hmac v env1 req = Some true ->
  installed req db = true ->
  is_Some (action_items db !! id) ->
  let db1 := o_db (handle hmac v env1 req db) in
  let db2 := o_db (handle hmac v env2 req db1) in
  ai_status <$> (action_items db1 !! id) = Some "completed" /\
  ai_status <$> (action_items db2 !! id) = Some "completed" /\
  ai_status <$> action_items db2 = ai_status <$> action_items db1 /\
  dom (action_items db2) = dom (action_items db).
Proof.
  intros Hc Ha Hi Hrow db1 db2.
  assert (H1 : ai_status <$> (action_items db1 !! id) = Some "completed").
  { subst db1. rewrite (handle_done_click v env1 req db id Hc Ha Hi).
    now apply completed_after_update. }
  split; [exact H1|].
  split; [now apply handle_keeps_completed|].
  split.
  - subst db2.
    destruct (handle_action_items v env2 req db1) as [->|(k & Hk & ->)]; [done|].
    assert (k = id) as ->.
    { unfold is_done_click in Hc. rewrite Hk in Hc.
      apply andb_prop in Hc as [Hc _]. apply andb_prop in Hc as [_ Hc].
      now apply String.eqb_eq in Hc. }
    now apply update_of_completed.
  - subst db2 db1. now rewrite !handle_keeps_rows.
Qed.

End InteractionProperties.

Lemma done_click_delivered_twice_witness :
  let hmac := Sample.toy_hmac in
  let req := Sample.signed_click hmac "1700000000" in
  let db1 := Interactions.o_db
               (Interactions.handle hmac Shared Sample.on_time req Sample.store) in
  let db2 := Interactions.o_db
               (Interactions.handle hmac Shared Sample.an_hour_later req db1) in
  Store.ai_status <$> (Store.action_items db1 !! "a1") = Some "completed" /\
  Store.ai_status <$> (Store.action_items db2 !! "a1") = Some "completed" /\
  Store.ai_status <$> Store.action_items db2 = Store.ai_status <$> Store.action_items db1 /\
  dom (Store.action_items db2) = dom (Store.action_items Sample.store).
Proof.
  apply (done_click_delivered_twice Sample.toy_hmac Shared Sample.on_time
           Sample.an_hour_later (Sample.signed_click Sample.toy_hmac "1700000000")
           Sample.store "a1").
  - reflexivity.
  - reflexivity.
  - reflexivity.
  - vm_compute. eexists. reflexivity.
Defined.

Section Authenticity.
Import Store Interactions.

Variable hmac : string -> string -> string.

(** A request the signature step refuses is answered 401 and writes
    nothing. *)
Lemma refused_request_changes_nothing (v : variant) (env : Env) (req : Request)
    (db : Db) :
  r_method req = "POST" ->
  authentic hmac v env req = Some false ->
  handle hmac v env req db = reply 401 db.
Proof.
  intros Hm Ha. unfold handle. now rewrite Hm, Ha.
Qed.

(** With a signing secret configured, a signature other than the computed
    one is refused by both copies. *)
Lemma forged_signature_refused (v : variant) (env : Env) (req : Request)
    (secret : string) :
  e_signing_secret env = Some secret ->
  JS.truthy secret = true ->
  header (r_signature req)
    <> computedSignature hmac secret (header (r_timestamp req)) (r_body req) ->
  authentic hmac v env req = Some false.
Proof.
  intros Hs Ht Hne.
  assert (String.eqb (computedSignature hmac secret (header (r_timestamp req))
                        (r_body req)) (header (r_signature req)) = false) as He.
  { apply String.eqb_neq. congruence. }
  unfold authentic, verifySlackSignature. rewrite Hs.
  destruct v; cbn -[computedSignature JS.abs_diff_gt JS.truthy];
    rewrite Ht, He; [reflexivity|].
  now destruct (JS.abs_diff_gt _ _ _).
Qed.

(** The self-contained copy refuses a timestamp more than 300 seconds away
    from its clock, whatever the signature. *)
Lemma stale_timestamp_refused_self_contained (env : Env) (req : Request)
    (secret : string) (t : Z) :
  e_signing_secret env = Some secret ->
  JS.truthy secret = true ->
  JS.parseInt (header (r_timestamp req)) = Some t ->
  300 < Z.abs (e_now env / 1000 - t) ->
  authentic hmac SelfContained env req = Some false.
Proof.
  intros Hs Ht Hp Hold. unfold authentic, verifySlackSignature.
  rewrite Hs. cbn -[computedSignature JS.abs_diff_gt JS.truthy JS.parseInt Z.div].
  rewrite Ht, Hp. unfold JS.abs_diff_gt.
  apply Z.ltb_lt in Hold. now rewrite Hold.
Qed.

(** The shared copy never consults the clock: its verdict is the same at
    every moment. *)
Lemma shared_verdict_ignores_clock (now1 now2 : Z)
    (secret signature timestamp body : string) :
  verifySlackSignature hmac Shared now1 secret signature timestamp body =
  verifySlackSignature hmac Shared now2 secret signature timestamp body.
Proof. reflexivity. Qed.

(** C4.  A click signed for timestamp 1700000000 and delivered one hour
    later: the shared handler accepts it, completes the action item and
    answers 200, where the self-contained handler answers 401 and writes
    nothing. *)
Theorem stale_signed_callback_is_processed :
  let req := Sample.signed_click hmac "1700000000" in
  let out := handle hmac Shared Sample.an_hour_later req Sample.store in
  JS.parseInt "1700000000" = Some 1700000000 /\
  e_now Sample.an_hour_later / 1000 - 1700000000 = 3600 /\
  authentic hmac Shared Sample.an_hour_later req = Some true /\
  o_status out = 200 /\
  ai_status <$> (action_items (o_db out) !! "a1") = Some "completed" /\
  handle hmac SelfContained Sample.an_hour_later req Sample.store
    = reply 401 Sample.store.
Proof.
  assert (Ha : authentic hmac Shared Sample.an_hour_later
                 (Sample.signed_click hmac "1700000000") = Some true).
  { unfold authentic, verifySlackSignature. simpl. now rewrite String.eqb_refl. }
  intros req out. subst req out.
  split; [reflexivity|]. split; [reflexivity|]. split; [exact Ha|].
  unfold handle. rewrite Ha.
  split; [reflexivity|]. split; [reflexivity|].
  reflexivity.
Qed.

(** A row that the click does not name is left as it was. *)
Lemma handle_leaves_other_rows (v : variant) (env : Env) (req : Request) (db : Db)
    (k : string) :
  click_target req <> Some k ->
  action_items (o_db (handle hmac v env req db)) !! k = action_items db !! k.
Proof.
  intros Hk.
  destruct (handle_action_items hmac v env req db) as [->|(id & Hid & ->)]; [done|].
  rewrite lookup_alter_ne; [done|]. congruence.
Qed.

End Authenticity.

(** ** Recovering the reference id from a block id *)

Lemma append_neq_self (a b : string) (c : ascii) : a <> a +:+ String c b.
Proof.
  induction a as [|x a IH]; simpl; [discriminate|].
  intros [= H]. now apply IH.
Qed.

Lemma reference_id_second_token (a b : string) :
  JS.contains "_" a = false ->
  Interactions.referenceId ("action_" +:+ a +:+ "_" +:+ b) = Some a.
Proof.
  intros Ha. unfold Interactions.referenceId.
  change ("action_" +:+ a +:+ "_" +:+ b)
    with ("action" +:+ String "_" (a +:+ String "_" b)).
  rewrite split_app by reflexivity.
  rewrite (split_app "_" a b Ha). reflexivity.
Qed.

(** C10.  The reference id is the second underscore-separated token of the
    block id: for [action_<id>] with an underscore inside [<id>], only the part
    of [<id>] before its first underscore is recovered, which is not [<id>];
    so whatever button the click carries, the action item whose key is [<id>]
    is left untouched by the handler. *)
Theorem reference_id_stops_at_underscore (a b : string) :
  JS.contains "_" a = false ->
  Interactions.referenceId ("action_" +:+ a +:+ "_" +:+ b) = Some a /\
  a <> a +:+ "_" +:+ b /\
  forall hmac v env req db p action rest,
    Interactions.r_decoded req = Interactions.Parsed p ->
    Interactions.p_actions p = action :: rest ->
    Interactions.block_id action = Some ("action_" +:+ a +:+ "_" +:+ b) ->
    Store.action_items (Interactions.o_db (Interactions.handle hmac v env req db))
      !! (a +:+ "_" +:+ b)
    = Store.action_items db !! (a +:+ "_" +:+ b).
Proof.
  intros Ha. split; [now apply reference_id_second_token|].
  split; [apply append_neq_self|].
  intros hmac v env req db p action rest Hd Hp Hb.
  apply handle_leaves_other_rows.
  unfold Interactions.click_target. rewrite Hd, Hp, Hb.
  destruct (String.eqb _ _); [|discriminate].
  change (JS.or_else (Some ("action_" +:+ a +:+ "_" +:+ b)) EmptyString)
    with ("action_" +:+ a +:+ "_" +:+ b).
  rewrite (reference_id_second_token a b Ha).
  intros [= H]. now apply (append_neq_self a b "_").
Qed.

Lemma reference_id_stops_at_underscore_witness :
  JS.contains "_" "7f3a" = false /\
  Interactions.referenceId ("action_" +:+ "7f3a" +:+ "_" +:+ "2") = Some "7f3a".
Proof.
  split; [reflexivity|].
  apply (reference_id_stops_at_underscore "7f3a" "2"). reflexivity.
Defined.

(** ** The nudge scheduler *)

Section SchedulerProperties.
Import Store Scheduler.

Lemma fold_left_invariant {S X : Type} (P : S -> Prop) (f : S -> X -> S)
    (l : list X) (s0 : S) :
  (forall s x, P s -> P (f s x)) -> P s0 -> P (fold_left f l s0).
Proof.
  intros Hstep. revert s0.
  induction l as [|x l IH]; simpl; intros s0 H0; [exact H0|].
  apply IH. now apply Hstep.
Qed.

(** [deliver] makes at most one call, for the candidate it was given. *)
Lemma deliver_outbox v w kind mail ref ref_type conn vs text c :
  c_outbox (deliver v w kind mail ref ref_type conn vs text c) = c_outbox c \/
  exists msg,
    c_outbox (deliver v w kind mail ref ref_type conn vs text c) =
    c_outbox c ++ [ {| sent_email := mail; sent_kind := kind;
                       sent_reference := ref; sent_message := msg |} ].
Proof.
  unfold deliver, count_error.
  repeat case_match; simpl; eauto.
Qed.

Lemma gated_deliver_enabled v w kind mail ref ref_type conn vs text c :
  gate v w mail = Some conn ->
  Forall (enabled_recipient w) (c_outbox c) ->
  Forall (enabled_recipient w)
    (c_outbox (deliver v w kind mail ref ref_type conn vs text c)).
Proof.
  intros Hg Hc.
  destruct (deliver_outbox v w kind mail ref ref_type conn vs text c)
    as [->|(msg & ->)]; [exact Hc|].
  apply Forall_app. split; [exact Hc|].
  constructor; [|constructor].
  apply gate_passes_timing in Hg as (He & _ & Hh).
  exists conn. simpl. auto.
Qed.

Lemma remind_action_enabled v w c a :
  Forall (enabled_recipient w) (c_outbox c) ->
  Forall (enabled_recipient w) (c_outbox (remind_action v w c a)).
Proof.
  intros Hc. unfold remind_action.
  destruct (gate v w (email a)) eqn:Hg; [|exact Hc].
  now apply gated_deliver_enabled.
Qed.

Lemma checkin_goal_enabled v w c s :
  Forall (enabled_recipient w) (c_outbox c) ->
  Forall (enabled_recipient w) (c_outbox (checkin_goal v w c s)).
Proof.
  intros Hc. unfold checkin_goal.
  destruct (s_company_email s) as [mail|]; [|exact Hc].
  destruct (negb (JS.truthy mail)); [exact Hc|].
  destruct (existing_nudge _ _ _ _); [exact Hc|].
  destruct (gate v w mail) eqn:Hg; [|exact Hc].
  now apply gated_deliver_enabled.
Qed.

Lemma prepare_session_enabled v w c s :
  Forall (enabled_recipient w) (c_outbox c) ->
  Forall (enabled_recipient w) (c_outbox (prepare_session v w c s)).
Proof.
  intros Hc. unfold prepare_session.
  destruct (s_company_email s) as [mail|]; [|exact Hc].
  destruct (negb (JS.truthy mail)); [exact Hc|].
  destruct (existing_nudge _ _ _ _); [exact Hc|].
  destruct (gate v w mail) eqn:Hg; [|exact Hc].
  now apply gated_deliver_enabled.
Qed.

Lemma fold_left_ext {S X : Type} (f g : S -> X -> S) (l : list X) (s0 : S) :
  (forall s x, f s x = g s x) -> fold_left f l s0 = fold_left g l s0.
Proof.
  intros H. revert s0. induction l as [|x l IH]; simpl; intros s0; [reflexivity|].
  now rewrite H, IH.
Qed.

Lemma gate_reset_frequency mode v w e :
  gate v (reset_frequency mode w) e = set_frequency mode <$> gate v w e.
Proof.
  unfold gate. simpl.
  destruct (w_connections w e) as [|conn rest]; simpl; [reflexivity|].
  destruct (nudge_enabled conn); simpl; [|reflexivity].
  now destruct (Timing.isAppropriateTime v _ _).
Qed.

Lemma deliver_reset_frequency mode v w kind mail ref ref_type conn vs text c :
  deliver v (reset_frequency mode w) kind mail ref ref_type
    (set_frequency mode conn) vs text c
  = deliver v w kind mail ref ref_type conn vs text c.
Proof. reflexivity. Qed.

(** The frequency mode of a connection plays no part in a cycle. *)
Lemma cycle_ignores_frequency mode v w db :
  run_cycle v (reset_frequency mode w) db = run_cycle v w db.
Proof.
  unfold run_cycle.
  change (get_due_action_items (reset_frequency mode w) db 2)
    with (get_due_action_items w db 2).
  change (w_recent_sessions (reset_frequency mode w)) with (w_recent_sessions w).
  change (w_upcoming_sessions (reset_frequency mode w)) with (w_upcoming_sessions w).
  rewrite (fold_left_ext (remind_action v (reset_frequency mode w)) (remind_action v w)).
  2:{ intros c a. unfold remind_action. rewrite gate_reset_frequency.
      now destruct (gate v w (email a)). }
  rewrite (fold_left_ext (checkin_goal v (reset_frequency mode w)) (checkin_goal v w)).
  2:{ intros c s. unfold checkin_goal.
      destruct (s_company_email s) as [mail|]; [|reflexivity].
      destruct (negb (JS.truthy mail)); [reflexivity|].
      destruct (existing_nudge _ _ _ _); [reflexivity|].
      rewrite gate_reset_frequency. now destruct (gate v w mail). }
  apply fold_left_ext.
  intros c s. unfold prepare_session.
  destruct (s_company_email s) as [mail|]; [|reflexivity].
  destruct (negb (JS.truthy mail)); [reflexivity|].
  destruct (existing_nudge _ _ _ _); [reflexivity|].
  rewrite gate_reset_frequency. now destruct (gate v w mail).
Qed.

(** C2, as amended.  Every message sent in a cycle is for a candidate whose
    connection was found with the enabled flag set: an employee without a
    connection, or with [nudge_enabled] false, gets no message, whatever the
    timing, the templates and the nudge history are.  The frequency mode is
    not consulted: changing it on any connection changes nothing of the
    cycle. *)
Theorem sends_only_to_enabled_connections (v : variant) (w : World) (db : Db) :
  (forall s,
      In s (c_outbox (run_cycle v w db)) ->
      exists conn, head (w_connections w (sent_email s)) = Some conn /\
                   nudge_enabled conn = true) /\
  (forall mode, run_cycle v (reset_frequency mode w) db = run_cycle v w db).
Proof.
  split; [|intros mode; apply cycle_ignores_frequency].
  intros s Hin.
  assert (H : Forall (enabled_recipient w) (c_outbox (run_cycle v w db))).
  { unfold run_cycle.
    apply fold_left_invariant; [intros; now apply prepare_session_enabled|].
    apply fold_left_invariant; [intros; now apply checkin_goal_enabled|].
    apply fold_left_invariant; [intros; now apply remind_action_enabled|].
    constructor. }
  rewrite Forall_forall in H. apply H. now apply list_elem_of_In.
Qed.

End SchedulerProperties.

Lemma sends_only_to_enabled_connections_witness :
  exists conn,
    head (Scheduler.w_connections (Sample.world (Sample.connection true "smart"))
            Sample.ann) = Some conn /\
    Scheduler.nudge_enabled conn = true.
Proof.
  set (w := Sample.world (Sample.connection true "smart")).
  set (msg := {| Scheduler.m_token := "xoxb-1";
                 Scheduler.m_channel := "D024BE91L";
                 Scheduler.m_blocks :=
                   "Hi Ann, how are your goals going: delegate more?";
                 Scheduler.m_text := "How's progress on your coaching goals?" |}).
  apply (proj1 (sends_only_to_enabled_connections Shared w Sample.fresh_store)
           {| Scheduler.sent_email := Sample.ann;
              Scheduler.sent_kind := "goal_checkin";
              Scheduler.sent_reference := "4711";
              Scheduler.sent_message := msg |}).
  vm_compute. right. left. reflexivity.
Defined.

(** C2, as stated, fails: with the enabled flag set and the frequency mode
    [none], the goal check-in for the recent session is sent. *)
Lemma frequency_none_still_sends :
  ~ (forall v w db s conn,
        In s (Scheduler.c_outbox (Scheduler.run_cycle v w db)) ->
        head (Scheduler.w_connections w (Scheduler.sent_email s)) = Some conn ->
        Scheduler.nudge_enabled conn = true /\
        Scheduler.nudge_frequency conn <> "none").
Proof.
  intros H.
  set (conn := Sample.connection true "none").
  set (msg := {| Scheduler.m_token := "xoxb-1";
                 Scheduler.m_channel := "D024BE91L";
                 Scheduler.m_blocks :=
                   "Hi Ann, how are your goals going: delegate more?";
                 Scheduler.m_text := "How's progress on your goals?" |}).
  destruct (H SelfContained (Sample.world conn) Sample.fresh_store
              {| Scheduler.sent_email := Sample.ann;
                 Scheduler.sent_kind := "goal_checkin";
                 Scheduler.sent_reference := "4711";
                 Scheduler.sent_message := msg |} conn) as [_ Hfreq].
  - vm_compute. right. left. reflexivity.
  - reflexivity.
  - apply Hfreq. reflexivity.
Qed.

(** *** Rerunning the scheduler *)

Section Rerun.
Import Store Scheduler.

Lemma lower_char_idem (c : ascii) : JS.lower_char (JS.lower_char c) = JS.lower_char c.
Proof. destruct c as [[] [] [] [] [] [] [] []]; reflexivity. Qed.

Lemma toLowerCase_idem (s : string) :
  JS.toLowerCase (JS.toLowerCase s) = JS.toLowerCase s.
Proof.
  induction s as [|c s IH]; [reflexivity|].
  unfold JS.toLowerCase in *. simpl. now rewrite lower_char_idem, IH.
Qed.

(** [record_nudge] adds one row, which counts under its own key only. *)
Lemma matching_rows_record mail kind ref ref_type ts channel db e kind' ref' :
  length (matching_rows (record_nudge mail kind ref ref_type ts channel db) e kind' ref')
  = (length (matching_rows db e kind' ref')
     + (if String.eqb mail e && String.eqb kind kind' && String.eqb ref ref'
        then 1 else 0))%nat.
Proof.
  unfold matching_rows, record_nudge, with_slack_nudges. simpl.
  rewrite List.filter_app, length_app. simpl.
  now destruct (String.eqb mail e && String.eqb kind kind' && String.eqb ref ref').
Qed.

(** What [deliver] leaves behind: nothing, a logged call, or a logged call
    and its row. *)
Lemma deliver_cases v w kind mail ref ref_type conn vs text c :
  let c' := deliver v w kind mail ref ref_type conn vs text c in
  let entry msg := {| sent_email := mail; sent_kind := kind;
                      sent_reference := ref; sent_message := msg |} in
  (c_db c' = c_db c /\
   (c_outbox c' = c_outbox c \/ exists msg, c_outbox c' = c_outbox c ++ [entry msg]))
  \/
  (exists ts msg,
      c_db c' = record_nudge mail kind ref ref_type ts (slack_dm_channel_id conn) (c_db c)
      /\ c_outbox c' = c_outbox c ++ [entry msg]).
Proof.
  unfold deliver, count_error.
  repeat case_match; simpl; eauto 10.
Qed.

Lemma no_row_seen (db : Db) (mail kind ref : string) :
  unique_session_rows db -> session_kind kind ->
  existing_nudge db mail kind ref = None ->
  matching_rows db (JS.toLowerCase mail) kind ref = [].
Proof.
  intros Hu Hk He. unfold existing_nudge in He.
  specialize (Hu (JS.toLowerCase mail) kind ref (toLowerCase_idem mail) Hk).
  destruct (matching_rows db (JS.toLowerCase mail) kind ref) as [|r [|r' l]];
    [reflexivity|discriminate|simpl in Hu; lia].
Qed.

Lemma rerun_deliver_session db0 v w kind mail ref ref_type conn vs text c :
  session_kind kind ->
  existing_nudge (c_db c) mail kind ref = None ->
  rerun_invariant db0 c ->
  rerun_invariant db0 (deliver v w kind mail ref ref_type conn vs text c).
Proof.
  intros Hk He (Hu & Hm & Ho).
  pose proof (no_row_seen _ _ _ _ Hu Hk He) as Hnone.
  assert (Hnone0 : matching_rows db0 (JS.toLowerCase mail) kind ref = []).
  { specialize (Hm (JS.toLowerCase mail) kind ref). rewrite Hnone in Hm.
    destruct (matching_rows db0 _ _ _); [reflexivity|simpl in Hm; lia]. }
  assert (Hentry : forall msg,
    Forall (fun s => session_kind (sent_kind s) ->
                     matching_rows db0 (JS.toLowerCase (sent_email s)) (sent_kind s)
                       (sent_reference s) = [])
      (c_outbox c ++ [ {| sent_email := mail; sent_kind := kind;
                          sent_reference := ref; sent_message := msg |} ])).
  { intros msg. apply Forall_app. split; [exact Ho|].
    constructor; [|constructor]. intros _. exact Hnone0. }
  destruct (deliver_cases v w kind mail ref ref_type conn vs text c)
    as [(Hdb & Hout)|(ts & msg & Hdb & Hout)]; unfold rerun_invariant;
    rewrite Hdb.
  - split; [exact Hu|]. split; [exact Hm|].
    destruct Hout as [->|(msg & ->)]; [exact Ho|apply Hentry].
  - rewrite Hout. split; [|split; [|apply Hentry]].
    + intros e kind' ref' Hlow Hk'. rewrite matching_rows_record.
      destruct (String.eqb mail e && String.eqb kind kind' && String.eqb ref ref')
        eqn:Hsame; [|specialize (Hu e kind' ref' Hlow Hk'); lia].
      apply andb_prop in Hsame as [Hsame Hr]. apply andb_prop in Hsame as [Hmail Hkind].
      apply String.eqb_eq in Hmail, Hkind, Hr. subst e kind' ref'.
      rewrite Hlow in Hnone. rewrite Hnone. simpl. lia.
    + intros e kind' ref'. rewrite matching_rows_record.
      specialize (Hm e kind' ref'). lia.
Qed.

Lemma rerun_deliver_action db0 v w mail ref ref_type conn vs text c :
  rerun_invariant db0 c ->
  rerun_invariant db0
    (deliver v w "action_reminder" mail ref ref_type conn vs text c).
Proof.
  intros (Hu & Hm & Ho).
  assert (Hentry : forall msg,
    Forall (fun s => session_kind (sent_kind s) ->
                     matching_rows db0 (JS.toLowerCase (sent_email s)) (sent_kind s)
                       (sent_reference s) = [])
      (c_outbox c ++ [ {| sent_email := mail; sent_kind := "action_reminder";
                          sent_reference := ref; sent_message := msg |} ])).
  { intros msg. apply Forall_app. split; [exact Ho|].
    constructor; [|constructor]. intros [H|H]; discriminate H. }
  destruct (deliver_cases v w "action_reminder" mail ref ref_type conn vs text c)
    as [(Hdb & Hout)|(ts & msg & Hdb & Hout)]; unfold rerun_invariant;
    rewrite Hdb.
  - split; [exact Hu|]. split; [exact Hm|].
    destruct Hout as [->|(msg & ->)]; [exact Ho|apply Hentry].
  - rewrite Hout. split; [|split; [|apply Hentry]].
    + intros e kind' ref' Hlow Hk'. rewrite matching_rows_record.
      specialize (Hu e kind' ref' Hlow Hk').
      destruct Hk' as [-> | ->]; rewrite andb_false_r; simpl; lia.
    + intros e kind' ref'. rewrite matching_rows_record.
      specialize (Hm e kind' ref'). lia.
Qed.

Lemma rerun_remind_action db0 v w c a :
  rerun_invariant db0 c -> rerun_invariant db0 (remind_action v w c a).
Proof.
  intros H. unfold remind_action.
  destruct (gate v w (email a)); [|exact H]. now apply rerun_deliver_action.
Qed.

Lemma rerun_checkin_goal db0 v w c s :
  rerun_invariant db0 c -> rerun_invariant db0 (checkin_goal v w c s).
Proof.
  intros H. unfold checkin_goal.
  destruct (s_company_email s) as [mail|]; [|exact H].
  destruct (negb (JS.truthy mail)); [exact H|].
  destruct (existing_nudge _ _ _ _) eqn:He; [exact H|].
  destruct (gate v w mail); [|exact H].
  apply rerun_deliver_session; [now left|exact He|exact H].
Qed.

Lemma rerun_prepare_session db0 v w c s :
  rerun_invariant db0 c -> rerun_invariant db0 (prepare_session v w c s).
Proof.
  intros H. unfold prepare_session.
  destruct (s_company_email s) as [mail|]; [|exact H].
  destruct (negb (JS.truthy mail)); [exact H|].
  destruct (existing_nudge _ _ _ _) eqn:He; [exact H|].
  destruct (gate v w mail); [|exact H].
  apply rerun_deliver_session; [now right|exact He|exact H].
Qed.

Lemma rerun_cycle (v : variant) (w : World) (db : Db) :
  unique_session_rows db -> rerun_invariant db (run_cycle v w db).
Proof.
  intros Hu. unfold run_cycle.
  apply fold_left_invariant; [intros; now apply rerun_prepare_session|].
  apply fold_left_invariant; [intros; now apply rerun_checkin_goal|].
  apply fold_left_invariant; [intros; now apply rerun_remind_action|].
  split; [exact Hu|]. split; [intros; simpl; lia|constructor].
Qed.

(** A candidate of a session kind whose key has exactly one row is passed
    over before the connection is even looked up. *)
Lemma nudged_session_skipped (v : variant) (w : World) (c : Cycle) (s : Session)
    (mail : string) (row : NudgeRow) :
  s_company_email s = Some mail ->
  (existing_nudge (c_db c) mail "goal_checkin" (s_id s) = Some row ->
   checkin_goal v w c s = c) /\
  (existing_nudge (c_db c) mail "session_prep" (s_id s) = Some row ->
   prepare_session v w c s = c).
Proof.
  intros Hm. split; intros He.
  - unfold checkin_goal. rewrite Hm, He. now destruct (negb (JS.truthy mail)).
  - unfold prepare_session. rewrite Hm, He. now destruct (negb (JS.truthy mail)).
Qed.

(** X21.  The action-reminder loop never reads the nudge table: what it
    sends for a candidate is the same whatever rows the table holds. *)
Lemma remind_action_ignores_history (v : variant) (w : World) (c : Cycle)
    (a : ActionItem) (rows : list NudgeRow) :
  c_outbox
    (remind_action v w
       {| c_db := with_slack_nudges (fun _ => rows) (c_db c);
          c_outbox := c_outbox c;
          c_results := c_results c |} a)
  = c_outbox (remind_action v w c a).
Proof.
  unfold remind_action, deliver, count_error.
  repeat case_match; reflexivity.
Qed.

(** For goal check-ins and session preps the rerun guarantee holds: after a
    cycle, a second cycle over the same data sends nothing of these kinds
    under a key that has a row. *)
Lemma session_nudges_not_repeated (v : variant) (w : World) (db : Db) (s : Sent) :
  unique_session_rows db ->
  let c1 := run_cycle v w db in
  let c2 := run_cycle v w (c_db c1) in
  In s (c_outbox c2) ->
  session_kind (sent_kind s) ->
  matching_rows (c_db c1) (JS.toLowerCase (sent_email s)) (sent_kind s)
    (sent_reference s) = [].
Proof.
  intros Hu c1 c2 Hin Hk.
  destruct (rerun_cycle v w db Hu) as (Hu1 & _ & _).
  destruct (rerun_cycle v w (c_db c1) Hu1) as (_ & _ & Ho).
  rewrite Forall_forall in Ho. apply Ho; [|exact Hk].
  now apply list_elem_of_In.
Qed.

End Rerun.

(** C3.  Two cycles in a row over the same data, starting from an empty
    nudge table: the first sends the action reminder and the goal check-in;
    the second passes over the goal check-in, sends the action reminder again
    and records a second row under the same dedupe key. *)
Theorem action_reminder_repeats_on_rerun (v : variant) :
  let w := Sample.world (Sample.connection true "smart") in
  let c1 := Scheduler.run_cycle v w Sample.fresh_store in
  let c2 := Scheduler.run_cycle v w (Scheduler.c_db c1) in
  map Scheduler.sent_key (Scheduler.c_outbox c1)
    = [ (Sample.ann, "action_reminder", "a1"); (Sample.ann, "goal_checkin", "4711") ] /\
  map Scheduler.sent_key (Scheduler.c_outbox c2)
    = [ (Sample.ann, "action_reminder", "a1") ] /\
  map Store.dedupe_key (Store.slack_nudges (Scheduler.c_db c2))
    = [ (Sample.ann, "action_reminder", "a1"); (Sample.ann, "goal_checkin", "4711");
        (Sample.ann, "action_reminder", "a1") ].
Proof.
  destruct v; vm_compute; repeat split.
Qed.

(** ** Template rendering *)

Section TemplateProperties.
Import Template.

Lemma render_from_cons (vs : vars) (c : ascii) (s : string) :
  render_from vs O (String c s) =
  match match_placeholder (String c s) with
  | Some (key, width) => value_of vs key +:+ render_from vs (Nat.pred width) s
  | None => String c (render_from vs O s)
  end.
Proof. reflexivity. Qed.

Lemma render_from_skip (vs : vars) (n : nat) (s : string) :
  render_from vs n s = render_from vs O (drop n s).
Proof.
  revert n. induction s as [|c s IH]; intros [|n]; try reflexivity.
  change (render_from vs (S n) (String c s)) with (render_from vs n s).
  now rewrite IH.
Qed.

Lemma match_placeholder_width (s key : string) (width : nat) :
  match_placeholder s = Some (key, width) -> (5 <= width)%nat.
Proof.
  unfold match_placeholder. repeat case_match; intros [= _ <-]; lia.
Qed.

(** Where the pattern matches, the whole match gives way to the value. *)
Lemma render_match (vs : vars) (s key : string) (width : nat) :
  match_placeholder s = Some (key, width) ->
  renderTemplate s vs = value_of vs key +:+ renderTemplate (drop width s) vs.
Proof.
  intros H. pose proof (match_placeholder_width s key width H) as Hw.
  unfold renderTemplate.
  destruct s as [|c s]; [discriminate|].
  rewrite render_from_cons, H. f_equal.
  rewrite render_from_skip. f_equal.
  destruct width as [|k]; [lia|reflexivity].
Qed.

(** Where it does not match, one character is copied. *)
Lemma render_no_match (vs : vars) (c : ascii) (s : string) :
  match_placeholder (String c s) = None ->
  renderTemplate (String c s) vs = String c (renderTemplate s vs).
Proof.
  intros H. unfold renderTemplate. now rewrite render_from_cons, H.
Qed.

Lemma span_word_identifier (key rest : string) :
  all_word key = true ->
  span_word (key +:+ "}}" +:+ rest) = (key, String.length key, "}}" +:+ rest).
Proof.
  induction key as [|c key IH]; simpl; [reflexivity|].
  intros H. apply andb_prop in H as [Hc Hk].
  now rewrite Hc, (IH Hk).
Qed.

Lemma string_app_assoc (a b c : string) : (a +:+ b) +:+ c = a +:+ b +:+ c.
Proof.
  induction a as [|x a IH]; [reflexivity|].
  change (String x ((a +:+ b) +:+ c) = String x (a +:+ b +:+ c)).
  f_equal. exact IH.
Qed.

Lemma string_length_app (a b : string) :
  String.length (a +:+ b) = (String.length a + String.length b)%nat.
Proof.
  induction a as [|x a IH]; [reflexivity|].
  change (S (String.length (a +:+ b)) = S (String.length a + String.length b)).
  now rewrite IH.
Qed.

Lemma drop_app (a b : string) : drop (String.length a) (a +:+ b) = b.
Proof. induction a as [|c a IH]; simpl; [now destruct b|exact IH]. Qed.

Lemma match_placeholder_identifier (key rest : string) :
  all_word key = true -> JS.truthy key = true ->
  match_placeholder (placeholder key +:+ rest)
    = Some (key, (String.length key + 4)%nat).
Proof.
  intros Hw Ht. unfold placeholder.
  rewrite !string_app_assoc.
  change ("{{" +:+ key +:+ "}}" +:+ rest)
    with (String "{" (String "{" (key +:+ "}}" +:+ rest))).
  unfold match_placeholder. rewrite (span_word_identifier key rest Hw).
  destruct key; [discriminate|]. reflexivity.
Qed.

(** In the shared copy a placeholder gives way to what [variables[key]]
    finds: the value of an own entry, nothing for a null or undefined one,
    and for a key that is not listed the inherited member if there is one,
    nothing otherwise. *)
Lemma shared_placeholder_rendered (vs : vars) (key rest : string) :
  all_word key = true -> JS.truthy key = true ->
  renderBlocks Shared (placeholder key +:+ rest) vs
    = value_of vs key +:+ renderBlocks Shared rest vs.
Proof.
  intros Hw Ht. simpl.
  rewrite (render_match vs _ key _ (match_placeholder_identifier key rest Hw Ht)).
  f_equal. f_equal.
  replace (String.length key + 4)%nat with (String.length (placeholder key)).
  - apply drop_app.
  - unfold placeholder. rewrite !string_length_app. simpl. lia.
Qed.

Lemma value_of_unresolved (vs : vars) (key : string) :
  (lookup key vs = None /\ inherited key = None) \/ lookup key vs = Some None ->
  value_of vs key = EmptyString.
Proof. unfold value_of. now intros [[-> ->] | ->]. Qed.

(** A key that is no own entry but a member of [Object.prototype] renders
    as that member's text. *)
Lemma value_of_inherited (vs : vars) (key text : string) :
  lookup key vs = None -> inherited key = Some text -> value_of vs key = text.
Proof. unfold value_of. now intros -> ->. Qed.

(** C7.  The self-contained [renderBlocks] replaces only the placeholders
    of the variables it is given: in a goal check-in template that mentions
    the portal address, which is not among the variables of that nudge kind,
    the placeholder text stays in the message, where the shared copy renders
    it as the empty string. *)
Theorem unlisted_placeholder_survives :
  let template := "Hi {{first_name}}, open {{portal_url}} for {{goals}}" in
  let variables := [ ("first_name", Some "Ann");
                     ("coach_name", Some "your coach");
                     ("goals", None);
                     ("session_id", Some "4711") ] in
  lookup "portal_url" variables = None /\
  renderBlocks SelfContained template variables
    = "Hi Ann, open {{portal_url}} for " /\
  renderBlocks Shared template variables = "Hi Ann, open  for ".
Proof. repeat split. Qed.

End TemplateProperties.

(** ** The survey progression resolver *)

(** *** Sorting *)

Section SortProperties.
Import Survey.

Context {A : Type} (before : A -> A -> bool).
Hypothesis before_total : forall a b, before a b = true \/ before b a = true.
Hypothesis before_trans :
  forall a b c, before a b = true -> before b c = true -> before a c = true.

Lemma insert_sorted_In (x y : A) (l : list A) :
  In y (insert_sorted before x l) <-> y = x \/ In y l.
Proof.
  induction l as [|z l IH]; simpl.
  - intuition.
  - destruct (before x z); simpl; [intuition|].
    rewrite IH. intuition.
Qed.

Lemma sort_by_In (y : A) (l : list A) : In y (sort_by before l) <-> In y l.
Proof.
  induction l as [|x l IH]; simpl; [reflexivity|].
  unfold sort_by in *. simpl. rewrite insert_sorted_In, IH. intuition.
Qed.

Lemma insert_sorted_sorted (x : A) (l : list A) :
  StronglySorted (fun a b => before a b = true) l ->
  StronglySorted (fun a b => before a b = true) (insert_sorted before x l).
Proof.
  induction l as [|z l IH]; simpl; intros Hs.
  - constructor; constructor.
  - inversion Hs as [|? ? Hl Hz]; subst.
    destruct (before x z) eqn:Hxz.
    + constructor; [exact Hs|]. constructor; [exact Hxz|].
      rewrite Forall_forall in *. intros y Hy.
      apply before_trans with z; [exact Hxz|]. now apply Hz.
    + constructor; [now apply IH|].
      rewrite Forall_forall in *. intros y Hy.
      apply list_elem_of_In, insert_sorted_In in Hy as [->|Hy].
      * destruct (before_total x z) as [H|H]; congruence.
      * apply Hz. now apply list_elem_of_In.
Qed.

Lemma sort_by_sorted (l : list A) :
  StronglySorted (fun a b => before a b = true) (sort_by before l).
Proof.
  induction l as [|x l IH]; [constructor|].
  unfold sort_by in *. simpl. now apply insert_sorted_sorted.
Qed.

(** The first element of a sorted list that passes a test comes before
    every element that passes it. *)
Lemma find_sorted_first (p : A -> bool) (l : list A) (x : A) :
  StronglySorted (fun a b => before a b = true) l ->
  List.find p l = Some x ->
  In x l /\ p x = true /\
  forall y, In y l -> p y = true -> before x y = true.
Proof.
  induction l as [|a l IH]; simpl; [discriminate|].
  intros Hs Hf. inversion Hs as [|? ? Hl Ha]; subst.
  rewrite Forall_forall in Ha.
  destruct (p a) eqn:Hpa.
  - injection Hf as <-. split; [now left|]. split; [exact Hpa|].
    intros y [<-|Hy] _.
    + destruct (before_total a a); assumption.
    + apply Ha. now apply list_elem_of_In.
  - destruct (IH Hl Hf) as (Hin & Hpx & Hmin).
    split; [now right|]. split; [exact Hpx|].
    intros y [<-|Hy] Hpy; [congruence|]. now apply Hmin.
Qed.

(** The head of a sorted list comes before every element. *)
Lemma sorted_head_first (l : list A) (x : A) (rest : list A) :
  sort_by before l = x :: rest ->
  forall y, In y l -> before x y = true.
Proof.
  intros Hl y Hy.
  pose proof (sort_by_sorted l) as Hs. rewrite Hl in Hs.
  apply sort_by_In in Hy. rewrite Hl in Hy.
  inversion Hs as [|? ? _ Hx]; subst. rewrite Forall_forall in Hx.
  destruct Hy as [<-|Hy].
  - destruct (before_total x x); assumption.
  - apply Hx. now apply list_elem_of_In.
Qed.

End SortProperties.

(** *** The fallback query of [fetchPendingSurvey] *)

Section SurveyProperties.
Import Survey.

Lemma ascending_total (a b : SessionRow) :
  (st_session_date a <=? st_session_date b) = true \/
  (st_session_date b <=? st_session_date a) = true.
Proof. rewrite !Z.leb_le. lia. Qed.

Lemma ascending_trans (a b c : SessionRow) :
  (st_session_date a <=? st_session_date b) = true ->
  (st_session_date b <=? st_session_date c) = true ->
  (st_session_date a <=? st_session_date c) = true.
Proof. rewrite !Z.leb_le. lia. Qed.

(** Without the procedure, the resolver returns the obligation for the
    oldest completed milestone session that has no submission. *)
Lemma fallback_oldest_unsurveyed (db : Db) (email : string)
    (programType : option string) (p : PendingSurvey) :
  fallback db email programType = Some p ->
  exists st,
    In st (session_tracking db) /\
    candidate email st = true /\
    has_submission db email st = false /\
    p = obligation db email programType st /\
    forall st', In st' (session_tracking db) ->
                candidate email st' = true ->
                has_submission db email st' = false ->
                st_session_date st <= st_session_date st'.
Proof.
  unfold fallback, milestone_sessions. intros H.
  destruct (List.find _ _) as [st|] eqn:Hf; [|discriminate].
  injection H as <-. exists st.
  apply (find_sorted_first _ ascending_total) in Hf as (Hin & Hp & Hmin);
    [|apply sort_by_sorted; [apply ascending_total|apply ascending_trans]].
  apply sort_by_In, filter_In in Hin as [Hin Hc].
  apply negb_true_iff in Hp.
  repeat split; try assumption.
  intros st' Hin' Hc' Hs'. apply Z.leb_le. apply Hmin.
  - apply sort_by_In, filter_In. auto.
  - now rewrite Hs'.
Qed.

(** X24.  The client-side query returns an obligation whenever a completed
    milestone session of the address has no submission. *)
Lemma fallback_finds (db : Db) (email : string) (programType : option string)
    (st : SessionRow) :
  In st (session_tracking db) ->
  candidate email st = true ->
  has_submission db email st = false ->
  is_Some (fallback db email programType).
Proof.
  intros Hin Hc Hs. unfold fallback, milestone_sessions.
  destruct (List.find _ _) as [x|] eqn:Hf; [now eexists|].
  exfalso. assert (Hn : negb (has_submission db email st) = false).
  { apply (find_none _ _ Hf st). apply sort_by_In, filter_In. auto. }
  rewrite Hs in Hn. discriminate.
Qed.

(** Its survey kind follows the program of the session and the baseline
    on file. *)
Lemma fallback_kind (db : Db) (email : string) (programType : option string)
    (p : PendingSurvey) :
  fallback db email programType = Some p ->
  exists st,
    In st (session_tracking db) /\ session_id p = st_id st /\
    survey_type p =
    Some (if isGrow st programType
          then if hasCompletedBaselineSurvey db email
               then "scale_feedback" else "grow_baseline"
          else "scale_feedback").
Proof.
  intros H. apply fallback_oldest_unsurveyed in H as (st & Hin & _ & _ & -> & _).
  exists st. split; [exact Hin|]. split; [reflexivity|].
  unfold obligation, surveyType. simpl. now repeat case_match.
Qed.

(** *** The [get_pending_survey] procedure *)

Lemma descending_total (a b : PendingRow) :
  (ps_session_date b <=? ps_session_date a) = true \/
  (ps_session_date a <=? ps_session_date b) = true.
Proof. rewrite !Z.leb_le. lia. Qed.

Lemma descending_trans (a b c : PendingRow) :
  (ps_session_date b <=? ps_session_date a) = true ->
  (ps_session_date c <=? ps_session_date b) = true ->
  (ps_session_date c <=? ps_session_date a) = true.
Proof. rewrite !Z.leb_le. lia. Qed.

(** Every row of the view suggests [scale_feedback]. *)
Lemma pending_surveys_kind (db : Db) (ps : PendingRow) :
  In ps (pending_surveys db) ->
  ps_suggested_survey_type ps = Some "scale_feedback".
Proof.
  unfold pending_surveys. intros H.
  apply sort_by_In, in_flat_map in H as (st & _ & H).
  destruct (String.eqb (st_status st) "Completed"); [|contradiction].
  destruct (is_milestone (st_appointment_number st)) eqn:Hm; [|contradiction].
  destruct (has_submission_sql db st); [contradiction|]. simpl in H.
  apply in_map_iff in H as (em & <- & _). reflexivity.
Qed.

(** The procedure returns at most one row, with the view's kind, and no
    pending row of the address is more recent. *)
Lemma procedure_most_recent (db : Db) (email : string) (p : PendingSurvey)
    (rest : list PendingSurvey) :
  get_pending_survey db email = p :: rest ->
  rest = [] /\
  survey_type p = Some "scale_feedback" /\
  forall ps, In ps (pending_surveys db) ->
             JS.toLowerCase (ps_email ps) = JS.toLowerCase email ->
             ps_session_date ps <= session_date p.
Proof.
  unfold get_pending_survey.
  destruct (sort_by _ _) as [|x sorted] eqn:Hs; [discriminate|].
  simpl. rewrite take_0. intros [= <- <-].
  split; [reflexivity|]. simpl.
  assert (Hx : In x (pending_surveys db)).
  { assert (Hin : In x (x :: sorted)) by now left.
    rewrite <- Hs in Hin. now apply sort_by_In, filter_In in Hin as [? _]. }
  split; [exact (pending_surveys_kind db x Hx)|].
  intros ps Hps He. apply Z.leb_le.
  apply (sorted_head_first _ descending_total descending_trans _ _ _ Hs).
  apply filter_In. split; [exact Hps|]. now apply String.eqb_eq.
Qed.

(** With the procedure deployed and a row pending, [fetchPendingSurvey]
    returns that row and never reaches its own query. *)
Lemma fetch_returns_procedure_row (db : Db) (email : string)
    (programType : option string) (p : PendingSurvey) (rest : list PendingSurvey) :
  rpc_deployed db = true ->
  get_pending_survey db email = p :: rest ->
  fetchPendingSurvey db email programType = Some p.
Proof. intros Hd Hp. unfold fetchPendingSurvey. now rewrite Hd, Hp. Qed.

(** Without the procedure it is the fallback. *)
Lemma fetch_without_procedure (db : Db) (email : string)
    (programType : option string) :
  rpc_deployed db = false ->
  fetchPendingSurvey db email programType = fallback db email programType.
Proof. intros Hd. unfold fetchPendingSurvey. now rewrite Hd. Qed.

End SurveyProperties.

(** *** What [fetchPendingSurvey] returns with the procedure deployed *)

(** C1.  Sessions 1, 3 and 6 completed in that order, only session 1
    surveyed: with [get_pending_survey] deployed the resolver returns the
    obligation for session 6, the most recent one; the query it falls back on
    when the procedure is missing returns the obligation for session 3. *)
Theorem most_recent_obligation_returned :
  Survey.session_number
    <$> Survey.fetchPendingSurvey (Sample.surveys true) Sample.ann None = Some 6 /\
  Survey.session_number
    <$> Survey.fetchPendingSurvey (Sample.surveys false) Sample.ann None = Some 3.
Proof. split; reflexivity. Qed.

(** C6.  The same employee, on a GROW program and without a baseline
    submission: with [get_pending_survey] deployed the resolved kind is
    [scale_feedback]; the query it falls back on when the procedure is missing
    resolves [grow_baseline]. *)
Theorem grow_baseline_not_resolved_by_procedure :
  Survey.isGrow (Sample.session "s6" 6 20460) None = true /\
  Survey.hasCompletedBaselineSurvey (Sample.surveys true) Sample.ann = false /\
  Survey.survey_type
    <$> Survey.fetchPendingSurvey (Sample.surveys true) Sample.ann (Some "GROW")
    = Some (Some "scale_feedback") /\
  Survey.survey_type
    <$> Survey.fetchPendingSurvey (Sample.surveys false) Sample.ann (Some "GROW")
    = Some (Some "grow_baseline").
Proof. repeat split. Qed.

(** * Further properties *)

(** ** The slack-interactions handler, whatever the request *)

(** X1.  The handler neither adds nor removes an action item, and the only
    row it can change is the one an [action_done] click names, which it leaves
    with status [completed]. *)
Theorem handler_writes_one_row_at_most (hmac : string -> string -> string)
    (v : variant) (env : Interactions.Env) (req : Interactions.Request)
    (db : Store.Db) :
  let db' := Interactions.o_db (Interactions.handle hmac v env req db) in
  dom (Store.action_items db') = dom (Store.action_items db) /\
  forall k,
    Store.action_items db' !! k = Store.action_items db !! k \/
    (Interactions.click_target req = Some k /\
     Store.ai_status <$> (Store.action_items db' !! k) = Some "completed").
Proof.
  intros db'. split; [apply handle_keeps_rows|].
  intros k. subst db'.
  destruct (handle_action_items hmac v env req db) as [->|(id & Hid & ->)];
    [now left|].
  rewrite lookup_alter. case_decide; [subst id|now left].
  destruct (Store.action_items db !! k) as [row|]; [right|now left].
  split; [exact Hid|reflexivity].
Qed.

(** X2.  No request of any kind, valid or not, takes a completed action
    item back to another status. *)
Theorem completed_item_never_reopened (hmac : string -> string -> string)
    (v : variant) (env : Interactions.Env) (req : Interactions.Request)
    (db : Store.Db) (id : string) :
  Store.ai_status <$> (Store.action_items db !! id) = Some "completed" ->
  Store.ai_status
    <$> (Store.action_items (Interactions.o_db (Interactions.handle hmac v env req db))
         !! id)
  = Some "completed".
Proof. apply handle_keeps_completed. Qed.

Lemma completed_item_never_reopened_witness :
  Store.ai_status
    <$> (Store.action_items
           (Interactions.o_db
              (Interactions.handle Sample.toy_hmac SelfContained Sample.on_time
                 Fixture.forged_click Fixture.completed_store))
         !! "a1")
  = Some "completed".
Proof.
  apply (completed_item_never_reopened Sample.toy_hmac SelfContained Sample.on_time
           Fixture.forged_click Fixture.completed_store "a1").
  reflexivity.
Defined.

(** X3.  With a signing secret configured, a POST whose signature header is
    not the computed one is answered 401 by both copies, nothing is written
    and no Slack message is updated. *)
Theorem wrong_signature_answered_401 (hmac : string -> string -> string)
    (v : variant) (env : Interactions.Env) (req : Interactions.Request)
    (db : Store.Db) (secret : string) :
  Interactions.r_method req = "POST" ->
  Interactions.e_signing_secret env = Some secret ->
  JS.truthy secret = true ->
  String.eqb (Interactions.header (Interactions.r_signature req))
    (Interactions.computedSignature hmac secret
       (Interactions.header (Interactions.r_timestamp req))
       (Interactions.r_body req)) = false ->
  Interactions.handle hmac v env req db = Interactions.reply 401 db.
Proof.
  intros Hm Hs Ht Hsig.
  apply refused_request_changes_nothing; [exact Hm|].
  apply (forged_signature_refused hmac v env req secret Hs Ht).
  now apply String.eqb_neq.
Qed.

Lemma wrong_signature_answered_401_witness :
  Interactions.handle Sample.toy_hmac Shared Sample.on_time Fixture.forged_click
    Sample.store
  = Interactions.reply 401 Sample.store.
Proof.
  apply (wrong_signature_answered_401 Sample.toy_hmac Shared Sample.on_time
           Fixture.forged_click Sample.store Sample.secret); reflexivity.
Defined.

(** X4.  Without a signing secret in the environment, the self-contained
    copy lets every request past the signature step, whatever its signature
    and timestamp; the shared copy answers such a POST 200 and writes
    nothing. *)
Theorem unset_secret_skips_verification (hmac : string -> string -> string)
    (env : Interactions.Env) (req : Interactions.Request) (db : Store.Db) :
  JS.truthy (Interactions.header (Interactions.e_signing_secret env)) = false ->
  Interactions.authentic hmac SelfContained env req = Some true /\
  (Interactions.r_method req = "POST" ->
   Interactions.handle hmac Shared env req db = Interactions.reply 200 db).
Proof.
  intros Hs. split.
  - unfold Interactions.authentic. now rewrite Hs.
  - intros Hm. unfold Interactions.handle, Interactions.authentic. rewrite Hm.
    destruct (Interactions.e_signing_secret env) as [secret|]; [|reflexivity].
    simpl in Hs. now rewrite Hs.
Qed.

Lemma unset_secret_skips_verification_witness :
  Interactions.authentic Sample.toy_hmac SelfContained Fixture.no_secret
    Fixture.forged_click = Some true.
Proof.
  apply (unset_secret_skips_verification Sample.toy_hmac Fixture.no_secret
           Fixture.forged_click Sample.store).
  reflexivity.
Defined.

(** X5.  Every reply other than 200 is one of 400, 401 and 405, and comes
    with the tables untouched and no Slack message updated; 405 is the reply
    to every method other than POST. *)
Theorem non_success_reply_writes_nothing (hmac : string -> string -> string)
    (v : variant) (env : Interactions.Env) (req : Interactions.Request)
    (db : Store.Db) :
  let out := Interactions.handle hmac v env req db in
  (Interactions.o_status out = 200 \/
   ((Interactions.o_status out = 400 \/ Interactions.o_status out = 401 \/
     Interactions.o_status out = 405) /\
    Interactions.o_db out = db /\ Interactions.o_updates out = [])) /\
  (Interactions.o_status out = 405 <-> Interactions.r_method req <> "POST").
Proof.
  intros out. subst out. split.
  - unfold Interactions.handle, Interactions.dispatch_shared,
      Interactions.dispatch_self_contained, Interactions.update_message,
      Interactions.reply.
    repeat case_match; simpl; auto 10.
  - unfold Interactions.handle.
    destruct (String.eqb (Interactions.r_method req) "POST") eqn:Hm; simpl.
    + apply String.eqb_eq in Hm. split; [|congruence].
      unfold Interactions.dispatch_shared, Interactions.dispatch_self_contained,
        Interactions.update_message, Interactions.reply.
      repeat case_match; simpl; discriminate.
    + apply String.eqb_neq in Hm. split; [auto|reflexivity].
Qed.

(** X6.  The self-contained [verifySlackSignature] accepts exactly when the
    signature is the computed one and the timestamp, if it parses as a number
    at all, lies within 300 seconds of the clock on either side; a timestamp
    that does not parse is not held against the request. *)
Theorem self_contained_verdict (hmac : string -> string -> string) (now : Z)
    (secret signature timestamp body : string) :
  Interactions.verifySlackSignature hmac SelfContained now secret signature
    timestamp body = true <->
  Interactions.computedSignature hmac secret timestamp body = signature /\
  (forall t, JS.parseInt timestamp = Some t -> Z.abs (now / 1000 - t) <= 300).
Proof.
  unfold Interactions.verifySlackSignature, JS.abs_diff_gt.
  destruct (JS.parseInt timestamp) as [t|].
  - destruct (300 <? Z.abs (now / 1000 - t)) eqn:Hlt.
    + apply Z.ltb_lt in Hlt. split; [discriminate|].
      intros [_ H]. specialize (H t eq_refl). lia.
    + apply Z.ltb_ge in Hlt. rewrite String.eqb_eq. split.
      * intros ->. split; [reflexivity|]. now intros ? [= <-].
      * now intros [-> _].
  - rewrite String.eqb_eq. split; [intros ->; split; [reflexivity|discriminate]|].
    now intros [-> _].
Qed.

(** ** The nudge scheduler: lookups, templates and volume *)

Lemma deliver_outbox_ignores_rows v w kind mail ref ref_type conn vs text c rows :
  Scheduler.c_outbox
    (Scheduler.deliver v w kind mail ref ref_type conn vs text
       {| Scheduler.c_db := Store.with_slack_nudges (fun _ => rows) (Scheduler.c_db c);
          Scheduler.c_outbox := Scheduler.c_outbox c;
          Scheduler.c_results := Scheduler.c_results c |})
  = Scheduler.c_outbox (Scheduler.deliver v w kind mail ref ref_type conn vs text c).
Proof.
  unfold Scheduler.deliver, Scheduler.count_error.
  repeat case_match; reflexivity.
Qed.

Lemma doubled_rows_not_seen (db : Store.Db) (mail kind ref : string) :
  (2 <= length (Scheduler.matching_rows db (JS.toLowerCase mail) kind ref))%nat ->
  Scheduler.existing_nudge db mail kind ref = None.
Proof.
  unfold Scheduler.existing_nudge.
  destruct (Scheduler.matching_rows db (JS.toLowerCase mail) kind ref)
    as [|r [|r' l]]; simpl; [lia|lia|reflexivity].
Qed.

(** X7.  The lookup of an earlier nudge asks for a single row: once the
    table holds two or more rows under the key of a goal check-in or of a
    session prep, the lookup reports none, and the candidate is sent to as if
    the table were empty. *)
Theorem doubled_row_defeats_lookup (v : variant) (w : Scheduler.World)
    (c : Scheduler.Cycle) (s : Scheduler.Session) (mail : string) :
  Scheduler.s_company_email s = Some mail ->
  let forgotten :=
    {| Scheduler.c_db := Store.with_slack_nudges (fun _ => []) (Scheduler.c_db c);
       Scheduler.c_outbox := Scheduler.c_outbox c;
       Scheduler.c_results := Scheduler.c_results c |} in
  ((2 <= length (Scheduler.matching_rows (Scheduler.c_db c) (JS.toLowerCase mail)
                   "goal_checkin" (Scheduler.s_id s)))%nat ->
   Scheduler.c_outbox (Scheduler.checkin_goal v w c s)
   = Scheduler.c_outbox (Scheduler.checkin_goal v w forgotten s)) /\
  ((2 <= length (Scheduler.matching_rows (Scheduler.c_db c) (JS.toLowerCase mail)
                   "session_prep" (Scheduler.s_id s)))%nat ->
   Scheduler.c_outbox (Scheduler.prepare_session v w c s)
   = Scheduler.c_outbox (Scheduler.prepare_session v w forgotten s)).
Proof.
  intros Hm forgotten. split; intros Hrows.
  - unfold Scheduler.checkin_goal. rewrite Hm.
    destruct (negb (JS.truthy mail)); [reflexivity|].
    rewrite (doubled_rows_not_seen _ _ _ _ Hrows).
    change (Scheduler.existing_nudge (Scheduler.c_db forgotten) mail "goal_checkin"
              (Scheduler.s_id s)) with (@None Store.NudgeRow).
    destruct (Scheduler.gate v w mail); [|reflexivity].
    symmetry. apply deliver_outbox_ignores_rows.
  - unfold Scheduler.prepare_session. rewrite Hm.
    destruct (negb (JS.truthy mail)); [reflexivity|].
    rewrite (doubled_rows_not_seen _ _ _ _ Hrows).
    change (Scheduler.existing_nudge (Scheduler.c_db forgotten) mail "session_prep"
              (Scheduler.s_id s)) with (@None Store.NudgeRow).
    destruct (Scheduler.gate v w mail); [|reflexivity].
    symmetry. apply deliver_outbox_ignores_rows.
Qed.

Lemma doubled_row_defeats_lookup_witness :
  map Scheduler.sent_key
    (Scheduler.c_outbox
       (Scheduler.checkin_goal Shared (Sample.world (Sample.connection true "smart"))
          Fixture.doubled_cycle Sample.recent_session))
  = [ (Sample.ann, "goal_checkin", "4711") ].
Proof.
  rewrite (proj1 (doubled_row_defeats_lookup Shared
                    (Sample.world (Sample.connection true "smart"))
                    Fixture.doubled_cycle Sample.recent_session Sample.ann eq_refl)).
  - reflexivity.
  - vm_compute. lia.
Defined.

Lemma fold_left_outbox_bound {X : Type} (f : Scheduler.Cycle -> X -> Scheduler.Cycle)
    (l : list X) (c : Scheduler.Cycle) :
  (forall c x, (length (Scheduler.c_outbox (f c x))
                <= length (Scheduler.c_outbox c) + 1)%nat) ->
  (length (Scheduler.c_outbox (fold_left f l c))
   <= length (Scheduler.c_outbox c) + length l)%nat.
Proof.
  intros Hstep. revert c. induction l as [|x l IH]; simpl; intros c; [lia|].
  specialize (IH (f c x)). specialize (Hstep c x). lia.
Qed.

Lemma deliver_outbox_bound v w kind mail ref ref_type conn vs text c :
  (length (Scheduler.c_outbox (Scheduler.deliver v w kind mail ref ref_type conn vs text c))
   <= length (Scheduler.c_outbox c) + 1)%nat.
Proof.
  destruct (deliver_outbox v w kind mail ref ref_type conn vs text c)
    as [->|(msg & ->)]; [lia|].
  rewrite length_app. simpl. lia.
Qed.

(** X8.  A cycle calls [chat.postMessage] at most once for each candidate:
    the number of calls is bounded by the number of due action items, recent
    sessions and upcoming sessions it went through. *)
Theorem cycle_sends_at_most_once_per_candidate (v : variant) (w : Scheduler.World)
    (db : Store.Db) :
  (length (Scheduler.c_outbox (Scheduler.run_cycle v w db))
   <= length (Scheduler.get_due_action_items w db 2)
      + length (Scheduler.w_recent_sessions w)
      + length (Scheduler.w_upcoming_sessions w))%nat.
Proof.
  unfold Scheduler.run_cycle.
  set (c0 := {| Scheduler.c_db := db; Scheduler.c_outbox := [];
                Scheduler.c_results := Scheduler.no_results |}).
  set (c1 := fold_left (Scheduler.remind_action v w)
               (Scheduler.get_due_action_items w db 2) c0).
  set (c2 := fold_left (Scheduler.checkin_goal v w) (Scheduler.w_recent_sessions w) c1).
  assert (H1 : (length (Scheduler.c_outbox c1)
                <= 0 + length (Scheduler.get_due_action_items w db 2))%nat).
  { apply (fold_left_outbox_bound (Scheduler.remind_action v w) _ c0).
    intros c a. unfold Scheduler.remind_action.
    destruct (Scheduler.gate v w _); [apply deliver_outbox_bound|lia]. }
  assert (H2 : (length (Scheduler.c_outbox c2)
                <= length (Scheduler.c_outbox c1)
                   + length (Scheduler.w_recent_sessions w))%nat).
  { apply fold_left_outbox_bound.
    intros c s. unfold Scheduler.checkin_goal.
    repeat case_match; try lia; apply deliver_outbox_bound. }
  assert (H3 : (length (Scheduler.c_outbox
                          (fold_left (Scheduler.prepare_session v w)
                             (Scheduler.w_upcoming_sessions w) c2))
                <= length (Scheduler.c_outbox c2)
                   + length (Scheduler.w_upcoming_sessions w))%nat).
  { apply fold_left_outbox_bound.
    intros c s. unfold Scheduler.prepare_session.
    repeat case_match; try lia; apply deliver_outbox_bound. }
  lia.
Qed.

Lemma deliver_needs_template v w kind wanted mail ref ref_type conn vs text c :
  Scheduler.w_templates w !! wanted = None ->
  Forall (fun s => Scheduler.sent_kind s <> wanted) (Scheduler.c_outbox c) ->
  Forall (fun s => Scheduler.sent_kind s <> wanted)
    (Scheduler.c_outbox (Scheduler.deliver v w kind mail ref ref_type conn vs text c)).
Proof.
  intros Hnone Hc.
  destruct (decide (kind = wanted)) as [->|Hne].
  - unfold Scheduler.deliver. now rewrite Hnone.
  - destruct (deliver_outbox v w kind mail ref ref_type conn vs text c)
      as [->|(msg & ->)]; [exact Hc|].
    apply Forall_app. split; [exact Hc|]. constructor; [exact Hne|constructor].
Qed.

(** X9.  A nudge kind without a default template is silent: when the
    template map has no entry for a kind, no message of that kind is sent in
    the cycle, whoever the candidates are. *)
Theorem missing_template_silences_kind (v : variant) (w : Scheduler.World)
    (db : Store.Db) (kind : string) (s : Scheduler.Sent) :
  Scheduler.w_templates w !! kind = None ->
  In s (Scheduler.c_outbox (Scheduler.run_cycle v w db)) ->
  Scheduler.sent_kind s <> kind.
Proof.
  intros Hnone Hin.
  assert (H : Forall (fun s => Scheduler.sent_kind s <> kind)
                (Scheduler.c_outbox (Scheduler.run_cycle v w db))).
  { unfold Scheduler.run_cycle.
    apply fold_left_invariant.
    { intros c x Hc. unfold Scheduler.prepare_session.
      repeat case_match; try exact Hc; now apply deliver_needs_template. }
    apply fold_left_invariant.
    { intros c x Hc. unfold Scheduler.checkin_goal.
      repeat case_match; try exact Hc; now apply deliver_needs_template. }
    apply fold_left_invariant.
    { intros c x Hc. unfold Scheduler.remind_action.
      repeat case_match; try exact Hc; now apply deliver_needs_template. }
    constructor. }
  rewrite Forall_forall in H. apply H. now apply list_elem_of_In.
Qed.

Lemma missing_template_silences_kind_witness :
  map Scheduler.sent_key
    (Scheduler.c_outbox
       (Scheduler.run_cycle Shared Fixture.world_without_checkin_template
          Sample.fresh_store))
  = [ (Sample.ann, "action_reminder", "a1") ] /\
  "action_reminder" <> "goal_checkin".
Proof.
  split; [reflexivity|].
  set (msg := {| Scheduler.m_token := "xoxb-1";
                 Scheduler.m_channel := "D024BE91L";
                 Scheduler.m_blocks :=
                   "Hi Ann, Share the plan with the team is due *Tomorrow*";
                 Scheduler.m_text := "Reminder: Share the plan with the team" |}).
  apply (missing_template_silences_kind Shared Fixture.world_without_checkin_template
           Sample.fresh_store "goal_checkin"
           {| Scheduler.sent_email := Sample.ann;
              Scheduler.sent_kind := "action_reminder";
              Scheduler.sent_reference := "a1";
              Scheduler.sent_message := msg |}).
  - reflexivity.
  - vm_compute. left. reflexivity.
Defined.

(** ** Template rendering: what reaches the message *)

Section RenderingProperties.
Import Template.

Lemma contains_cons (sep c : ascii) (s : string) :
  JS.contains sep (String c s) = false ->
  Ascii.eqb c sep = false /\ JS.contains sep s = false.
Proof. simpl. intros H. now apply orb_false_elim in H. Qed.

Lemma contains_app (sep : ascii) (a b : string) :
  JS.contains sep (a +:+ b) = JS.contains sep a || JS.contains sep b.
Proof.
  induction a as [|c a IH]; [reflexivity|].
  change (JS.contains sep (String c (a +:+ b))
          = JS.contains sep (String c a) || JS.contains sep b).
  simpl. now rewrite IH, orb_assoc.
Qed.

Lemma append_nil_r (s : string) : s +:+ "" = s.
Proof.
  induction s as [|c s IH]; [reflexivity|].
  change (String c (s +:+ "") = String c s). now rewrite IH.
Qed.

Lemma match_placeholder_other (c : ascii) (s : string) :
  Ascii.eqb c "{" = false -> match_placeholder (String c s) = None.
Proof.
  destruct c as [[] [] [] [] [] [] [] []]; try reflexivity.
  intros H. discriminate H.
Qed.

Lemma shared_copies_plain_prefix (vs : vars) (pre rest : string) :
  JS.contains "{" pre = false ->
  renderTemplate (pre +:+ rest) vs = pre +:+ renderTemplate rest vs.
Proof.
  induction pre as [|c pre IH]; intros H; [reflexivity|].
  apply contains_cons in H as [Hc Hpre].
  change (renderTemplate (String c (pre +:+ rest)) vs
          = String c (pre +:+ renderTemplate rest vs)).
  rewrite render_no_match by now apply match_placeholder_other.
  now rewrite (IH Hpre).
Qed.

Lemma replace_from_cons (needle repl before : string) (c : ascii) (s : string) :
  replace_from needle repl before O (String c s) =
  if is_prefix needle (String c s)
  then expand repl needle before (drop (String.length needle) (String c s))
       +:+ replace_from needle repl (before +:+ String c EmptyString)
             (Nat.pred (String.length needle)) s
  else String c (replace_from needle repl (before +:+ String c EmptyString) O s).
Proof. reflexivity. Qed.

Lemma is_prefix_placeholder_other (key : string) (c : ascii) (s : string) :
  Ascii.eqb c "{" = false -> is_prefix (placeholder key) (String c s) = false.
Proof.
  intros H.
  change (Ascii.eqb "{" c && is_prefix (String "{" (key +:+ "}}")) s = false).
  now rewrite Ascii.eqb_sym, H.
Qed.

Lemma append_snoc (b : string) (c : ascii) (s : string) :
  (b +:+ String c EmptyString) +:+ s = b +:+ String c s.
Proof. now rewrite string_app_assoc. Qed.

Lemma replace_copies_plain_prefix (key repl before pre rest : string) :
  JS.contains "{" pre = false ->
  replace_from (placeholder key) repl before O (pre +:+ rest)
  = pre +:+ replace_from (placeholder key) repl (before +:+ pre) O rest.
Proof.
  revert before. induction pre as [|c pre IH]; intros before H.
  - now rewrite append_nil_r.
  - apply contains_cons in H as [Hc Hpre].
    change (String c pre +:+ rest) with (String c (pre +:+ rest)).
    rewrite replace_from_cons, (is_prefix_placeholder_other key c _ Hc).
    rewrite (IH _ Hpre), append_snoc. reflexivity.
Qed.

Lemma replace_from_skip (needle repl before a rest : string) :
  replace_from needle repl before (String.length a) (a +:+ rest)
  = replace_from needle repl (before +:+ a) O rest.
Proof.
  revert before. induction a as [|c a IH]; intros before.
  - rewrite append_nil_r. now destruct rest.
  - change (replace_from needle repl (before +:+ String c EmptyString)
              (String.length a) (a +:+ rest)
            = replace_from needle repl (before +:+ String c a) O rest).
    now rewrite IH, append_snoc.
Qed.

Lemma is_prefix_app (p rest : string) : is_prefix p (p +:+ rest) = true.
Proof.
  induction p as [|c p IH]; [reflexivity|].
  change (Ascii.eqb c c && is_prefix p (p +:+ rest) = true).
  now rewrite Ascii.eqb_refl, IH.
Qed.

(** At an occurrence of the pattern, the expansion of the replacement string
    takes its place. *)
Lemma replace_at_match (needle repl before post : string) :
  JS.truthy needle = true ->
  replace_from needle repl before O (needle +:+ post)
  = expand repl needle before post
    +:+ replace_from needle repl (before +:+ needle) O post.
Proof.
  intros Ht. destruct needle as [|c n]; [discriminate|].
  change (String c n +:+ post) with (String c (n +:+ post)).
  rewrite replace_from_cons.
  change (String c (n +:+ post)) with (String c n +:+ post) at 1 2.
  rewrite is_prefix_app, drop_app.
  change (Nat.pred (String.length (String c n))) with (String.length n).
  now rewrite replace_from_skip, append_snoc.
Qed.

Lemma expand_plain (repl matched before after : string) :
  JS.contains "$" repl = false -> expand repl matched before after = repl.
Proof.
  induction repl as [|c t IH]; intros H; [reflexivity|].
  apply contains_cons in H as [Hc Ht].
  simpl. rewrite Hc. now rewrite (IH Ht).
Qed.

Lemma replace_before_irrelevant (needle repl b b' : string) (n : nat) (s : string) :
  JS.contains "$" repl = false ->
  replace_from needle repl b n s = replace_from needle repl b' n s.
Proof.
  intros Hr. revert b b' n. induction s as [|c s IH]; intros b b' n; [reflexivity|].
  destruct n as [|n].
  - rewrite !replace_from_cons. rewrite !(expand_plain repl _ _ _ Hr).
    destruct (is_prefix needle (String c s)); f_equal; apply IH.
  - change (replace_from needle repl (b +:+ String c EmptyString) n s
            = replace_from needle repl (b' +:+ String c EmptyString) n s).
    apply IH.
Qed.

Lemma self_contained_last_placeholder (pre key repl : string) :
  JS.contains "{" pre = false ->
  renderBlocks SelfContained (pre +:+ placeholder key) [(key, Some repl)]
  = pre +:+ expand repl (placeholder key) pre EmptyString.
Proof.
  intros Hpre.
  change (replaceAll (placeholder key) repl (pre +:+ placeholder key)
          = pre +:+ expand repl (placeholder key) pre EmptyString).
  unfold replaceAll.
  rewrite (replace_copies_plain_prefix key repl _ pre _ Hpre). f_equal.
  rewrite <- (append_nil_r (placeholder key)) at 2.
  rewrite replace_at_match by reflexivity.
  change (EmptyString +:+ pre) with pre. simpl replace_from.
  now rewrite append_nil_r.
Qed.

(** *** Rendering around a placeholder, for any text before and after it *)

Lemma append_cons (c : ascii) (a b : string) :
  String c a +:+ b = String c (a +:+ b).
Proof. reflexivity. Qed.

Lemma span_word_length (r w rem : string) (n : nat) :
  span_word r = (w, n, rem) ->
  String.length r = (n + String.length rem)%nat.
Proof.
  revert w n rem. induction r as [|c r IH]; simpl; intros w n rem.
  - intros [= <- <- <-]. reflexivity.
  - destruct (JS.is_word c).
    + destruct (span_word r) as [[w' n'] rem'] eqn:Hs.
      intros [= <- <- <-]. now rewrite (IH _ _ _ eq_refl).
    + intros [= <- <- <-]. reflexivity.
Qed.

Lemma span_word_app (r t : string) (c : ascii) :
  JS.is_word c = false ->
  span_word (r +:+ String c t)
  = (let '(w, n, rem) := span_word r in (w, n, rem +:+ String c t)).
Proof.
  intros Hc. induction r as [|x r IH].
  - change (span_word (String c t) = (EmptyString, O, String c t)).
    simpl. now rewrite Hc.
  - rewrite append_cons. simpl. destruct (JS.is_word x); [|reflexivity].
    rewrite IH. now destruct (span_word r) as [[w n] rem].
Qed.

(** An attempt of the pattern inside a text is not changed by a placeholder
    that follows the text. *)
Lemma match_placeholder_app (s t : string) :
  JS.truthy s = true ->
  match_placeholder (s +:+ String "{" (String "{" t)) = match_placeholder s.
Proof.
  destruct s as [|c1 [|c2 r]]; [discriminate| |]; intros _.
  - destruct c1 as [[] [] [] [] [] [] [] []]; reflexivity.
  - rewrite !append_cons.
    destruct c1 as [[] [] [] [] [] [] [] []]; try reflexivity.
    destruct c2 as [[] [] [] [] [] [] [] []]; try reflexivity.
    unfold match_placeholder. rewrite span_word_app by reflexivity.
    destruct (span_word r) as [[w [|n]] rem]; [reflexivity|].
    destruct rem as [|d1 [|d2 rem]].
    + reflexivity.
    + destruct d1 as [[] [] [] [] [] [] [] []]; reflexivity.
    + rewrite !append_cons.
      destruct d1 as [[] [] [] [] [] [] [] []]; reflexivity.
Qed.

Lemma match_placeholder_fits (s key : string) (width : nat) :
  match_placeholder s = Some (key, width) -> (width <= String.length s)%nat.
Proof.
  destruct s as [|c1 [|c2 r]]; try discriminate.
  - destruct c1 as [[] [] [] [] [] [] [] []]; discriminate.
  - destruct c1 as [[] [] [] [] [] [] [] []]; try discriminate.
    destruct c2 as [[] [] [] [] [] [] [] []]; try discriminate.
    unfold match_placeholder.
    destruct (span_word r) as [[w [|n]] rem] eqn:Hs; [discriminate|].
    apply span_word_length in Hs.
    destruct rem as [|d1 [|d2 rem]]; try discriminate.
    + destruct d1 as [[] [] [] [] [] [] [] []]; discriminate.
    + destruct d1 as [[] [] [] [] [] [] [] []]; try discriminate.
      destruct d2 as [[] [] [] [] [] [] [] []]; try discriminate.
      intros [= _ <-]. simpl in *. lia.
Qed.

Lemma render_from_app (vs : vars) (s t : string) (skip : nat) :
  render_from vs skip (s +:+ String "{" (String "{" t))
  = render_from vs skip s
    +:+ render_from vs (skip - String.length s) (String "{" (String "{" t)).
Proof.
  revert skip. induction s as [|c s IH]; intros skip.
  - change (EmptyString +:+ String "{" (String "{" t)) with (String "{" (String "{" t)).
    now rewrite Nat.sub_0_r.
  - rewrite append_cons. destruct skip as [|k].
    + rewrite !render_from_cons, <- append_cons.
      rewrite (match_placeholder_app (String c s) t eq_refl).
      destruct (match_placeholder (String c s)) as [[key width]|] eqn:Hm.
      * rewrite IH, string_app_assoc. do 2 f_equal.
        apply match_placeholder_fits in Hm. simpl in Hm.
        now replace (Nat.pred width - String.length s)%nat with O by lia.
      * rewrite IH. reflexivity.
    + change (render_from vs (S k) (String c (s +:+ String "{" (String "{" t))))
        with (render_from vs k (s +:+ String "{" (String "{" t))).
      now rewrite IH.
Qed.

(** X10.  The shared [renderBlocks] is compositional around a placeholder,
    whatever text comes before and after it: the text before is rendered on
    its own, the placeholder gives way to what [variables[key]] finds,
    character for character and without being scanned again, and the text
    after is rendered on its own. *)
Theorem shared_inserts_value_verbatim (vs : vars) (pre key post : string) :
  all_word key = true -> JS.truthy key = true ->
  renderBlocks Shared (pre +:+ placeholder key +:+ post) vs
  = renderBlocks Shared pre vs +:+ value_of vs key +:+ renderBlocks Shared post vs.
Proof.
  intros Hw Ht.
  rewrite <- (shared_placeholder_rendered vs key post Hw Ht).
  simpl. unfold renderTemplate, placeholder.
  rewrite !string_app_assoc.
  change ("{{" +:+ key +:+ "}}" +:+ post)
    with (String "{" (String "{" (key +:+ "}}" +:+ post))).
  now rewrite render_from_app, Nat.sub_0_l.
Qed.

Lemma shared_inserts_value_verbatim_witness :
  renderBlocks Shared
    (Fixture.blocks_before +:+ placeholder "due_date" +:+ Fixture.blocks_after)
    [("first_name", Some "Ann"); ("due_date", Some "$& {{first_name}}")]
  = Fixture.blocks_before +:+ "$& {{first_name}}" +:+ ", Ann" +:+ Fixture.blocks_end.
Proof.
  rewrite (shared_inserts_value_verbatim
             [("first_name", Some "Ann"); ("due_date", Some "$& {{first_name}}")]
             Fixture.blocks_before "due_date" Fixture.blocks_after);
    reflexivity.
Defined.

Lemma word_not_brace (c : ascii) : JS.is_word c = true -> Ascii.eqb c "{" = false.
Proof.
  intros H. destruct (Ascii.eqb c "{") eqn:He; [|reflexivity].
  apply Ascii.eqb_eq in He. subst c. discriminate H.
Qed.

Lemma all_word_no_brace (key : string) :
  all_word key = true -> JS.contains "{" key = false.
Proof.
  induction key as [|c key IH]; [reflexivity|].
  simpl. intros H. apply andb_prop in H as [Hc Hk].
  now rewrite (word_not_brace c Hc), (IH Hk).
Qed.

Lemma is_prefix_brace_free (q s t : string) :
  JS.contains "{" q = false ->
  is_prefix q (s +:+ String "{" t) = is_prefix q s.
Proof.
  revert s. induction q as [|a q IH]; intros s H; [reflexivity|].
  apply contains_cons in H as [Ha Hq].
  destruct s as [|x s].
  - change (EmptyString +:+ String "{" t) with (String "{" t). simpl.
    now rewrite Ha.
  - rewrite append_cons. simpl. now rewrite (IH s Hq).
Qed.

(** An occurrence of a placeholder cannot begin inside the text before
    another occurrence and end inside that occurrence. *)
Lemma is_prefix_boundary (key s t : string) :
  all_word key = true -> JS.truthy key = true -> JS.truthy s = true ->
  is_prefix (placeholder key) (s +:+ String "{" (String "{" t))
  = is_prefix (placeholder key) s.
Proof.
  intros Hw Ht Hs.
  change (placeholder key) with (String "{" (String "{" (key +:+ "}}"))).
  assert (Hq : JS.contains "{" (key +:+ "}}") = false).
  { now rewrite contains_app, (all_word_no_brace key Hw). }
  destruct s as [|c1 [|c2 s]]; [discriminate| |].
  - destruct key as [|k0 key]; [discriminate|].
    simpl in Hw. apply andb_prop in Hw as [Hk _].
    change (Ascii.eqb "{" c1
            && (Ascii.eqb "{" "{"
                && (Ascii.eqb k0 "{" && is_prefix (key +:+ "}}") t))
            = Ascii.eqb "{" c1 && false).
    now rewrite (word_not_brace k0 Hk), !andb_false_r.
  - rewrite !append_cons. simpl. now rewrite is_prefix_brace_free.
Qed.

Lemma is_prefix_fits (p s : string) :
  is_prefix p s = true -> (String.length p <= String.length s)%nat.
Proof.
  revert s. induction p as [|a p IH]; intros s; simpl; [lia|].
  destruct s as [|x s]; [discriminate|].
  intros H. apply andb_prop in H as [_ H]. specialize (IH s H). simpl. lia.
Qed.

Lemma replace_from_app (key repl t : string) :
  all_word key = true -> JS.truthy key = true ->
  (forall b a a', expand repl (placeholder key) b a
                  = expand repl (placeholder key) b a') ->
  forall s b skip,
    replace_from (placeholder key) repl b skip (s +:+ String "{" (String "{" t))
    = replace_from (placeholder key) repl b skip s
      +:+ replace_from (placeholder key) repl (b +:+ s)
            (skip - String.length s) (String "{" (String "{" t)).
Proof.
  intros Hw Ht Hafter. induction s as [|c s IH]; intros b skip.
  - change (EmptyString +:+ String "{" (String "{" t)) with (String "{" (String "{" t)).
    now rewrite Nat.sub_0_r, append_nil_r.
  - rewrite append_cons. destruct skip as [|k].
    + change (0 - String.length (String c s))%nat with O.
      remember (replace_from (placeholder key) repl (b +:+ String c s) O
                  (String "{" (String "{" t))) as T eqn:HT.
      rewrite (replace_from_cons _ _ b c (s +:+ String "{" (String "{" t))).
      rewrite (replace_from_cons _ _ b c s).
      pose proof (is_prefix_boundary key (String c s) t Hw Ht eq_refl) as Hb.
      rewrite append_cons in Hb. rewrite Hb.
      destruct (is_prefix (placeholder key) (String c s)) eqn:Hp.
      * apply is_prefix_fits in Hp.
        change (String.length (String c s)) with (S (String.length s)) in Hp.
        rewrite IH.
        replace (Nat.pred (String.length (placeholder key)) - String.length s)%nat
          with O by lia.
        rewrite append_snoc, <- HT.
        rewrite (Hafter b _ (drop (String.length (placeholder key)) (String c s))).
        now rewrite string_app_assoc.
      * rewrite IH. change (0 - String.length s)%nat with O.
        now rewrite append_snoc, <- HT.
    + change (replace_from (placeholder key) repl b (S k)
                (String c (s +:+ String "{" (String "{" t))))
        with (replace_from (placeholder key) repl (b +:+ String c EmptyString) k
                (s +:+ String "{" (String "{" t))).
      rewrite IH, append_snoc. reflexivity.
Qed.

(** The global replace of one placeholder, around an occurrence of it. *)
Lemma replace_around (key repl pre post : string) :
  all_word key = true -> JS.truthy key = true ->
  (forall b a a', expand repl (placeholder key) b a
                  = expand repl (placeholder key) b a') ->
  replaceAll (placeholder key) repl (pre +:+ placeholder key +:+ post)
  = replaceAll (placeholder key) repl pre
    +:+ expand repl (placeholder key) pre post
    +:+ replace_from (placeholder key) repl (pre +:+ placeholder key) O post.
Proof.
  intros Hw Ht Hafter. unfold replaceAll.
  assert (Hshape : placeholder key +:+ post
                   = String "{" (String "{" (key +:+ "}}" +:+ post))).
  { unfold placeholder. now rewrite !string_app_assoc. }
  rewrite Hshape, (replace_from_app key repl _ Hw Ht Hafter), <- Hshape.
  rewrite Nat.sub_0_l. f_equal.
  change (EmptyString +:+ pre) with pre.
  now rewrite replace_at_match.
Qed.

Lemma replace_before_free (needle repl b b' : string) (n : nat) (s : string) :
  (forall x y a, expand repl needle x a = expand repl needle y a) ->
  replace_from needle repl b n s = replace_from needle repl b' n s.
Proof.
  intros Hr. revert b b' n. induction s as [|c s IH]; intros b b' n; [reflexivity|].
  destruct n as [|n].
  - rewrite !replace_from_cons. rewrite (Hr b b').
    destruct (is_prefix needle (String c s)); f_equal; apply IH.
  - change (replace_from needle repl (b +:+ String c EmptyString) n s
            = replace_from needle repl (b' +:+ String c EmptyString) n s).
    apply IH.
Qed.

Lemma replace_no_occurrence (needle repl b s : string) :
  occurs needle s = false -> replace_from needle repl b O s = s.
Proof.
  revert b. induction s as [|c s IH]; intros b; [reflexivity|].
  simpl occurs. intros H. apply orb_false_elim in H as [Hp Hs].
  rewrite replace_from_cons, Hp. now rewrite IH.
Qed.

(** X11.  The self-contained [renderBlocks], given one variable whose value
    has no dollar sign, is compositional around a placeholder of that
    variable, whatever text comes before and after it: both texts are
    rendered on their own and the value stands between them as it is.  The
    key is an identifier, so that the pattern built from it matches the
    placeholder text literally. *)
Theorem self_contained_inserts_plain_value (pre key post value : string) :
  all_word key = true -> JS.truthy key = true ->
  JS.contains "$" value = false ->
  renderBlocks SelfContained (pre +:+ placeholder key +:+ post) [(key, Some value)]
  = renderBlocks SelfContained pre [(key, Some value)]
    +:+ value
    +:+ renderBlocks SelfContained post [(key, Some value)].
Proof.
  intros Hw Ht Hv.
  change (replaceAll (placeholder key) value (pre +:+ placeholder key +:+ post)
          = replaceAll (placeholder key) value pre
            +:+ value +:+ replaceAll (placeholder key) value post).
  rewrite (replace_around key value pre post Hw Ht).
  - rewrite (expand_plain value _ _ _ Hv). do 2 f_equal.
    now apply replace_before_irrelevant.
  - intros b a a'. now rewrite !expand_plain.
Qed.

Lemma self_contained_inserts_plain_value_witness :
  renderBlocks SelfContained
    (Fixture.blocks_before +:+ placeholder "first_name" +:+ Fixture.blocks_after)
    [("first_name", Some "Ann")]
  = Fixture.blocks_before +:+ "Ann" +:+ ", Ann" +:+ Fixture.blocks_end.
Proof.
  rewrite (self_contained_inserts_plain_value Fixture.blocks_before "first_name"
             Fixture.blocks_after "Ann"); reflexivity.
Defined.

(** X12.  In the self-contained [renderBlocks] the value is used as the
    replacement string of [String.prototype.replace], so dollar sequences in
    it are interpreted, whatever text surrounds the placeholder: two dollar
    signs come out as one, dollar-ampersand brings the placeholder text
    back, and dollar-backtick repeats the whole text that precedes the
    placeholder (stated for a placeholder that does not occur again after
    it). *)
Theorem self_contained_interprets_dollars (pre key post value : string) :
  all_word key = true -> JS.truthy key = true ->
  JS.contains "$" value = false ->
  renderBlocks SelfContained (pre +:+ placeholder key +:+ post)
    [(key, Some ("$$" +:+ value))]
  = renderBlocks SelfContained pre [(key, Some ("$$" +:+ value))]
    +:+ "$" +:+ value
    +:+ renderBlocks SelfContained post [(key, Some ("$$" +:+ value))] /\
  renderBlocks SelfContained (pre +:+ placeholder key +:+ post)
    [(key, Some ("$&" +:+ value))]
  = renderBlocks SelfContained pre [(key, Some ("$&" +:+ value))]
    +:+ placeholder key +:+ value
    +:+ renderBlocks SelfContained post [(key, Some ("$&" +:+ value))] /\
  (occurs (placeholder key) post = false ->
   renderBlocks SelfContained (pre +:+ placeholder key +:+ post)
     [(key, Some ("$`" +:+ value))]
   = renderBlocks SelfContained pre [(key, Some ("$`" +:+ value))]
     +:+ pre +:+ value +:+ post).
Proof.
  intros Hw Ht Hv.
  assert (H1 : forall m b a, expand ("$$" +:+ value) m b a = "$" +:+ value).
  { intros m b a.
    change (String "$" (expand value m b a) = String "$" value).
    now rewrite expand_plain. }
  assert (H2 : forall m b a, expand ("$&" +:+ value) m b a = m +:+ value).
  { intros m b a. change (m +:+ expand value m b a = m +:+ value).
    now rewrite expand_plain. }
  assert (H3 : forall m b a, expand ("$`" +:+ value) m b a = b +:+ value).
  { intros m b a. change (b +:+ expand value m b a = b +:+ value).
    now rewrite expand_plain. }
  split; [|split].
  - change (replaceAll (placeholder key) ("$$" +:+ value)
              (pre +:+ placeholder key +:+ post)
            = replaceAll (placeholder key) ("$$" +:+ value) pre
              +:+ "$" +:+ value
              +:+ replaceAll (placeholder key) ("$$" +:+ value) post).
    rewrite (replace_around key _ pre post Hw Ht)
      by (intros; now rewrite !H1).
    rewrite H1, string_app_assoc. do 3 f_equal.
    apply replace_before_free. intros. now rewrite !H1.
  - change (replaceAll (placeholder key) ("$&" +:+ value)
              (pre +:+ placeholder key +:+ post)
            = replaceAll (placeholder key) ("$&" +:+ value) pre
              +:+ placeholder key +:+ value
              +:+ replaceAll (placeholder key) ("$&" +:+ value) post).
    rewrite (replace_around key _ pre post Hw Ht)
      by (intros; now rewrite !H2).
    rewrite H2, string_app_assoc. do 3 f_equal.
    apply replace_before_free. intros. now rewrite !H2.
  - intros Hpost.
    change (replaceAll (placeholder key) ("$`" +:+ value)
              (pre +:+ placeholder key +:+ post)
            = replaceAll (placeholder key) ("$`" +:+ value) pre
              +:+ pre +:+ value +:+ post).
    rewrite (replace_around key _ pre post Hw Ht)
      by (intros; now rewrite !H3).
    rewrite H3, string_app_assoc. do 3 f_equal.
    now apply replace_no_occurrence.
Qed.

Lemma self_contained_interprets_dollars_witness :
  renderBlocks SelfContained
    (Fixture.blocks_before +:+ placeholder "due_date" +:+ Fixture.blocks_after)
    [("due_date", Some ("$$" +:+ "5 a day"))]
  = Fixture.blocks_before +:+ "$" +:+ "5 a day" +:+ Fixture.blocks_after.
Proof.
  rewrite (proj1 (self_contained_interprets_dollars Fixture.blocks_before "due_date"
                    Fixture.blocks_after "5 a day" eq_refl eq_refl eq_refl)).
  reflexivity.
Defined.

Lemma all_word_no_dollar (key : string) :
  all_word key = true -> JS.contains "$" key = false.
Proof.
  induction key as [|c key IH]; [reflexivity|].
  simpl. intros H. apply andb_prop in H as [Hc Hk].
  rewrite (IH Hk), orb_false_r.
  destruct (Ascii.eqb c "$") eqn:He; [|reflexivity].
  apply Ascii.eqb_eq in He. subst c. discriminate Hc.
Qed.

Lemma placeholder_no_dollar (key : string) :
  all_word key = true -> JS.contains "$" (placeholder key) = false.
Proof.
  intros H. unfold placeholder.
  rewrite !contains_app, (all_word_no_dollar key H). reflexivity.
Qed.

(** X13.  The self-contained [renderBlocks] substitutes one variable after
    the other over the whole text, so a value that is itself a placeholder of
    a later variable is replaced in turn; the shared copy substitutes in one
    pass and leaves such a value as it is. *)
Theorem self_contained_resubstitutes_values (k1 k2 value : string) :
  all_word k1 = true -> JS.truthy k1 = true ->
  all_word k2 = true -> JS.truthy k2 = true ->
  JS.contains "$" value = false ->
  renderBlocks SelfContained (placeholder k1)
    [(k1, Some (placeholder k2)); (k2, Some value)] = value /\
  renderBlocks Shared (placeholder k1)
    [(k1, Some (placeholder k2)); (k2, Some value)] = placeholder k2.
Proof.
  intros Hw1 Ht1 Hw2 Ht2 Hv. split.
  - change (replaceAll (placeholder k2) value
              (renderBlocks SelfContained (EmptyString +:+ placeholder k1)
                 [(k1, Some (placeholder k2))]) = value).
    rewrite (self_contained_last_placeholder EmptyString k1 _ eq_refl).
    rewrite (expand_plain _ _ _ _ (placeholder_no_dollar k2 Hw2)).
    change (renderBlocks SelfContained (EmptyString +:+ placeholder k2)
              [(k2, Some value)] = value).
    rewrite (self_contained_last_placeholder EmptyString k2 _ eq_refl).
    now rewrite expand_plain.
  - rewrite <- (append_nil_r (placeholder k1)).
    rewrite (shared_placeholder_rendered _ k1 EmptyString Hw1 Ht1).
    unfold value_of. simpl. rewrite String.eqb_refl. apply append_nil_r.
Qed.

Lemma self_contained_resubstitutes_values_witness :
  renderBlocks SelfContained (placeholder "action_text")
    [("action_text", Some (placeholder "action_id")); ("action_id", Some "a1")]
  = "a1".
Proof.
  apply (self_contained_resubstitutes_values "action_text" "action_id" "a1");
    reflexivity.
Defined.

End RenderingProperties.

(** ** The portal's submissions and the resolver *)

Section PortalProperties.
Import Survey Portal.

Lemma ilike_wild_skip (p : ascii) (rest s : string) :
  Ascii.eqb p "%" || Ascii.eqb p "*" = true ->
  ilike rest s = true -> ilike (String p rest) s = true.
Proof.
  intros Hw H. simpl. rewrite Hw. destruct s; now rewrite H.
Qed.

Lemma ilike_wild_drop (p : ascii) (rest : string) (c : ascii) (s : string) :
  Ascii.eqb p "%" || Ascii.eqb p "*" = true ->
  ilike (String p rest) s = true -> ilike (String p rest) (String c s) = true.
Proof.
  intros Hw H. simpl in *. rewrite Hw in *. rewrite H. apply orb_true_r.
Qed.

(** An address without a backslash, used as an [ilike] pattern, matches its
    own lower-case form. *)
Lemma ilike_self (e : string) :
  JS.contains "\" e = false -> ilike e (JS.toLowerCase e) = true.
Proof.
  induction e as [|p rest IH]; intros H; [reflexivity|].
  apply contains_cons in H as [Hp Hrest]. specialize (IH Hrest).
  change (JS.toLowerCase (String p rest))
    with (String (JS.lower_char p) (JS.toLowerCase rest)).
  destruct (Ascii.eqb p "%" || Ascii.eqb p "*") eqn:Hw.
  - apply ilike_wild_drop; [exact Hw|]. now apply ilike_wild_skip.
  - simpl. rewrite Hw. destruct (Ascii.eqb p "_"); [exact IH|].
    rewrite Hp, lower_char_idem, Ascii.eqb_refl. exact IH.
Qed.

Lemma find_ext_in {A : Type} (f g : A -> bool) (l : list A) :
  (forall x, f x = g x) -> List.find f l = List.find g l.
Proof.
  intros H. induction l as [|x l IH]; simpl; [reflexivity|].
  now rewrite H, IH.
Qed.

Lemma in_take_1 {A : Type} (x : A) (l : list A) : In x (take 1 l) -> In x l.
Proof. destruct l as [|y l]; simpl; [tauto|]. intros [->|[]]. now left. Qed.

(** Every row the procedure returns comes from a session of that address
    that has no submission, and asks for the feedback survey. *)
Lemma get_pending_survey_In (db : Db) (email : string) (p : PendingSurvey) :
  In p (get_pending_survey db email) ->
  survey_type p = Some "scale_feedback" /\
  exists st, In st (session_tracking db) /\
             session_id p = st_id st /\
             JS.toLowerCase (st_employee_email st) = JS.toLowerCase email /\
             has_submission_sql db st = false.
Proof.
  unfold get_pending_survey. intros H.
  apply in_take_1, in_map_iff in H as (ps & <- & H).
  apply sort_by_In, filter_In in H as [H He]. apply String.eqb_eq in He.
  split; [exact (pending_surveys_kind db ps H)|].
  unfold pending_surveys in H.
  apply sort_by_In, in_flat_map in H as (st & Hst & H).
  destruct (String.eqb (st_status st) "Completed"); [|contradiction].
  destruct (is_milestone (st_appointment_number st)); [|contradiction].
  destruct (has_submission_sql db st) eqn:Hs; [contradiction|]. simpl in H.
  apply in_map_iff in H as (em & <- & _). simpl in *.
  exists st. auto.
Qed.

Lemma has_submission_sql_insert id email sid kind db st :
  has_submission_sql (insert_submission id email sid kind db) st
  = has_submission_sql db st
    || (String.eqb (JS.toLowerCase email) (JS.toLowerCase (st_employee_email st))
        && opt_eqb sid (st_id st)).
Proof.
  unfold has_submission_sql, insert_submission. simpl.
  rewrite existsb_app. simpl. now rewrite toLowerCase_idem, orb_false_r.
Qed.

Lemma has_submission_insert id email sid kind db e st :
  has_submission (insert_submission id email sid kind db) e st
  = has_submission db e st
    || (ilike e (JS.toLowerCase email) && opt_eqb sid (st_id st)).
Proof.
  unfold has_submission, insert_submission. simpl.
  rewrite existsb_app. simpl. now rewrite orb_false_r.
Qed.

Lemma baseline_insert id email sid kind db e :
  hasCompletedBaselineSurvey (insert_submission id email sid kind db) e
  = hasCompletedBaselineSurvey db e
    || (ilike e (JS.toLowerCase email) && String.eqb kind "grow_baseline").
Proof.
  unfold hasCompletedBaselineSurvey, insert_submission. simpl.
  rewrite existsb_app. simpl. now rewrite orb_false_r.
Qed.

(** X14.  Once [submitScaleFeedbackSurvey] has stored a submission for a
    session, [fetchPendingSurvey] for the same address no longer asks for
    that session, with the procedure deployed or not.  The address has no
    backslash, which [ilike] would read as an escape. *)
Theorem submitted_session_no_longer_pending (db : Db) (id email sid kind : string)
    (programType : option string) :
  JS.contains "\" email = false ->
  asks_for sid
    (fetchPendingSurvey (fst (submitScaleFeedbackSurvey (Some id) email sid kind db))
       email programType) = false.
Proof.
  intros Hb. simpl fst. set (db' := insert_submission id email (Some sid) kind db).
  unfold fetchPendingSurvey.
  destruct (if rpc_deployed db' then get_pending_survey db' email else [])
    as [|first rest] eqn:Hr.
  - destruct (fallback db' email programType) as [p|] eqn:Hf; [|reflexivity].
    apply fallback_oldest_unsurveyed in Hf as (st & _ & _ & Hs & -> & _).
    simpl. destruct (String.eqb (st_id st) sid) eqn:He; [|reflexivity].
    apply String.eqb_eq in He. unfold db' in Hs.
    rewrite has_submission_insert, (ilike_self email Hb) in Hs.
    simpl in Hs. rewrite <- He, String.eqb_refl, orb_true_r in Hs. discriminate.
  - destruct (rpc_deployed db'); [|discriminate].
    assert (Hin : In first (get_pending_survey db' email)) by (rewrite Hr; now left).
    apply get_pending_survey_In in Hin as (_ & st & _ & Hid & Hm & Hs).
    simpl. rewrite Hid. destruct (String.eqb (st_id st) sid) eqn:He; [|reflexivity].
    apply String.eqb_eq in He. unfold db' in Hs.
    rewrite has_submission_sql_insert, Hm in Hs.
    simpl in Hs. rewrite <- He, !String.eqb_refl, orb_true_r in Hs. discriminate.
Qed.

Lemma submitted_session_no_longer_pending_witness :
  asks_for "s3" (fetchPendingSurvey (Sample.surveys false) Sample.ann None) = true /\
  asks_for "s3"
    (fetchPendingSurvey
       (fst (submitScaleFeedbackSurvey (Some "sub2") Sample.ann "s3" "scale_feedback"
               (Sample.surveys false)))
       Sample.ann None) = false.
Proof.
  split; [reflexivity|].
  apply (submitted_session_no_longer_pending (Sample.surveys false) "sub2" Sample.ann
           "s3" "scale_feedback" None).
  reflexivity.
Defined.

Lemma pending_surveys_baseline id email kind db :
  pending_surveys (insert_submission id email None kind db) = pending_surveys db.
Proof.
  unfold pending_surveys. f_equal. simpl.
  apply flat_map_ext. intros st.
  now rewrite has_submission_sql_insert, andb_false_r, orb_false_r.
Qed.

(** X15.  [submitGrowBaselineSurvey] stores its submission without a
    session id, so no session is discharged by it: whatever
    [fetchPendingSurvey] asked for before, it asks for the same session
    afterwards, now with the feedback survey, and the baseline counts as on
    file, whether or not the score rows were accepted. *)
Theorem baseline_leaves_session_pending (t : Tables) (id email : string)
    (refused : bool) (competencyScores : list (string * Z))
    (programType : option string) (p : PendingSurvey) :
  JS.contains "\" email = false ->
  fetchPendingSurvey (t_surveys t) email programType = Some p ->
  let after :=
    t_surveys (fst (submitGrowBaselineSurvey (Some id) refused email
                      competencyScores t)) in
  hasCompletedBaselineSurvey after email = true /\
  exists p', fetchPendingSurvey after email programType = Some p' /\
             session_id p' = session_id p /\
             survey_type p' = Some "scale_feedback".
Proof.
  intros Hb Hp after.
  assert (Ha : after = insert_submission id email None "grow_baseline" (t_surveys t)).
  { unfold after, submitGrowBaselineSurvey, submit_grow.
    now destruct (scores_accepted refused competencyScores). }
  rewrite Ha. clear after Ha. set (db := t_surveys t) in *.
  assert (Hbase : hasCompletedBaselineSurvey
                    (insert_submission id email None "grow_baseline" db) email = true).
  { rewrite baseline_insert, (ilike_self email Hb). apply orb_true_r. }
  split; [exact Hbase|].
  unfold fetchPendingSurvey in *.
  change (rpc_deployed (insert_submission id email None "grow_baseline" db))
    with (rpc_deployed db).
  assert (Hg : get_pending_survey (insert_submission id email None "grow_baseline" db) email
               = get_pending_survey db email).
  { unfold get_pending_survey. now rewrite pending_surveys_baseline. }
  rewrite Hg.
  destruct (if rpc_deployed db then get_pending_survey db email else [])
    as [|first rest] eqn:Hr.
  - unfold fallback in *.
    change (milestone_sessions (insert_submission id email None "grow_baseline" db) email)
      with (milestone_sessions db email).
    rewrite (find_ext_in _ (fun st => negb (has_submission db email st))).
    2:{ intros st. now rewrite has_submission_insert, andb_false_r, orb_false_r. }
    destruct (List.find _ (milestone_sessions db email)) as [st|]; [|discriminate].
    simpl in *. injection Hp as <-. eexists. split; [reflexivity|].
    split; [reflexivity|]. simpl. unfold surveyType. rewrite Hbase.
    now destruct (isGrow st programType).
  - injection Hp as ->. exists p. split; [reflexivity|]. split; [reflexivity|].
    destruct (rpc_deployed db); [|discriminate].
    assert (Hin : In p (get_pending_survey db email)) by (rewrite Hr; now left).
    now apply get_pending_survey_In in Hin as [Hk _].
Qed.

Lemma baseline_leaves_session_pending_witness :
  survey_type <$> fetchPendingSurvey (Sample.surveys false) Sample.ann None
    = Some (Some "grow_baseline") /\
  hasCompletedBaselineSurvey
    (t_surveys (fst (submitGrowBaselineSurvey (Some "sub2") false Sample.ann
                       [("Change Management", 3)] (Fixture.survey_tables false))))
    Sample.ann = true.
Proof.
  split; [reflexivity|].
  apply (baseline_leaves_session_pending (Fixture.survey_tables false) "sub2" Sample.ann
           false [("Change Management", 3)] None
           {| session_id := "s3"; session_number := 3; session_date := 20430;
              coach_name := Some "Kim"; survey_type := Some "grow_baseline" |});
    reflexivity.
Defined.

(** X16.  The two inserts of [submitGrowBaselineSurvey] are separate
    statements: when the score rows are turned down (a score outside 1 to 5,
    or any other error), the call reports failure and stores no score, but
    the submission row stays, and the baseline counts as completed. *)
Theorem refused_scores_leave_baseline_on_file (t : Tables) (id email : string)
    (refused : bool) (competencyScores : list (string * Z)) :
  JS.contains "\" email = false ->
  scores_accepted refused competencyScores = false ->
  let result := submitGrowBaselineSurvey (Some id) refused email competencyScores t in
  snd result = false /\
  t_scores (fst result) = t_scores t /\
  hasCompletedBaselineSurvey (t_surveys (fst result)) email = true.
Proof.
  intros Hb Hr result. unfold result, submitGrowBaselineSurvey, submit_grow.
  rewrite Hr. simpl. split; [reflexivity|]. split; [reflexivity|].
  rewrite baseline_insert, (ilike_self email Hb). apply orb_true_r.
Qed.

Lemma refused_scores_leave_baseline_on_file_witness :
  snd (submitGrowBaselineSurvey (Some "sub2") false Sample.ann
         [("Change Management", 6)] (Fixture.survey_tables false)) = false /\
  hasCompletedBaselineSurvey
    (t_surveys (fst (submitGrowBaselineSurvey (Some "sub2") false Sample.ann
                       [("Change Management", 6)] (Fixture.survey_tables false))))
    Sample.ann = true.
Proof.
  pose proof (refused_scores_leave_baseline_on_file (Fixture.survey_tables false)
                "sub2" Sample.ann false [("Change Management", 6)]
                eq_refl eq_refl) as (H1 & _ & H3).
  split; [exact H1|exact H3].
Defined.

End PortalProperties.

(** ** Program names and the survey kind *)

Section ProgramProperties.
Import Survey Portal.

Lemma upper_nonempty (name : string) (c : ascii) (u : string) :
  JS.toUpperCase name = String c u -> JS.truthy name = true.
Proof. destruct name; [discriminate|reflexivity]. Qed.

Lemma prefix5 (a b c d e x1 x2 x3 x4 x5 : ascii) (u : string) :
  Template.is_prefix (String a (String b (String c (String d (String e EmptyString)))))
    (String x1 (String x2 (String x3 (String x4 (String x5 u))))) = true ->
  x1 = a /\ x2 = b /\ x3 = c /\ x4 = d /\ x5 = e.
Proof.
  simpl. rewrite !andb_true_iff, !Ascii.eqb_eq. intuition congruence.
Qed.

(** X17.  A program name that starts with GROW and goes on with a space or a
    hyphen, in any letter case, is a GROW program for [fetchProgramType],
    whatever the [programs] table holds; the resolver compares the whole
    name of the session's program with GROW, so for a session carrying that
    name it asks for the feedback survey, baseline or not. *)
Theorem cohort_name_is_grow_only_for_lookup (programs : Programs) (db : Db)
    (email name : string) (st : SessionRow) (programType : option string) :
  Template.is_prefix "GROW " (JS.toUpperCase name)
  || Template.is_prefix "GROW-" (JS.toUpperCase name) = true ->
  st_program_name st = Some name ->
  fetchProgramType programs (Some name) = Some "GROW" /\
  surveyType db email st programType = "scale_feedback".
Proof.
  intros Hp Hn. unfold fetchProgramType, surveyType, isGrow. rewrite Hn.
  destruct (JS.toUpperCase name) as [|x1 [|x2 [|x3 [|x4 [|x5 u]]]]] eqn:Hu;
    try (simpl in Hp; rewrite ?andb_false_r in Hp; discriminate Hp).
  rewrite (upper_nonempty name _ _ Hu).
  apply orb_prop in Hp as [Hp|Hp]; apply prefix5 in Hp as (-> & -> & -> & -> & ->);
    split; simpl; rewrite ?Hu; reflexivity.
Qed.

Lemma cohort_name_is_grow_only_for_lookup_witness :
  fetchProgramType Fixture.no_programs (Some "Grow - Cohort 1") = Some "GROW" /\
  surveyType (Sample.surveys false) Sample.ann Fixture.cohort_session (Some "GROW")
  = "scale_feedback".
Proof.
  apply (cohort_name_is_grow_only_for_lookup Fixture.no_programs (Sample.surveys false)
           Sample.ann "Grow - Cohort 1" Fixture.cohort_session (Some "GROW"));
    reflexivity.
Defined.

End ProgramProperties.

(** ** Action items from the portal *)

Section ActionItemProperties.
Import Store Portal.

Lemma set_status_reopens (now now' : Z) (row : ActionItemRow) :
  ai_status row = "pending" -> ai_completed_at row = None ->
  set_status now' "pending" (complete_row now row) = row.
Proof. destruct row; simpl; intros -> ->; reflexivity. Qed.

(** X18.  [updateActionItemStatus] never changes a row the signed-in user
    does not own under the table's policy, whatever id and status it is
    given, and it adds and removes no row. *)
Theorem portal_update_keeps_foreign_rows (now : Z) (who : Caller)
    (itemId status : string) (db : Db) (k : string) (row : ActionItemRow) :
  action_items db !! k = Some row ->
  employees_manage_own_actions who row = false ->
  action_items (fst (updateActionItemStatus now who itemId status db)) !! k = Some row
  /\ dom (action_items (fst (updateActionItemStatus now who itemId status db)))
     = dom (action_items db).
Proof.
  intros Hk Hown. unfold updateActionItemStatus.
  destruct (action_items db !! itemId) as [target|] eqn:Ht; [|now split].
  destruct (employees_manage_own_actions who target) eqn:Ho; [|now split].
  destruct (status_allowed status); [|now split]. simpl.
  assert (Hne : itemId <> k).
  { intros ->. rewrite Hk in Ht. injection Ht as ->. congruence. }
  split.
  - now rewrite lookup_insert_ne.
  - rewrite dom_insert_L. apply subseteq_union_1_L, singleton_subseteq_l.
    exact (elem_of_dom_2 _ _ _ Ht).
Qed.

Lemma portal_update_keeps_foreign_rows_witness :
  action_items
    (fst (updateActionItemStatus 1700000000000 Fixture.bob_signed_in "a1" "dismissed"
            Sample.store)) !! "a1" = Some Sample.pending_item.
Proof.
  apply (portal_update_keeps_foreign_rows 1700000000000 Fixture.bob_signed_in "a1"
           "dismissed" Sample.store "a1" Sample.pending_item); reflexivity.
Defined.

(** X19.  Completing an item from the portal writes what the Slack button
    writes, and setting it back to pending clears the completion time: for
    an owner, a pending item completed from Slack and reopened in the portal
    is the row it was. *)
Theorem portal_reopens_completed_item (now now' : Z) (who : Caller) (itemId : string)
    (db : Db) (row : ActionItemRow) :
  action_items db !! itemId = Some row ->
  employees_manage_own_actions who row = true ->
  ai_status row = "pending" -> ai_completed_at row = None ->
  updateActionItemStatus now who itemId "completed" db
    = (mark_completed now itemId db, true) /\
  updateActionItemStatus now' who itemId "pending" (mark_completed now itemId db)
    = (db, true).
Proof.
  intros Hk Hown Hs Hc. split.
  - unfold updateActionItemStatus. rewrite Hk, Hown. simpl.
    f_equal. unfold mark_completed, with_action_items. f_equal.
    apply map_eq. intros k. destruct (decide (k = itemId)) as [->|Hne].
    + rewrite lookup_insert_eq, lookup_alter_eq, Hk. reflexivity.
    + now rewrite lookup_insert_ne, lookup_alter_ne by congruence.
  - unfold updateActionItemStatus, mark_completed. simpl.
    rewrite lookup_alter_eq, Hk. simpl.
    change (employees_manage_own_actions who (complete_row now row))
      with (employees_manage_own_actions who row).
    rewrite Hown. simpl. f_equal. destruct db as [items nudges inst].
    unfold with_action_items. simpl in *. f_equal.
    rewrite (set_status_reopens now now' row Hs Hc).
    apply map_eq. intros k. destruct (decide (k = itemId)) as [->|Hne].
    + now rewrite lookup_insert_eq.
    + now rewrite lookup_insert_ne, lookup_alter_ne by congruence.
Qed.

Lemma portal_reopens_completed_item_witness :
  updateActionItemStatus 1700000100000 Fixture.ann_signed_in "a1" "pending"
    (mark_completed 1700000000000 "a1" Sample.store) = (Sample.store, true).
Proof.
  apply (portal_reopens_completed_item 1700000000000 1700000100000
           Fixture.ann_signed_in "a1" Sample.store Sample.pending_item);
    reflexivity.
Defined.

End ActionItemProperties.

(** ** The scheduler's report *)

Section ReportProperties.
Import Store Scheduler Report.

Lemma acknowledged_calls_snoc (w : World) (kind : string) (l : list Sent) (s : Sent) :
  acknowledged_calls w kind (l ++ [s])
  = acknowledged_calls w kind l
    + (if acknowledged w s && String.eqb (sent_kind s) kind then 1 else 0).
Proof.
  unfold acknowledged_calls. rewrite List.filter_app, length_app. simpl.
  destruct (acknowledged w s && String.eqb (sent_kind s) kind); simpl; lia.
Qed.

Lemma deliver_tallied v w kind mail ref ref_type conn vs text c :
  tallied w c -> tallied w (deliver v w kind mail ref ref_type conn vs text c).
Proof.
  intros (Ha & Hg & Hs). unfold deliver, tallied.
  repeat case_match; simpl in *; rewrite ?acknowledged_calls_snoc;
    unfold acknowledged; simpl;
    repeat match goal with H : w_send w _ = _ |- _ => rewrite H end;
    repeat match goal with H : JS.truthy _ = _ |- _ => rewrite H end;
    simpl; rewrite ?Z.add_0_r; auto.
  all: rewrite Ha, Hg, Hs; auto.
Qed.

(** X20.  The counters a cycle reports are the calls of [chat.postMessage]
    that Slack acknowledged with a timestamp, kind by kind: a call that threw
    or was answered without [ok] or without [ts] is in no counter, and
    nothing is counted without a call. *)
Theorem report_counts_acknowledged_calls (v : variant) (w : World) (db : Db) :
  let c := run_cycle v w db in
  action_reminders_sent (c_results c)
    = acknowledged_calls w "action_reminder" (c_outbox c) /\
  goal_checkins_sent (c_results c)
    = acknowledged_calls w "goal_checkin" (c_outbox c) /\
  session_preps_sent (c_results c)
    = acknowledged_calls w "session_prep" (c_outbox c).
Proof.
  change (tallied w (run_cycle v w db)). unfold run_cycle.
  apply fold_left_invariant.
  { intros c x Hc. unfold prepare_session.
    repeat case_match; try exact Hc; now apply deliver_tallied. }
  apply fold_left_invariant.
  { intros c x Hc. unfold checkin_goal.
    repeat case_match; try exact Hc; now apply deliver_tallied. }
  apply fold_left_invariant.
  { intros c x Hc. unfold remind_action.
    repeat case_match; try exact Hc; now apply deliver_tallied. }
  repeat split.
Qed.

End ReportProperties.

(** ** The resolver on the sample tables *)

Lemma fallback_finds_witness :
  is_Some (Survey.fallback (Sample.surveys false) Sample.ann None).
Proof.
  apply (fallback_finds (Sample.surveys false) Sample.ann None
           (Sample.session "s3" 3 20430)).
  - simpl. auto.
  - reflexivity.
  - reflexivity.
Defined.

(** ** The slack-oauth function *)

Section OAuthProperties.
Import OAuth.

Lemma append_inj_prefix (p a b : string) : p +:+ a = p +:+ b -> a = b.
Proof.
  induction p as [|c p IH]; intros H; [exact H|].
  apply IH. now injection H.
Qed.

Lemma present_Some (o : option string) (s : string) :
  present o = Some s -> o = Some s.
Proof.
  unfold present. destruct o as [x|]; [|discriminate].
  now destruct (JS.truthy x).
Qed.

Lemma redirect_params (v : variant) (w : World) (a b : string) :
  redirectToPortal v w a = redirectToPortal v w b -> a = b.
Proof.
  unfold redirectToPortal. intros H. injection H as H.
  now do 2 apply append_inj_prefix in H.
Qed.

(** X25.  The callback writes to no table unless Slack granted the exchange:
    when [oauth.v2.access] never answers [ok], every callback request leaves
    both tables as they were. *)
Theorem callback_writes_nothing_without_token (v : variant) (w : World)
    (req : Request) (t : Tables) :
  (forall clientId clientSecret code uri answer,
      w_exchange w clientId clientSecret code uri = Some answer ->
      tr_ok answer = false) ->
  r_action req = Some "callback" ->
  snd (handle v w req t) = t.
Proof.
  intros Hno Ha. unfold handle. rewrite Ha.
  destruct (String.eqb (r_method req) "OPTIONS"); [reflexivity|]. simpl.
  unfold callback.
  destruct (present (r_error req)); [reflexivity|].
  destruct (present (r_code req)) as [code|]; [|reflexivity].
  destruct (present (r_state req)) as [state|]; [|reflexivity].
  destruct (w_decode_state w state) as [mail|]; [|reflexivity].
  destruct (present (w_client_id w)) as [cid|]; [|reflexivity].
  destruct (present (w_client_secret w)) as [cs|]; [|reflexivity].
  destruct (w_exchange w cid cs code (redirectUri req)) as [answer|] eqn:He;
    [|reflexivity].
  now rewrite (Hno _ _ _ _ _ He).
Qed.

Lemma callback_writes_nothing_without_token_witness :
  snd (handle Shared (Fixture.oauth_world Fixture.token_denied (Some "U2147483697"))
         (Fixture.oauth_request "GET" "callback") Fixture.ann_connected)
  = Fixture.ann_connected.
Proof.
  apply (callback_writes_nothing_without_token Shared
           (Fixture.oauth_world Fixture.token_denied (Some "U2147483697"))
           (Fixture.oauth_request "GET" "callback") Fixture.ann_connected).
  - intros ? ? ? ? answer H. injection H as <-. reflexivity.
  - reflexivity.
Defined.

Lemma connect_user_not_found v w mail token team t :
  fst (connect v w mail token team t) = redirectToPortal v w "error=user_not_found" ->
  snd (connect v w mail token team t) = t.
Proof.
  unfold connect. repeat case_match; simpl; try reflexivity.
  all: intros Hr; apply redirect_params in Hr; discriminate Hr.
Qed.

(** X26.  The installation is saved before the user is looked up: a callback
    answered with [error=user_not_found] has stored the workspace's bot token
    (unless that statement itself failed) and has left the connections as
    they were. *)
Theorem user_not_found_keeps_installation (v : variant) (w : World)
    (req : Request) (t : Tables) :
  r_action req = Some "callback" ->
  w_install_error w = false ->
  fst (handle v w req t) = redirectToPortal v w "error=user_not_found" ->
  employee_slack_connections (snd (handle v w req t))
    = employee_slack_connections t /\
  exists code clientId clientSecret answer team token,
    r_code req = Some code /\
    w_exchange w clientId clientSecret code (redirectUri req) = Some answer /\
    tr_team answer = Some team /\
    tr_access_token answer = Some token /\
    in_bot_token <$> (slack_installations (snd (handle v w req t)) !! team.1)
      = Some token.
Proof.
  intros Ha Hi. unfold handle, callback. rewrite Ha, Hi. simpl.
  repeat case_match; simpl; try discriminate;
    try (intros Hr; apply redirect_params in Hr; discriminate Hr).
  all: intros Hr; rewrite (connect_user_not_found _ _ _ _ _ _ Hr); simpl;
    split; [reflexivity|]; do 6 eexists;
    split; [apply present_Some; eassumption|];
    split; [eassumption|]; split; [eassumption|];
    split; [apply present_Some; eassumption|];
    unfold upsert_installation; now rewrite lookup_insert_eq.
Qed.

Lemma user_not_found_keeps_installation_witness :
  fst (handle Shared (Fixture.oauth_world Fixture.token_granted None)
         (Fixture.oauth_request "GET" "callback") Fixture.no_connections)
    = redirectToPortal Shared (Fixture.oauth_world Fixture.token_granted None)
        "error=user_not_found" /\
  employee_slack_connections
    (snd (handle Shared (Fixture.oauth_world Fixture.token_granted None)
            (Fixture.oauth_request "GET" "callback") Fixture.no_connections))
    = [].
Proof.
  split; [reflexivity|].
  apply (user_not_found_keeps_installation Shared
           (Fixture.oauth_world Fixture.token_granted None)
           (Fixture.oauth_request "GET" "callback") Fixture.no_connections);
    reflexivity.
Defined.

Lemma same_connection_key (email team : string) (row : ConnectionRow) :
  same_connection email team row = true ->
  cn_employee_email row = Some email /\ cn_slack_team_id row = team.
Proof.
  unfold same_connection. destruct (cn_employee_email row) as [e|]; [|discriminate].
  intros H. apply andb_prop in H as [He Ht].
  apply String.eqb_eq in He, Ht. now subst.
Qed.

Lemma upsert_connection_row (w : World) (email : option string) (team user : string)
    (dm : option string) (rows : list ConnectionRow) :
  exists row,
    In row (upsert_connection w email team user dm rows) /\
    cn_employee_email row = email /\ cn_slack_team_id row = team /\
    cn_slack_user_id row = user /\
    cn_nudge_enabled row = true /\ cn_nudge_frequency row = "smart".
Proof.
  unfold upsert_connection.
  destruct email as [e|].
  - destruct (existsb (same_connection e team) rows) eqn:Hex.
    + apply existsb_exists in Hex as (old & Hin & Hsame).
      exists (reconnect user dm old). split.
      * apply in_map_iff. exists old. now rewrite Hsame.
      * apply same_connection_key in Hsame as [He Ht]. simpl. auto.
    + eexists. split; [apply in_or_app; right; left; reflexivity|]. simpl. auto.
  - eexists. split; [apply in_or_app; right; left; reflexivity|]. simpl. auto.
Qed.

(** X27.  A callback the shared function answers with
    [slack_connected=true] has left a connection row for the address of the
    state with nudges switched on and the frequency [smart], whatever the row
    said before. *)
Theorem connected_reply_means_nudges_on (w : World) (req : Request) (t : Tables) :
  r_action req = Some "callback" ->
  fst (handle Shared w req t) = redirectToPortal Shared w "slack_connected=true" ->
  exists row state,
    In row (employee_slack_connections (snd (handle Shared w req t))) /\
    r_state req = Some state /\
    w_decode_state w state = Some (cn_employee_email row) /\
    cn_nudge_enabled row = true /\ cn_nudge_frequency row = "smart".
Proof.
  intros Ha. unfold handle, callback, connect. rewrite Ha. simpl.
  repeat case_match; simpl; try discriminate;
    try (intros Hr; apply redirect_params in Hr; discriminate Hr).
  all: intros _;
    match goal with
    | |- context [upsert_connection ?w' ?m ?tm ?u ?d ?rows] =>
        destruct (upsert_connection_row w' m tm u d rows)
          as (row & Hin & He & _ & _ & Hon & Hf)
    end;
    exists row; eexists;
    split; [exact Hin|]; split; [apply present_Some; eassumption|]; rewrite He;
    split; [eassumption|]; split; assumption.
Qed.

Lemma connected_reply_means_nudges_on_witness :
  employee_slack_connections
    (snd (handle Shared
            (Fixture.oauth_world Fixture.token_granted (Some "U2147483697"))
            (Fixture.oauth_request "GET" "callback") Fixture.ann_connected))
  = [ reconnect "U2147483697" (Some "D024BE91L") Fixture.ann_connection ] /\
  exists row state,
    In row
      (employee_slack_connections
         (snd (handle Shared
                 (Fixture.oauth_world Fixture.token_granted (Some "U2147483697"))
                 (Fixture.oauth_request "GET" "callback") Fixture.ann_connected))) /\
    OAuth.r_state (Fixture.oauth_request "GET" "callback") = Some state /\
    w_decode_state (Fixture.oauth_world Fixture.token_granted (Some "U2147483697"))
      state = Some (cn_employee_email row) /\
    cn_nudge_enabled row = true /\ cn_nudge_frequency row = "smart".
Proof.
  split; [reflexivity|].
  apply (connected_reply_means_nudges_on
           (Fixture.oauth_world Fixture.token_granted (Some "U2147483697"))
           (Fixture.oauth_request "GET" "callback") Fixture.ann_connected);
    reflexivity.
Defined.

Lemma upsert_connection_keeps (w : World) (email : option string) (team user : string)
    (dm : option string) (rows : list ConnectionRow) :
  map (fun row => (cn_employee_email row, cn_slack_team_id row,
                   cn_preferred_time row, cn_timezone row))
      (take (length rows) (upsert_connection w email team user dm rows))
  = map (fun row => (cn_employee_email row, cn_slack_team_id row,
                     cn_preferred_time row, cn_timezone row)) rows.
Proof.
  unfold upsert_connection.
  assert (Happ : forall fresh : ConnectionRow,
             take (length rows) (rows ++ [fresh]) = rows).
  { intros fresh. now rewrite take_app_length. }
  destruct email as [e|]; [|now rewrite Happ].
  destruct (existsb (same_connection e team) rows); [|now rewrite Happ].
  rewrite <- (length_map (fun row => if same_connection e team row
                                      then reconnect user dm row else row) rows)
    at 1.
  rewrite firstn_all, map_map. apply map_ext. intros row.
  now destruct (same_connection e team row).
Qed.

(** X28.  A callback never removes a connection and never touches the
    preferred time or the time zone: whatever it answers, the rows that were
    there are still there, in place, under the same address and workspace and
    with the same schedule. *)
Theorem callback_keeps_rows_and_schedule (v : variant) (w : World) (req : Request)
    (t : Tables) :
  r_action req = Some "callback" ->
  let schedule (row : ConnectionRow) :=
    (cn_employee_email row, cn_slack_team_id row,
     cn_preferred_time row, cn_timezone row) in
  map schedule
    (take (length (employee_slack_connections t))
       (employee_slack_connections (snd (handle v w req t))))
  = map schedule (employee_slack_connections t).
Proof.
  intros Ha schedule.
  assert (Hsame : forall t' : Tables,
             employee_slack_connections t' = employee_slack_connections t ->
             map schedule (take (length (employee_slack_connections t))
                             (employee_slack_connections t'))
             = map schedule (employee_slack_connections t)).
  { intros t' ->. now rewrite firstn_all. }
  assert (Hconnect : forall mail token team (t1 : Tables),
             employee_slack_connections t1 = employee_slack_connections t ->
             map schedule (take (length (employee_slack_connections t))
                             (employee_slack_connections
                                (snd (connect v w mail token team t1))))
             = map schedule (employee_slack_connections t)).
  { intros mail token team t1 H1. unfold connect.
    repeat case_match; simpl; try (now apply Hsame).
    rewrite H1. apply upsert_connection_keeps. }
  unfold handle. rewrite Ha.
  destruct (String.eqb (r_method req) "OPTIONS"); [now apply Hsame|]. simpl.
  unfold callback.
  repeat case_match; simpl; try (now apply Hsame); now apply Hconnect.
Qed.

Lemma callback_keeps_rows_and_schedule_witness :
  map cn_preferred_time
    (employee_slack_connections
       (snd (handle Shared
               (Fixture.oauth_world Fixture.token_granted (Some "U2147483697"))
               (Fixture.oauth_request "GET" "callback") Fixture.ann_connected)))
  = [Some "23:00"] /\
  map (fun row => (cn_employee_email row, cn_slack_team_id row,
                   cn_preferred_time row, cn_timezone row))
    (take 1
       (employee_slack_connections
          (snd (handle Shared
                  (Fixture.oauth_world Fixture.token_granted (Some "U2147483697"))
                  (Fixture.oauth_request "GET" "callback") Fixture.ann_connected))))
  = [ (Some "Ann@Example.com", "T0001", Some "23:00", Some "Europe/Paris") ].
Proof.
  split; [reflexivity|].
  apply (callback_keeps_rows_and_schedule Shared
           (Fixture.oauth_world Fixture.token_granted (Some "U2147483697"))
           (Fixture.oauth_request "GET" "callback") Fixture.ann_connected).
  reflexivity.
Defined.

Lemma mixed_case_not_stored_under (mail : string) (row : ConnectionRow) :
  mixed_case row = true -> stored_under (JS.toLowerCase mail) row = false.
Proof.
  unfold mixed_case, stored_under.
  destruct (cn_employee_email row) as [e|]; [|reflexivity].
  intros H. destruct (String.eqb e (JS.toLowerCase mail)) eqn:He; [|reflexivity].
  apply String.eqb_eq in He. subst e.
  now rewrite toLowerCase_idem, String.eqb_refl in H.
Qed.

Lemma filter_mixed_case_delete (mail : string) (rows : list ConnectionRow) :
  List.filter mixed_case
    (List.filter (fun row => negb (stored_under (JS.toLowerCase mail) row)) rows)
  = List.filter mixed_case rows.
Proof.
  induction rows as [|row rows IH]; [reflexivity|]. simpl.
  destruct (mixed_case row) eqn:Hm.
  - rewrite (mixed_case_not_stored_under mail row Hm). simpl. now rewrite Hm, IH.
  - destruct (negb (stored_under (JS.toLowerCase mail) row)); simpl;
      [now rewrite Hm|exact IH].
Qed.

Lemma filter_mixed_case_update (mail : string) (body : Settings)
    (rows : list ConnectionRow) :
  List.filter mixed_case
    (map (fun row => if stored_under (JS.toLowerCase mail) row
                     then apply_settings body row else row) rows)
  = List.filter mixed_case rows.
Proof.
  induction rows as [|row rows IH]; [reflexivity|]. simpl.
  destruct (stored_under (JS.toLowerCase mail) row) eqn:Hs.
  - change (mixed_case (apply_settings body row)) with (mixed_case row).
    destruct (mixed_case row) eqn:Hm; [|exact IH].
    rewrite (mixed_case_not_stored_under mail row Hm) in Hs. discriminate.
  - now rewrite IH.
Qed.

(** X29.  The signed-in actions look a connection up under the lower-case
    form of the user's address, while the callback stores the address as the
    state has it: a row stored under an address that is not in lower case is
    not removed by any disconnect, not changed by any settings request and
    not reported by any status request. *)
Theorem mixed_case_connection_out_of_reach (v : variant) (w : World) (req : Request)
    (t : Tables) :
  r_action req <> Some "callback" ->
  List.filter mixed_case (employee_slack_connections (snd (handle v w req t)))
    = List.filter mixed_case (employee_slack_connections t) /\
  forall row, fst (handle v w req t) = StatusReport (Some row) ->
              mixed_case row = false.
Proof.
  intros Ha. unfold handle.
  destruct (String.eqb (r_method req) "OPTIONS"); [split; [reflexivity|discriminate]|].
  destruct (r_action req) as [action|]; [|split; [reflexivity|discriminate]].
  destruct (String.eqb action "start").
  { unfold start. repeat case_match; split; try reflexivity; discriminate. }
  destruct (String.eqb action "callback") eqn:Hc.
  { apply String.eqb_eq in Hc. now subst action. }
  destruct (String.eqb action "disconnect").
  { unfold disconnect, authenticated.
    repeat case_match; simpl; split; try reflexivity; try discriminate.
    apply filter_mixed_case_delete. }
  destruct (String.eqb action "status").
  { unfold status, authenticated.
    repeat case_match; simpl; split; try reflexivity; try discriminate.
    intros row Hr. injection Hr as ->.
    match goal with
    | H : List.filter (stored_under (JS.toLowerCase ?m)) _ = [row] |- _ =>
        assert (Hin : In row (List.filter (stored_under (JS.toLowerCase m))
                                (employee_slack_connections t)))
          by (rewrite H; now left);
        apply filter_In in Hin as [_ Hs];
        destruct (mixed_case row) eqn:Hm; [|reflexivity];
        rewrite (mixed_case_not_stored_under m row Hm) in Hs; discriminate
    end. }
  destruct (String.eqb action "settings" && String.eqb (r_method req) "POST");
    [|split; [reflexivity|discriminate]].
  unfold settings, authenticated.
  repeat case_match; simpl; split; try reflexivity; try discriminate.
  apply filter_mixed_case_update.
Qed.

Lemma mixed_case_connection_out_of_reach_witness :
  handle Shared (Fixture.oauth_world Fixture.token_granted (Some "U2147483697"))
    (Fixture.oauth_request "POST" "disconnect") Fixture.ann_connected
  = (Success, Fixture.ann_connected) /\
  List.filter mixed_case
    (employee_slack_connections
       (snd (handle Shared
               (Fixture.oauth_world Fixture.token_granted (Some "U2147483697"))
               (Fixture.oauth_request "POST" "disconnect") Fixture.ann_connected)))
  = [Fixture.ann_connection].
Proof.
  split; [reflexivity|].
  apply (mixed_case_connection_out_of_reach Shared
           (Fixture.oauth_world Fixture.token_granted (Some "U2147483697"))
           (Fixture.oauth_request "POST" "disconnect") Fixture.ann_connected).
  discriminate.
Defined.

End OAuthProperties.

(** ** What the procedure returns *)

Section ProcedureProperties.
Import Survey.

(** The rows of the view: one for each completed milestone session without
    a submission, joined with its row of [employee_manager]. *)
Lemma pending_surveys_rows (db : Db) (ps : PendingRow) :
  In ps (pending_surveys db) <->
  exists st em,
    In st (session_tracking db) /\ In em (employee_manager db) /\
    st_employee_id st = em_id em /\
    st_status st = "Completed" /\
    is_milestone (st_appointment_number st) = true /\
    has_submission_sql db st = false /\
    ps = {| ps_session_id := st_id st;
            ps_email := st_employee_email st;
            ps_session_date := st_session_date st;
            ps_session_number := st_appointment_number st;
            ps_coach_name := st_coach_name st;
            ps_program_type := em_program em;
            ps_suggested_survey_type := Some "scale_feedback" |}.
Proof.
  unfold pending_surveys. rewrite sort_by_In, in_flat_map. split.
  - intros (st & Hst & H).
    destruct (String.eqb (st_status st) "Completed") eqn:Hc; [|contradiction].
    destruct (is_milestone (st_appointment_number st)) eqn:Hm; [|contradiction].
    destruct (has_submission_sql db st) eqn:Hs; [contradiction|]. simpl in H.
    apply in_map_iff in H as (em & <- & Hem).
    apply filter_In in Hem as [Hem Hid].
    apply String.eqb_eq in Hc, Hid. exists st, em. auto 10.
  - intros (st & em & Hst & Hem & Hid & Hc & Hm & Hs & ->).
    exists st. split; [exact Hst|].
    rewrite Hc, Hm, Hs. simpl. apply in_map_iff. exists em.
    split; [reflexivity|]. apply filter_In. split; [exact Hem|].
    now apply String.eqb_eq.
Qed.

(** X23.  [get_pending_survey] returns at most one row; the row it returns
    is a completed milestone session of the address asked for (letter case
    apart) that has no submission and whose employee is on file, it carries
    the feedback survey as its kind, and no other such session is more
    recent; and it returns a row whenever there is such a session. *)
Theorem procedure_returns_latest_pending_session (db : Db) (email : string) :
  (forall p rest,
      get_pending_survey db email = p :: rest ->
      rest = [] /\
      survey_type p = Some "scale_feedback" /\
      (exists st em,
          In st (session_tracking db) /\ In em (employee_manager db) /\
          st_employee_id st = em_id em /\
          JS.toLowerCase (st_employee_email st) = JS.toLowerCase email /\
          st_status st = "Completed" /\
          is_milestone (st_appointment_number st) = true /\
          has_submission_sql db st = false /\
          session_id p = st_id st /\
          session_number p = st_appointment_number st /\
          session_date p = st_session_date st /\
          coach_name p = st_coach_name st) /\
      (forall st em,
          In st (session_tracking db) -> In em (employee_manager db) ->
          st_employee_id st = em_id em ->
          JS.toLowerCase (st_employee_email st) = JS.toLowerCase email ->
          st_status st = "Completed" ->
          is_milestone (st_appointment_number st) = true ->
          has_submission_sql db st = false ->
          st_session_date st <= session_date p)) /\
  (forall st em,
      In st (session_tracking db) -> In em (employee_manager db) ->
      st_employee_id st = em_id em ->
      JS.toLowerCase (st_employee_email st) = JS.toLowerCase email ->
      st_status st = "Completed" ->
      is_milestone (st_appointment_number st) = true ->
      has_submission_sql db st = false ->
      exists p, get_pending_survey db email = [p]).
Proof.
  split.
  - intros p rest Hp.
    destruct (procedure_most_recent db email p rest Hp) as (Hrest & Hkind & Hmax).
    split; [exact Hrest|]. split; [exact Hkind|]. split.
    + assert (Hin : In p (get_pending_survey db email)) by (rewrite Hp; now left).
      unfold get_pending_survey in Hin.
      apply in_take_1, in_map_iff in Hin as (ps & <- & Hin).
      apply sort_by_In, filter_In in Hin as [Hin He]. apply String.eqb_eq in He.
      apply pending_surveys_rows in Hin
        as (st & em & Hst & Hem & Hid & Hc & Hm & Hs & ->).
      exists st, em. simpl in *. auto 15.
    + intros st em Hst Hem Hid He Hc Hm Hs.
      apply (Hmax {| ps_session_id := st_id st;
                     ps_email := st_employee_email st;
                     ps_session_date := st_session_date st;
                     ps_session_number := st_appointment_number st;
                     ps_coach_name := st_coach_name st;
                     ps_program_type := em_program em;
                     ps_suggested_survey_type := Some "scale_feedback" |});
        [|exact He].
      apply pending_surveys_rows. exists st, em. auto 10.
  - intros st em Hst Hem Hid He Hc Hm Hs.
    assert (Hin : In {| ps_session_id := st_id st;
                        ps_email := st_employee_email st;
                        ps_session_date := st_session_date st;
                        ps_session_number := st_appointment_number st;
                        ps_coach_name := st_coach_name st;
                        ps_program_type := em_program em;
                        ps_suggested_survey_type := Some "scale_feedback" |}
                   (pending_surveys db)).
    { apply pending_surveys_rows. exists st, em. auto 10. }
    destruct (get_pending_survey db email) as [|p rest] eqn:Hp.
    + exfalso. unfold get_pending_survey in Hp.
      set (sorted := sort_by _ _) in Hp.
      assert (Hs' : In {| ps_session_id := st_id st;
                          ps_email := st_employee_email st;
                          ps_session_date := st_session_date st;
                          ps_session_number := st_appointment_number st;
                          ps_coach_name := st_coach_name st;
                          ps_program_type := em_program em;
                          ps_suggested_survey_type := Some "scale_feedback" |}
                      sorted).
      { apply sort_by_In, filter_In. split; [exact Hin|].
        now apply String.eqb_eq. }
      destruct sorted; [contradiction|discriminate].
    + exists p. f_equal.
      now destruct (procedure_most_recent db email p rest Hp) as (-> & _).
Qed.

Lemma procedure_returns_latest_pending_session_witness :
  exists p, get_pending_survey (Sample.surveys true) Sample.ann = [p].
Proof.
  apply (proj2 (procedure_returns_latest_pending_session (Sample.surveys true)
                  Sample.ann)
           (Sample.session "s6" 6 20460)
           {| em_id := "17872"; em_program := Some "GROW" |});
    try reflexivity; simpl; auto.
Defined.

End ProcedureProperties.
